(** * wc_env_manager: the Docker session manager of [wc_env_manager/core.py]

    A shallow embedding of [WcEnvManager] and the properties of its path
    conversion, provisioning steps and container selection.

    Python strings are [string]; a [dict] whose iteration order matters is an
    association list in insertion order; the Docker daemon and the host are
    an oracle answering each call from the history of calls made so far, and
    every call is recorded in a trace. *)

From Stdlib Require Import String Ascii List ZArith Bool Lia Arith.
From Stdlib Require Import Sorting.Permutation Sorting.Sorted.
From Stdlib Require Import Numbers.DecimalString.
Import ListNotations.
Open Scope list_scope.
Open Scope string_scope.

(* ================================================================== *)
(** ** Python string primitives *)

Module Str.

(** [s.startswith(p)] *)
Definition startswith (s p : string) : bool := String.prefix p s.

(** [s.endswith('/')] *)
Fixpoint endswith_sep (s : string) : bool :=
  match s with
  | EmptyString => false
  | String c EmptyString => Ascii.eqb c "/"
  | String _ s' => endswith_sep s'
  end.

(** [s.split('/')]: one more piece than there are separators. *)
Fixpoint split_sep (s : string) : list string :=
  match s with
  | EmptyString => [""]
  | String c s' =>
      if Ascii.eqb c "/" then "" :: split_sep s'
      else match split_sep s' with
           | w :: ws => String c w :: ws
           | [] => [String c ""]
           end
  end.

(** ['/'.join(l)] *)
Definition join_sep (l : list string) : string := String.concat "/" l.

(** [s.rstrip('/')] *)
Fixpoint rstrip_sep (s : string) : string :=
  match s with
  | EmptyString => ""
  | String c s' =>
      match rstrip_sep s' with
      | EmptyString => if Ascii.eqb c "/" then "" else String c ""
      | r => String c r
      end
  end.

(** [s[0:-1]] *)
Fixpoint drop_last (s : string) : string :=
  match s with
  | EmptyString => ""
  | String _ EmptyString => ""
  | String c s' => String c (drop_last s')
  end.

(** [sub in s], which is what [re.search] decides for a pattern without
    metacharacters. *)
Fixpoint contains (s sub : string) : bool :=
  String.prefix sub s ||
  match s with
  | EmptyString => false
  | String _ s' => contains s' sub
  end.

(** [s.replace('\n', '\n  ')] *)
Fixpoint indent_newlines (s : string) : string :=
  match s with
  | EmptyString => ""
  | String c s' =>
      if Ascii.eqb c "010" then String c ("  " ++ indent_newlines s')
      else String c (indent_newlines s')
  end.

(** [sep * n] *)
Fixpoint seps (n : nat) : string :=
  match n with O => "" | S k => String "/" (seps k) end.

(** The double quote. *)
Definition dq : string := String "034" "".

(** [str(n)] for an integer *)
Definition of_Z (z : Z) : string := NilZero.string_of_int (Z.to_int z).

End Str.

(* ================================================================== *)
(** ** [posixpath], as [os.path] resolves on the hosts the manager runs on *)

Module posixpath.
Import Str.

Definition isabs (s : string) : bool := startswith s "/".

(** One round of the loop of [join]. *)
Definition join2 (path b : string) : string :=
  if startswith b "/" then b
  else if String.eqb path "" || endswith_sep path then path ++ b
  else path ++ "/" ++ b.

Definition join (a : string) (p : list string) : string :=
  fold_left join2 p a.

(** [initial_slashes] of [normpath]: POSIX keeps exactly two leading
    slashes and folds three or more into one. *)
Definition initial_slashes (path : string) : nat :=
  if startswith path "/" then
    if startswith path "//" && negb (startswith path "///") then 2 else 1
  else 0.

(** The body of the loop over [comps]; [new_comps] is kept as a stack, its
    head is [new_comps[-1]]. *)
Definition normpath_step (slashes : nat) (new_comps : list string)
           (comp : string) : list string :=
  if String.eqb comp "" || String.eqb comp "." then new_comps
  else if negb (String.eqb comp "..")
          || (Nat.eqb slashes 0 && match new_comps with [] => true | _ => false end)
          || match new_comps with top :: _ => String.eqb top ".." | [] => false end
       then comp :: new_comps
       else match new_comps with _ :: rest => rest | [] => [] end.

Definition normcomps (slashes : nat) (comps : list string) : list string :=
  rev (fold_left (normpath_step slashes) comps []).

Definition normpath (path : string) : string :=
  if String.eqb path "" then "."
  else
    let n := initial_slashes path in
    let p := seps n ++ join_sep (normcomps n (split_sep path)) in
    if String.eqb p "" then "." else p.

(** [abspath]; [cwd] is what [os.getcwd()] returns. *)
Definition abspath (cwd path : string) : string :=
  if isabs path then normpath path else normpath (join cwd [path]).

(** [x for x in s.split(sep) if x] *)
Definition parts (s : string) : list string :=
  filter (fun x => negb (String.eqb x "")) (split_sep s).

Fixpoint list_leb (a b : list string) : bool :=
  match a, b with
  | [], _ => true
  | _ :: _, [] => false
  | x :: a', y :: b' =>
      match String.compare x y with
      | Lt => true
      | Gt => false
      | Eq => list_leb a' b'
      end
  end.

(** The scan of [commonprefix]: the items of [s1] up to the first that
    differs from [s2]. *)
Fixpoint common (s1 s2 : list string) : list string :=
  match s1, s2 with
  | x :: s1', y :: s2' => if String.eqb x y then x :: common s1' s2' else []
  | _, _ => []
  end.

(** [genericpath.commonprefix([a, b])]: scans [min] against [max]. *)
Definition commonprefix (a b : list string) : list string :=
  if list_leb a b then common a b else common b a.

(** [relpath(path, start)]; [None] is the [ValueError] of an empty path. *)
Definition relpath (cwd path start : string) : option string :=
  if String.eqb path "" then None
  else
    let start_list := parts (abspath cwd start) in
    let path_list := parts (abspath cwd path) in
    let i := List.length (commonprefix start_list path_list) in
    let rel_list := (repeat ".." (List.length start_list - i) ++ skipn i path_list)%list in
    match rel_list with
    | [] => Some "."
    | a :: p => Some (join a p)
    end.

(** [expanduser]; [home] is the invoking user's home directory and
    [getpwnam] the password database. *)
Fixpoint find_sep (s : string) : option nat :=
  match s with
  | EmptyString => None
  | String c s' =>
      if Ascii.eqb c "/" then Some 0
      else option_map S (find_sep s')
  end.

Definition expanduser (home : string) (getpwnam : string -> option string)
           (path : string) : string :=
  match path with
  | String "~" rest =>
      let i := match find_sep rest with
               | Some k => k
               | None => String.length rest
               end in
      let tail := substring i (String.length rest - i) rest in
      let userhome :=
        if Nat.eqb i 0 then Some home
        else getpwnam (substring 0 i rest) in
      match userhome with
      | None => path
      | Some h =>
          let r := rstrip_sep h ++ tail in
          if String.eqb r "" then "/" else r
      end
  | _ => path
  end.

(** [dirname] *)
Fixpoint rfind_sep_succ (s : string) : nat :=
  match s with
  | EmptyString => 0
  | String c s' =>
      match rfind_sep_succ s' with
      | O => if Ascii.eqb c "/" then 1 else 0
      | S k => S (S k)
      end
  end.

Definition dirname (p : string) : string :=
  let i := rfind_sep_succ p in
  let head := substring 0 i p in
  if negb (String.eqb head "") && negb (String.eqb head (seps (String.length head)))
  then rstrip_sep head else head.

End posixpath.

(* ================================================================== *)
(** ** Data model *)

(** [class WcEnvUser(enum.Enum)]: the users of the environment and their ids. *)
Inductive WcEnvUser := root | container_user.

Module WcEnvUser_.
Definition value (u : WcEnvUser) : Z :=
  match u with root => 0 | container_user => 999 end.
Definition name (u : WcEnvUser) : string :=
  match u with root => "root" | container_user => "container_user" end.
End WcEnvUser_.

(** An exception of docker-py, requests, the OS or yaml.  [clause] is the
    [except] clause of [build_base_docker_image] that [isinstance] selects,
    [class_name] is [exception.__class__.__name__], [text] is
    [str(exception)]. *)
Inductive except_clause :=
| ConnectionError_   (* requests.exceptions.ConnectionError *)
| APIError_          (* docker.errors.APIError and its subclasses *)
| BuildError_        (* docker.errors.BuildError *)
| Exception_.        (* anything else *)

Record foreign_exception := {
  clause : except_clause;
  class_name : string;
  text : string
}.

(** What a method of the manager can raise. *)
Inductive exn :=
| WcEnvManagerError (message : string)
| AssertionError
| AttributeError (message : string)
| IndexError (message : string)
| ValueError (message : string)
| CalledProcessError (returncode : Z) (cmd : list string)
| Foreign (e : foreign_exception).

(** The class a caller's [except] clause can name. *)
Definition exn_class (e : exn) : string :=
  match e with
  | WcEnvManagerError _ => "WcEnvManagerError"
  | AssertionError => "AssertionError"
  | AttributeError _ => "AttributeError"
  | IndexError _ => "IndexError"
  | ValueError _ => "ValueError"
  | CalledProcessError _ _ => "CalledProcessError"
  | Foreign e => class_name e
  end.

Inductive Res (A : Type) :=
| Ok (a : A)
| Raise (e : exn).
Arguments Ok {A} a.
Arguments Raise {A} e.

(** [docker.models.containers.Container] and [docker.models.images.Image],
    as far as the manager reads them. *)
Record Container := { container_id : string; container_name : string }.
Record Image := { image_id : string; image_tags : list string }.

(** An entry of [paths_to_mount_to_docker_container]: [{'bind': .., 'mode': ..}]. *)
Record mount_attrs := { bind : string; mode : string }.

(** An entry of [paths_to_copy_to_docker_container]: [{'host': .., 'container': ..}]. *)
Record copy_attrs := { host : string; container : string }.

(** An entry of the build log. *)
Record log_entry := {
  stream : option string;
  log_id : option string;
  status : option string
}.

(** [cmd]: a [str] or a [list] of [str]. *)
Inductive command :=
| CmdStr (s : string)
| CmdList (argv : list string).

Record WcEnvManager := {
  base_docker_image_repo : string;
  base_docker_image_tags : list string;
  docker_image_repo : string;
  docker_image_tags : list string;
  dockerfile_path : string;
  docker_image_build_args : list (string * string);
  docker_image_context_path : string;
  docker_container_name_format : string;
  paths_to_copy_to_docker_container : list (string * copy_attrs);
  paths_to_mount_to_docker_container : list (string * mount_attrs);
  ssh_key_container_path : string;
  python_version_in_container : string;
  python_packages_from_pypi : string;
  python_packages_from_github : string;
  python_packages_from_host : string;
  dockerhub_username : string;
  dockerhub_password : string;
  verbose : bool;
  _docker_image : option Image;
  _docker_container : option Container
}.

Definition set__docker_container (c : option Container) (m : WcEnvManager) : WcEnvManager :=
  {| base_docker_image_repo := base_docker_image_repo m;
     base_docker_image_tags := base_docker_image_tags m;
     docker_image_repo := docker_image_repo m;
     docker_image_tags := docker_image_tags m;
     dockerfile_path := dockerfile_path m;
     docker_image_build_args := docker_image_build_args m;
     docker_image_context_path := docker_image_context_path m;
     docker_container_name_format := docker_container_name_format m;
     paths_to_copy_to_docker_container := paths_to_copy_to_docker_container m;
     paths_to_mount_to_docker_container := paths_to_mount_to_docker_container m;
     ssh_key_container_path := ssh_key_container_path m;
     python_version_in_container := python_version_in_container m;
     python_packages_from_pypi := python_packages_from_pypi m;
     python_packages_from_github := python_packages_from_github m;
     python_packages_from_host := python_packages_from_host m;
     dockerhub_username := dockerhub_username m;
     dockerhub_password := dockerhub_password m;
     verbose := verbose m;
     _docker_image := _docker_image m;
     _docker_container := c |}.

Definition set__docker_image (i : option Image) (m : WcEnvManager) : WcEnvManager :=
  {| base_docker_image_repo := base_docker_image_repo m;
     base_docker_image_tags := base_docker_image_tags m;
     docker_image_repo := docker_image_repo m;
     docker_image_tags := docker_image_tags m;
     dockerfile_path := dockerfile_path m;
     docker_image_build_args := docker_image_build_args m;
     docker_image_context_path := docker_image_context_path m;
     docker_container_name_format := docker_container_name_format m;
     paths_to_copy_to_docker_container := paths_to_copy_to_docker_container m;
     paths_to_mount_to_docker_container := paths_to_mount_to_docker_container m;
     ssh_key_container_path := ssh_key_container_path m;
     python_version_in_container := python_version_in_container m;
     python_packages_from_pypi := python_packages_from_pypi m;
     python_packages_from_github := python_packages_from_github m;
     python_packages_from_host := python_packages_from_host m;
     dockerhub_username := dockerhub_username m;
     dockerhub_password := dockerhub_password m;
     verbose := verbose m;
     _docker_image := i;
     _docker_container := _docker_container m |}.

(* ================================================================== *)
(** ** Calls that leave the process *)

(** Every call to the Docker client, to a container or image handle, to a
    subprocess or to the host's file system, with the arguments the source
    passes. *)
Inductive call :=
| images_build (path dockerfile : string) (pull : bool) (buildargs : list (string * string))
| image_tag (image : Image) (repo tag : string)
| images_get (name : string)
| images_remove (name : string) (force : bool)
| containers_run (image name : string) (volumes : list (string * mount_attrs))
                 (stdin_open tty detach : bool) (user : string)
| containers_list (all : bool)
| container_stats (c : Container) (stream_ : bool)
| exec_run (c : Container) (cmd : command) (workdir : option string)
           (environment : option (list (string * string))) (user : string)
| subprocess_run (cmd : list string) (pipe_output check : bool)
| datetime_now
| os_path_isdir (path : string)
| open_ (path mode_ : string)
| file_close (path : string)
| yaml_load (path : string)
| tempfile_mkstemp (suffix : string)
| os_write (fd : Z) (data : string)
| os_close (fd : Z)
| os_remove (path : string).

(** The world outside the process.  Each answer is a function of the calls
    made so far, the one being answered last; the facts of the process
    environment ([cwd], [home]) and the pure library functions do not
    depend on them. *)
Record Runtime := {
  cwd : string;                                   (* os.getcwd() *)
  home : string;                                  (* $HOME *)
  getpwnam : string -> option string;             (* pwd.getpwnam(name).pw_dir *)
  strftime : Z -> string -> string;               (* datetime.strftime *)
  strptime : string -> string -> option Z;        (* datetime.strptime; None: ValueError *)
  parse_time : string -> Z;                       (* dateutil.parser.parse *)
  now : list call -> Z;
  build_result : list call -> foreign_exception + Image * list log_entry;
  tag_result : list call -> bool;
  get_result : list call -> Res Image;
  remove_result : list call -> Res unit;
  run_result : list call -> Res Container;
  list_result : list call -> list Container;
  stats_read : list call -> string;               (* stats(stream=False)['read'] *)
  exec_result : list call -> string * Z;          (* decoded output, exit code *)
  returncode : list call -> Z;
  isdir : list call -> bool;
  open_result : list call -> Res unit;
  yaml_result : list call -> Res (list (string * string));
  mkstemp_result : list call -> Z * string
}.

(** The state a method runs in: the manager object, the calls made so far
    and what was printed. *)
Record State := {
  self : WcEnvManager;
  trace : list call;
  stdout : list string
}.

Definition M (A : Type) : Type := State -> Res A * State.

Definition ret {A} (a : A) : M A := fun s => (Ok a, s).

Definition mbind {A B} (m : M A) (k : A -> M B) : M B :=
  fun s => match m s with
           | (Ok a, s') => k a s'
           | (Raise e, s') => (Raise e, s')
           end.

Definition raise {A} (e : exn) : M A := fun s => (Raise e, s).

Notation "x <- m ;; k" := (mbind m (fun x => k))
  (at level 61, m at next level, right associativity).
Notation "' pat <- m ;; k" := (mbind m (fun x => match x with pat => k end))
  (at level 61, pat pattern, m at next level, right associativity).
Notation "m ;; k" := (mbind m (fun _ => k))
  (at level 61, right associativity).

Definition get_self : M WcEnvManager := fun s => (Ok (self s), s).

Definition put_self (m : WcEnvManager) : M unit :=
  fun s => (Ok tt, {| self := m; trace := trace s; stdout := stdout s |}).

Definition print (line : string) : M unit :=
  fun s => (Ok tt, {| self := self s; trace := trace s; stdout := (stdout s ++ [line])%list |}).

(** Make the call [c] and take the answer of the world. *)
Definition perform {R} (c : call) (answer : list call -> R) : M R :=
  fun s => let t := (trace s ++ [c])%list in
           (Ok (answer t), {| self := self s; trace := t; stdout := stdout s |}).

Definition lift {A} (r : Res A) : M A := fun s => (r, s).

Definition when (b : bool) (m : M unit) : M unit := if b then m else ret tt.

(** [for x in l: body(x)] *)
Fixpoint for_each {A} (l : list A) (body : A -> M unit) : M unit :=
  match l with
  | [] => ret tt
  | x :: l' => body x ;; for_each l' body
  end.

(** [[f(x) for x in l]] *)
Fixpoint map_m {A B} (f : A -> M B) (l : list A) : M (list B) :=
  match l with
  | [] => ret []
  | x :: l' => y <- f x ;; ys <- map_m f l' ;; ret (y :: ys)
  end.

(* ================================================================== *)
(** ** Formatting *)

Module Fmt.

Definition hex_digit (n : nat) : ascii :=
  nth n ["0"; "1"; "2"; "3"; "4"; "5"; "6"; "7"; "8"; "9";
         "a"; "b"; "c"; "d"; "e"; "f"]%char "0"%char.

Definition escape (quote c : ascii) : string :=
  if Ascii.eqb c "\" then "\\"
  else if Ascii.eqb c quote then String "\" (String c "")
  else if Ascii.eqb c "009" then "\t"
  else if Ascii.eqb c "010" then "\n"
  else if Ascii.eqb c "013" then "\r"
  else
    let n := nat_of_ascii c in
    if Nat.ltb n 32 || Nat.eqb n 127 then
      "\x" ++ String (hex_digit (n / 16)) (String (hex_digit (n mod 16)) "")
    else String c "".

Fixpoint escape_all (quote : ascii) (s : string) : string :=
  match s with
  | EmptyString => ""
  | String c s' => escape quote c ++ escape_all quote s'
  end.

(** [repr(s)] of a [str] of ASCII characters. *)
Definition repr (s : string) : string :=
  let quote :=
    if Str.contains s "'" && negb (Str.contains s Str.dq)
    then "034"%char else "'"%char in
  String quote (escape_all quote s ++ String quote "").

(** ['{}'.format(cmd)] *)
Definition command (cmd : command) : string :=
  match cmd with
  | CmdStr s => s
  | CmdList l => "[" ++ String.concat ", " (map repr l) ++ "]"
  end.

Definition nl : string := String "010" "".

End Fmt.

(* ================================================================== *)
(** ** The methods of [WcEnvManager] *)

Section Manager.

Variable rt : Runtime.

(** [self._docker_container.<attr>]: [None] has no attributes. *)
Definition the_container (attr : string) : M Container :=
  m <- get_self ;;
  match _docker_container m with
  | Some c => ret c
  | None => raise (AttributeError
                     ("'NoneType' object has no attribute '" ++ attr ++ "'"))
  end.

Definition run_process_in_docker_container
           (cmd : command) (work_dir : option string)
           (env : option (list (string * string))) (check : bool)
           (container_user : WcEnvUser) : M (string * Z) :=
  let env := match env with Some ((_ :: _) as e) => e | _ => [] end in
  (* execute command *)
  c <- the_container "exec_run" ;;
  result <- perform (exec_run c cmd work_dir (Some env)
                              (WcEnvUser_.name container_user))
                    (exec_result rt) ;;
  (* print output *)
  m <- get_self ;;
  when (verbose m) (print (Str.drop_last (fst result) ++ Fmt.nl)) ;;
  (* check for errors *)
  if check && negb (snd result =? 0)%Z then
    work_dir <- match work_dir with
                | Some ((String _ _) as w) => ret w
                | _ =>
                    c2 <- the_container "exec_run" ;;
                    result2 <- perform (exec_run c2 (CmdStr "pwd") None None
                                                 (WcEnvUser_.name container_user))
                                       (exec_result rt) ;;
                    ret (Str.drop_last (fst result2))
                end ;;
    raise (WcEnvManagerError
             ("Command not successfully executed in Docker container:" ++ Fmt.nl
              ++ "  command: " ++ Fmt.command cmd ++ Fmt.nl
              ++ "  working directory: " ++ work_dir ++ Fmt.nl
              ++ "  environment:" ++ Fmt.nl ++ "    "
              ++ String.concat (Fmt.nl ++ "    ")
                   (map (fun kv => fst kv ++ ": " ++ snd kv) env) ++ Fmt.nl
              ++ "  exit code: " ++ Str.of_Z (snd result) ++ Fmt.nl
              ++ "  output: " ++ fst result))
  else ret (Str.drop_last (fst result), snd result).

Definition run_process_on_host (cmd : list string) : M unit :=
  m <- get_self ;;
  code <- perform (subprocess_run cmd (negb (verbose m)) true) (returncode rt) ;;
  if (code =? 0)%Z then ret tt else raise (CalledProcessError code cmd).

Definition copy_path_to_docker_container
           (local_path container_path : string) (overwrite : bool)
           (container_user : WcEnvUser) : M unit :=
  '(is_path, _) <- run_process_in_docker_container
                     (CmdStr ("bash -c " ++ Str.dq ++ "if [ -f " ++ container_path
                              ++ " ] || [ -d " ++ container_path
                              ++ " ]; then echo 1; fi" ++ Str.dq))
                     None None true container_user ;;
  if negb (String.eqb is_path "") && negb overwrite then
    raise (WcEnvManagerError ("File " ++ container_path ++ " already exists"))
  else
    c <- the_container "name" ;;
    run_process_on_host
      ["docker"; "cp"; local_path; container_name c ++ ":" ++ container_path].

Definition make_docker_container_name : M string :=
  m <- get_self ;;
  t <- perform datetime_now (now rt) ;;
  ret (strftime rt t (docker_container_name_format m)).

Definition create_docker_container (tty : bool) : M Container :=
  name <- make_docker_container_name ;;
  m <- get_self ;;
  r <- perform (containers_run (base_docker_image_repo m) name
                               (paths_to_mount_to_docker_container m)
                               true tty true (WcEnvUser_.name root))
               (run_result rt) ;;
  container <- lift r ;;
  m <- get_self ;;
  put_self (set__docker_container (Some container) m) ;;
  ret container.

Definition install_github_ssh_host_in_docker_container (upgrade : bool) : M unit :=
  run_process_in_docker_container
    (CmdStr ("bash -c " ++ Str.dq ++ "touch ~/.ssh/known_hosts" ++ Str.dq)) None None true root ;;
  (if upgrade then
     run_process_in_docker_container
       (CmdStr ("bash -c " ++ Str.dq ++ "sed -i '/github.com ssh-rsa/d' ~/.ssh/known_hosts"
               ++ Str.dq))
       None None true root ;; ret tt
   else ret tt) ;;
  run_process_in_docker_container
    (CmdStr ("bash -c " ++ Str.dq ++ "ssh-keyscan github.com >> ~/.ssh/known_hosts"
             ++ Str.dq))
    None None true root ;;
  ret tt.

Definition test_github_ssh_access_in_docker_container : M bool :=
  '(message, exit_code) <- run_process_in_docker_container
                             (CmdStr "ssh -T git@github.com")
                             None None false root ;;
  ret ((exit_code =? 1)%Z && Str.contains message "successfully authenticated").

Definition install_python_packages_in_docker_container
           (packages : string) (upgrade process_dependency_links : bool) : M unit :=
  (* save requirements to temporary file on host *)
  '(file, host_temp_filename) <- perform (tempfile_mkstemp ".txt") (mkstemp_result rt) ;;
  perform (os_write file packages) (fun _ => tt) ;;
  perform (os_close file) (fun _ => tt) ;;
  (* copy requirements to temporary file in container *)
  '(container_temp_filename, _) <- run_process_in_docker_container
                                     (CmdStr "mktemp") None None true root ;;
  copy_path_to_docker_container host_temp_filename container_temp_filename true root ;;
  (* install requirements *)
  m <- get_self ;;
  let cmd := ([("pip" ++ python_version_in_container m)%string; "install"; "-r";
               container_temp_filename]
              ++ (if upgrade then ["-U"] else [])
              ++ (if process_dependency_links
                  then ["--process-dependency-links"] else []))%list in
  run_process_in_docker_container (CmdList cmd) None None true root ;;
  (* remove temporary files *)
  perform (os_remove host_temp_filename) (fun _ => tt) ;;
  run_process_in_docker_container (CmdList ["rm"; container_temp_filename])
                                  None None true root ;;
  ret tt.

Definition copy_config_files_to_docker_container (overwrite : bool) : M unit :=
  '(container_user_dirname, _) <- run_process_in_docker_container
                                    (CmdStr ("bash -c " ++ Str.dq ++ "realpath ~"
                                            ++ Str.dq))
                                    None None true root ;;
  let container_config_dirname := posixpath.join container_user_dirname [".wc"] in
  let host_config_dirname :=
    posixpath.expanduser (home rt) (getpwnam rt) (posixpath.join "~" [".wc"]) in
  is_dir <- perform (os_path_isdir host_config_dirname) (isdir rt) ;;
  if is_dir then
    (* copy config files from host to container *)
    copy_path_to_docker_container host_config_dirname container_config_dirname
                                  overwrite root ;;
    (* install third party config files in container *)
    let filename := posixpath.join host_config_dirname ["third_party"; "paths.yml"] in
    opened <- perform (open_ filename "r") (open_result rt) ;;
    lift opened ;;
    loaded <- perform (yaml_load filename) (yaml_result rt) ;;
    perform (file_close filename) (fun _ => tt) ;;
    paths <- lift loaded ;;
    for_each paths (fun '(rel_src, abs_dest) =>
      let abs_dest :=
        if String.eqb (substring 0 2 abs_dest) "~/"
        then posixpath.join container_user_dirname
               [substring 2 (String.length abs_dest - 2) abs_dest]
        else abs_dest in
      let abs_dest_dir := posixpath.dirname abs_dest in
      run_process_in_docker_container (CmdList ["mkdir"; "-p"; abs_dest_dir])
                                      None None true root ;;
      let abs_src := posixpath.join host_config_dirname ["third_party"; rel_src] in
      copy_path_to_docker_container abs_src abs_dest overwrite root)
  else ret tt.

Definition setup_docker_container (upgrade : bool) : M unit :=
  m <- get_self ;;
  (* copy default configuration files to Docker container *)
  copy_config_files_to_docker_container upgrade ;;
  (* copy additional files to Docker container *)
  for_each (map snd (paths_to_copy_to_docker_container m)) (fun path =>
    copy_path_to_docker_container (host path) (container path) upgrade root) ;;
  (* install SSH key *)
  install_github_ssh_host_in_docker_container upgrade ;;
  ok <- test_github_ssh_access_in_docker_container ;;
  (if ok then ret tt else raise AssertionError) ;;
  (* install packages *)
  install_python_packages_in_docker_container
    (python_packages_from_pypi m) upgrade false ;;
  install_python_packages_in_docker_container
    (python_packages_from_github m) upgrade true ;;
  install_python_packages_in_docker_container
    (python_packages_from_host m) upgrade true.

(** The [for] loop of [convert_host_to_container_path] over
    [paths_to_mount_to_docker_container.items()], left at the first
    entry that passes the test. *)
Fixpoint convert_host_loop (host_path : string)
         (items : list (string * mount_attrs)) : Res string :=
  match items with
  | [] => Raise (WcEnvManagerError
                   (host_path ++ " is not mounted into the container"))
  | (host_mount_path, container_mount_attrs) :: items' =>
      let host_mount_path := posixpath.abspath (cwd rt) host_mount_path in
      let container_mount_path := bind container_mount_attrs in
      if Str.startswith host_path host_mount_path then
        match posixpath.relpath (cwd rt) host_path host_mount_path with
        | Some relpath => Ok (posixpath.join container_mount_path [relpath])
        | None => Raise (ValueError "no path specified")
        end
      else convert_host_loop host_path items'
  end.

Definition convert_host_to_container_path (m : WcEnvManager)
           (host_path : string) : Res string :=
  let host_path := posixpath.abspath (cwd rt) host_path in
  convert_host_loop host_path (paths_to_mount_to_docker_container m).

Fixpoint convert_container_loop (container_path : string)
         (items : list (string * mount_attrs)) : Res string :=
  match items with
  | [] => Raise (WcEnvManagerError
                   (container_path ++ " is not mounted into the container"))
  | (host_mount_path, container_mount_attrs) :: items' =>
      let container_mount_path := bind container_mount_attrs in
      if Str.startswith container_path container_mount_path then
        match posixpath.relpath (cwd rt) container_path container_mount_path with
        | Some relpath => Ok (posixpath.join host_mount_path [relpath])
        | None => Raise (ValueError "no path specified")
        end
      else convert_container_loop container_path items'
  end.

Definition convert_container_to_host_path (m : WcEnvManager)
           (container_path : string) : Res string :=
  convert_container_loop container_path (paths_to_mount_to_docker_container m).

(** [list.sort(reverse=True, key=..)] on the list decorated with its
    keys: descending, and items with equal keys keep their order. *)
Fixpoint insert_reverse {A} (x : Z * A) (l : list (Z * A)) : list (Z * A) :=
  match l with
  | [] => [x]
  | y :: l' => if (fst x <? fst y)%Z then y :: insert_reverse x l' else x :: l
  end.

Definition sort_reverse {A} (l : list (Z * A)) : list (Z * A) :=
  fold_right insert_reverse [] l.

Definition get_docker_containers (sort_by_read_time : bool) : M (list Container) :=
  m <- get_self ;;
  listed <- perform (containers_list true) (list_result rt) ;;
  let containers :=
    filter (fun container =>
              match strptime rt (container_name container)
                             (docker_container_name_format m) with
              | Some _ => true
              | None => false
              end) listed in
  if sort_by_read_time then
    keys <- map_m (fun container =>
                     read <- perform (container_stats container false)
                                     (stats_read rt) ;;
                     ret (parse_time rt read)) containers ;;
    ret (map snd (sort_reverse (combine keys containers)))
  else ret containers.

Definition get_latest_docker_container : M (option Container) :=
  containers <- get_docker_containers true ;;
  match containers with
  | c :: _ => ret (Some c)
  | [] => ret None
  end.

Definition remove_docker_image (image_repo : string) (image_tags : list string)
           (force : bool) : M unit :=
  for_each image_tags (fun tag =>
    r <- perform (images_remove (image_repo ++ ":" ++ tag) true)
                 (remove_result rt) ;;
    lift r).

Definition build_base_docker_image : M Image :=
  m <- get_self ;;
  (* build image *)
  when (verbose m)
       (print ("Building base image " ++ base_docker_image_repo m
               ++ " with tags {" ++ String.concat ", " (base_docker_image_tags m)
               ++ "} ..." ++ Fmt.nl)) ;;
  is_dir <- perform (os_path_isdir (docker_image_context_path m)) (isdir rt) ;;
  if negb is_dir then
    raise (WcEnvManagerError ("Docker image context " ++ Str.dq
                              ++ docker_image_context_path m
                              ++ Str.dq ++ " must be a directory"))
  else
    opened <- perform (open_ (dockerfile_path m) "rb") (open_result rt) ;;
    lift opened ;;
    built <- perform (images_build (docker_image_context_path m)
                                   (dockerfile_path m) true
                                   (docker_image_build_args m))
                     (build_result rt) ;;
    perform (file_close (dockerfile_path m)) (fun _ => tt) ;;
    match built with
    | inl exception =>
        let indented := Str.indent_newlines (text exception) in
        match clause exception with
        | ConnectionError_ =>
            raise (WcEnvManagerError
                     ("Docker connection error: service must be running:"
                      ++ Fmt.nl ++ "  " ++ indented))
        | APIError_ =>
            raise (WcEnvManagerError
                     ("Docker API error: Dockerfile contains syntax errors:"
                      ++ Fmt.nl ++ "  " ++ indented))
        | BuildError_ =>
            raise (WcEnvManagerError
                     ("Docker build error: Error building Dockerfile:"
                      ++ Fmt.nl ++ "  " ++ indented))
        | Exception_ =>
            raise (WcEnvManagerError
                     (class_name exception ++ ":" ++ Fmt.nl ++ "  " ++ indented))
        end
    | inr (image, log) =>
        (* tag image *)
        for_each (base_docker_image_tags m) (fun tag =>
          perform (image_tag image (base_docker_image_repo m) tag) (tag_result rt) ;;
          ret tt) ;;
        (* re-get image because tags don't automatically update on image object *)
        match base_docker_image_tags m with
        | [] => raise (IndexError "list index out of range")
        | tag0 :: _ =>
            got <- perform (images_get (base_docker_image_repo m ++ ":" ++ tag0))
                           (get_result rt) ;;
            image <- lift got ;;
            (* print log *)
            when (verbose m)
                 (for_each log (fun entry =>
                    match stream entry, log_id entry, status entry with
                    | Some text, _, _ => print text
                    | None, Some i, Some st => print (i ++ ": " ++ st ++ Fmt.nl)
                    | _, _, _ => ret tt
                    end)) ;;
            (* store reference to latest image *)
            m <- get_self ;;
            put_self (set__docker_image (Some image) m) ;;
            ret image
        end
    end.

End Manager.

(* ================================================================== *)
(** ** Concrete managers and worlds *)

Module Fixture.

Definition manager (mounts : list (string * mount_attrs)) : WcEnvManager :=
  {| base_docker_image_repo := "karrlab/wc_env_dependencies";
     base_docker_image_tags := ["latest"; "0.0.1"];
     docker_image_repo := "karrlab/wc_env";
     docker_image_tags := ["latest"];
     dockerfile_path := "/repo/Dockerfile";
     docker_image_build_args := [];
     docker_image_context_path := "/repo";
     docker_container_name_format := "wc_env-%Y%m%d%H%M%S";
     paths_to_copy_to_docker_container := [];
     paths_to_mount_to_docker_container := mounts;
     ssh_key_container_path := "/root/.ssh/id_rsa";
     python_version_in_container := "3.6";
     python_packages_from_pypi := "requests==2.0";
     python_packages_from_github := "";
     python_packages_from_host := "";
     dockerhub_username := "";
     dockerhub_password := "";
     verbose := false;
     _docker_image := None;
     _docker_container := None |}.

Definition rw (b : string) : mount_attrs := {| bind := b; mode := "rw" |}.

(** The number a string of decimal digits writes. *)
Fixpoint digits (s : string) (acc : Z) : option Z :=
  match s with
  | EmptyString => Some acc
  | String c s' =>
      let n := nat_of_ascii c in
      if Nat.leb 48 n && Nat.leb n 57
      then digits s' (10 * acc + Z.of_nat (n - 48))%Z
      else None
  end.

(** A stand-in for [strptime] with the format [wc_env-%Y%m%d%H%M%S]: the
    digits, read as one number, order like the instants they write. *)
Definition parse_name (name fmt : string) : option Z :=
  if Str.startswith name "wc_env-" then
    match substring 7 (String.length name - 7) name with
    | EmptyString => None
    | d => digits d 0
    end
  else None.

(** A world fixed by the containers it lists, its answers to [exec_run]
    and to [stats], the reading of time stamps, the directories of the
    host and the outcome of a build; everything else succeeds. *)
Definition world (containers : list Container)
           (exec : list call -> string * Z)
           (stats : list call -> string)
           (times : string -> Z)
           (dirs : list call -> bool)
           (build : list call -> foreign_exception + Image * list log_entry)
  : Runtime :=
  {| cwd := "/work";
     home := "/home/u";
     getpwnam := fun _ => None;
     strftime := fun t fmt => "wc_env-" ++ Str.of_Z t;
     strptime := parse_name;
     parse_time := times;
     now := fun t => (20180823120000 + Z.of_nat (List.length t))%Z;
     build_result := build;
     tag_result := fun _ => true;
     get_result := fun _ => Ok {| image_id := "sha256:0";
                                  image_tags := ["karrlab/wc_env_dependencies:latest"] |};
     remove_result := fun _ => Ok tt;
     run_result := fun t => Ok {| container_id := "4f5e";
                                  container_name := "wc_env-20180823120001" |};
     list_result := fun _ => containers;
     stats_read := stats;
     exec_result := exec;
     returncode := fun _ => 0%Z;
     isdir := dirs;
     open_result := fun _ => Ok tt;
     yaml_result := fun _ => Ok [];
     mkstemp_result := fun _ => (3%Z, "/tmp/tmpreq.txt") |}.

Definition built (_ : list call) : foreign_exception + Image * list log_entry :=
  inr ({| image_id := "sha256:0"; image_tags := [] |}, []).

(** Answers to [exec_run] that depend on the command alone. *)
Definition by_command (f : command -> string * Z) (t : list call) : string * Z :=
  match last t datetime_now with
  | exec_run _ cmd _ _ _ => f cmd
  | _ => ("", 0%Z)
  end.

(** The world in which every command prints nothing and exits with 0. *)
Definition quiet : Runtime :=
  world [] (fun _ => ("", 0%Z)) (fun _ => "") (fun _ => 0%Z) (fun _ => false) built.

(** The world in which every command prints [output] and exits with [code]. *)
Definition answering (output : string) (code : Z) : Runtime :=
  world [] (fun _ => (output, code)) (fun _ => "") (fun _ => 0%Z) (fun _ => false) built.

(** The world in which the build fails with [e]. *)
Definition failing_build (e : foreign_exception) : Runtime :=
  world [] (fun _ => ("", 0%Z)) (fun _ => "") (fun _ => 0%Z) (fun _ => true)
        (fun _ => inl e).

(** A container host as [setup_docker_container] expects it: GitHub
    greets the key, [mktemp] and [realpath] answer with a path. *)
Definition provisioning : Runtime :=
  world []
        (by_command (fun cmd =>
           match cmd with
           | CmdStr line =>
               if String.eqb line "ssh -T git@github.com" then
                 ("Hi u! You've successfully authenticated, but GitHub does not provide shell access."
                    ++ Fmt.nl, 1%Z)
               else if String.eqb line "mktemp" then ("/tmp/tmp.Zq1" ++ Fmt.nl, 0%Z)
               else if String.eqb line ("bash -c " ++ Str.dq ++ "realpath ~" ++ Str.dq)
               then ("/root" ++ Fmt.nl, 0%Z)
               else ("", 0%Z)
           | CmdList _ => ("", 0%Z)
           end))
        (fun _ => "") (fun _ => 0%Z) (fun _ => false) built.

Definition A : Container :=
  {| container_id := "a1"; container_name := "wc_env-20180901090000" |}.
Definition B : Container :=
  {| container_id := "b2"; container_name := "wc_env-20180801090000" |}.
Definition other : Container :=
  {| container_id := "c3"; container_name := "postgres" |}.

(** Three containers; [A] carries the later name, [B] was read later. *)
Definition two_managed : Runtime :=
  world [A; other; B]
        (fun _ => ("", 0%Z))
        (fun t => match last t datetime_now with
                  | container_stats c _ =>
                      if String.eqb (container_id c) "a1" then "2018-09-02T10:00:00Z"
                      else "2018-09-02T11:00:00Z"
                  | _ => ""
                  end)
        (fun read => if String.eqb read "2018-09-02T10:00:00Z" then 36000%Z
                     else if String.eqb read "2018-09-02T11:00:00Z" then 39600%Z
                     else 0%Z)
        (fun _ => false) built.

Definition start (m : WcEnvManager) : State :=
  {| self := m; trace := []; stdout := [] |}.

Definition c0 : Container :=
  {| container_id := "4f5e"; container_name := "wc_env-20180823120001" |}.

(** A session whose current container is [c0]. *)
Definition running (m : WcEnvManager) : State :=
  start (set__docker_container (Some c0) m).

Definition connection_refused : foreign_exception :=
  {| clause := ConnectionError_; class_name := "ConnectionError";
     text := "('Connection aborted.', ConnectionRefusedError(111, 'Connection refused'))" |}.

Definition syntax_error : foreign_exception :=
  {| clause := APIError_; class_name := "APIError";
     text := "400 Client Error: Bad Request (Dockerfile parse error line 1: unknown instruction: FORM)" |}.

Definition build_failed : foreign_exception :=
  {| clause := BuildError_; class_name := "BuildError";
     text := "The command '/bin/sh -c false' returned a non-zero code: 1" |}.

End Fixture.


(* ================================================================== *)
(** ** The mount-table match as the specification words it *)

(** Worded from the specification: [mount] is a prefix of [path] and the
    next character of [path] is a separator or the end of the string. *)
Definition boundary_prefix (mount path : string) : bool :=
  Str.startswith path mount
  && let rest := substring (String.length mount)
                           (String.length path - String.length mount) path in
     String.eqb rest "" || Str.startswith rest "/".

(** The entries of the mount table that match a host path in that sense. *)
Definition matching_entries (rt : Runtime) (m : WcEnvManager) (host_path : string)
  : list (string * mount_attrs) :=
  filter (fun e => boundary_prefix (posixpath.abspath (cwd rt) (fst e))
                                   (posixpath.abspath (cwd rt) host_path))
         (paths_to_mount_to_docker_container m).

(* ================================================================== *)
(** ** Reading a trace *)

(** The copy action of a file-copy step: [docker cp] run on the host. *)
Definition is_copy_action (c : call) : bool :=
  match c with
  | subprocess_run ("docker" :: "cp" :: _) _ _ => true
  | _ => false
  end.

Definition copy_actions (t : list call) : nat :=
  List.length (filter is_copy_action t).

(** The execution identities the containers of a trace were started with. *)
Definition run_identities (t : list call) : list string :=
  flat_map (fun c => match c with
                     | containers_run _ _ _ _ _ _ user => [user]
                     | _ => []
                     end) t.

(** No character of [s] is [c]. *)
Fixpoint lacks (c : ascii) (s : string) : bool :=
  match s with
  | EmptyString => true
  | String x s' => negb (Ascii.eqb x c) && lacks c s'
  end.

(** The class of the exception a result raises. *)
Definition raised_class {A} (r : Res A) : option string :=
  match r with
  | Raise e => Some (exn_class e)
  | Ok _ => None
  end.

(** A managed container: its name parses against the name format. *)
Definition is_managed (rt : Runtime) (m : WcEnvManager) (c : Container) : bool :=
  match strptime rt (container_name c) (docker_container_name_format m) with
  | Some _ => true
  | None => false
  end.

(** The read times the runtime reports when the stats of [cs] are asked
    for in turn, after the calls [t]. *)
Fixpoint read_times (rt : Runtime) (t : list call) (cs : list Container) : list Z :=
  match cs with
  | [] => []
  | c :: cs' =>
      let t' := (t ++ [container_stats c false])%list in
      parse_time rt (stats_read rt t') :: read_times rt t' cs'
  end.

(** Descending in the key. *)
Definition descending {A} (l : list (Z * A)) : Prop :=
  StronglySorted (fun a b => (fst b <= fst a)%Z) l.

(** What a trace shows of package installation: the requirements written
    to a temporary file of the host, and the runs of [pip install -r] in
    the container with the options that follow the file. *)
Inductive install_event :=
| requirements_saved (packages : string)
| pip_install (options : list string).

Definition command_installs (cmd : command) : list install_event :=
  match cmd with
  | CmdList (pip :: install :: r :: _ :: options) =>
      if Str.startswith pip "pip" && String.eqb install "install" && String.eqb r "-r"
      then [pip_install options] else []
  | _ => []
  end.

Definition install_events (c : call) : list install_event :=
  match c with
  | os_write _ data => [requirements_saved data]
  | exec_run _ cmd _ _ _ => command_installs cmd
  | _ => []
  end.

Definition installs (t : list call) : list install_event :=
  flat_map install_events t.

(** What [m] adds to the trace: all of [out] when it returns, a part of
    [out] from its start when it raises. *)
Definition issues {A} (m : M A) (out : list install_event) : Prop :=
  forall s,
    let (r, s') := m s in
    exists done,
      installs (trace s') = (installs (trace s) ++ done)%list
      /\ match r with
         | Ok _ => done = out
         | Raise _ => exists rest, out = (done ++ rest)%list
         end.

(** What the setup of the configuration [m] has to install. *)
Definition package_installs (m : WcEnvManager) (upgrade : bool) : list install_event :=
  [requirements_saved (python_packages_from_pypi m);
   pip_install (if upgrade then ["-U"] else []);
   requirements_saved (python_packages_from_github m);
   pip_install (if upgrade then ["-U"; "--process-dependency-links"]
                else ["--process-dependency-links"]);
   requirements_saved (python_packages_from_host m);
   pip_install (if upgrade then ["-U"; "--process-dependency-links"]
                else ["--process-dependency-links"])].

(** The number of package-install steps a trace shows. *)
Definition install_steps (t : list call) : nat :=
  List.length (filter (fun e => match e with
                                | pip_install _ => true
                                | requirements_saved _ => false
                                end) (installs t)).

(* ================================================================== *)
(** ** Normal forms of absolute paths *)

Module PathForm.
Import Str posixpath.

(** A component without separator. *)
Fixpoint no_sep (s : string) : bool :=
  match s with
  | EmptyString => true
  | String c s' => negb (Ascii.eqb c "/") && no_sep s'
  end.

(** A component that [normpath] keeps in an absolute path. *)
Definition normal (c : string) : bool :=
  negb (String.eqb c "") && negb (String.eqb c ".")
  && negb (String.eqb c "..") && no_sep c.

(** An absolute path in normal form: [n] leading slashes, then the
    components. *)
Definition abs_form (n : nat) (cs : list string) : string :=
  seps n ++ join_sep cs.

(** The first character is not a separator: [isabs] is false. *)
Definition relative (s : string) : bool := negb (isabs s).

End PathForm.

(* ================================================================== *)
(** ** The version of the image *)

Module Version.

(** [0-9] *)
Definition is_digit (c : ascii) : bool :=
  let n := nat_of_ascii c in Nat.leb 48 n && Nat.leb n 57.

(** [a-zA-Z0-9] *)
Definition is_alnum (c : ascii) : bool :=
  let n := nat_of_ascii c in
  is_digit c || (Nat.leb 65 n && Nat.leb n 90) || (Nat.leb 97 n && Nat.leb n 122).

(** [tag.partition(':')[2]]: what follows the first colon, nothing when
    there is no colon. *)
Fixpoint after_colon (tag : string) : string :=
  match tag with
  | EmptyString => ""
  | String c tag' => if Ascii.eqb c ":" then tag' else after_colon tag'
  end.

(** What is left of [s] after its longest prefix in [class]. *)
Fixpoint skip (class : ascii -> bool) (s : string) : string :=
  match s with
  | EmptyString => ""
  | String c s' => if class c then skip class s' else s
  end.

(** The longest prefix of [s] in [class]. *)
Fixpoint take (class : ascii -> bool) (s : string) : string :=
  match s with
  | EmptyString => ""
  | String c s' => if class c then String c (take class s') else ""
  end.

(** One or more characters of [class], as many as there are. *)
Definition plus (class : ascii -> bool) (s : string) : option string :=
  match s with
  | EmptyString => None
  | String c s' => if class c then Some (skip class s') else None
  end.

(** A literal dot. *)
Definition dot (s : string) : option string :=
  match s with
  | EmptyString => None
  | String c s' => if Ascii.eqb c "." then Some s' else None
  end.

(** [re.match(r'^\d+\.\d+\.\d+[a-zA-Z0-9]*$', version)] finds a match, for
    ASCII text.  Each repetition is followed by a character outside its
    class, or by a class that contains it, so taking the longest run loses
    no match; [$] matches at the end and before a newline that ends the
    string. *)
Definition is_version (version : string) : bool :=
  match plus is_digit version with
  | None => false
  | Some r1 =>
      match dot r1 with
      | None => false
      | Some r2 =>
          match plus is_digit r2 with
          | None => false
          | Some r3 =>
              match dot r3 with
              | None => false
              | Some r4 =>
                  match plus is_digit r4 with
                  | None => false
                  | Some r5 =>
                      let r6 := skip is_alnum r5 in
                      String.eqb r6 "" || String.eqb r6 Fmt.nl
                  end
              end
          end
      end
  end.

(** Every character of [s] is in [class]. *)
Fixpoint all (class : ascii -> bool) (s : string) : bool :=
  match s with
  | EmptyString => true
  | String c s' => class c && all class s'
  end.

(** The language of the pattern, written out: three runs of digits
    separated by dots, then letters and digits, then at most a newline. *)
Definition version_shape (v : string) : Prop :=
  exists a b c suffix tail,
    v = a ++ "." ++ b ++ "." ++ c ++ suffix ++ tail
    /\ a <> "" /\ all is_digit a = true
    /\ b <> "" /\ all is_digit b = true
    /\ c <> "" /\ all is_digit c = true
    /\ all is_alnum suffix = true
    /\ (tail = "" \/ tail = Fmt.nl).

End Version.

(** The loop of [get_docker_image_version] over the tags, left at the first
    tag whose version matches. *)
Fixpoint first_version (tags : list string) : option string :=
  match tags with
  | [] => None
  | tag :: tags' =>
      let version := Version.after_colon tag in
      if Version.is_version version then Some version else first_version tags'
  end.

Definition get_docker_image_version (m : WcEnvManager) : Res (option string) :=
  match _docker_image m with
  | Some image => Ok (first_version (image_tags image))
  | None => Raise (AttributeError "'NoneType' object has no attribute 'tags'")
  end.

(* ================================================================== *)
(** ** Outcomes of a method *)

(** [m] never fails an assertion. *)
Definition never_asserts {A} (m : M A) : Prop :=
  forall s, fst (m s) <> Raise AssertionError.

(** When [m] fails an assertion, it has issued no package-install step. *)
Definition asserts_before_installs {A} (m : M A) : Prop :=
  forall s,
    let (r, s') := m s in
    r = Raise AssertionError -> installs (trace s') = installs (trace s).

(** ** More worlds *)

Module Scenario.

(** The world in which [pwd] answers with a directory and every other
    command is not found. *)
Definition command_not_found : Runtime :=
  Fixture.world []
    (Fixture.by_command (fun cmd =>
       match cmd with
       | CmdStr line =>
           if String.eqb line "pwd" then ("/root" ++ Fmt.nl, 0%Z)
           else ("sh: 1: not found" ++ Fmt.nl, 127%Z)
       | CmdList _ => ("sh: 1: not found" ++ Fmt.nl, 127%Z)
       end))
    (fun _ => "") (fun _ => 0%Z) (fun _ => false) Fixture.built.


(** The world in which the context is a directory and the build succeeds. *)
Definition buildable : Runtime :=
  Fixture.world [] (fun _ => ("", 0%Z)) (fun _ => "") (fun _ => 0%Z) (fun _ => true)
                Fixture.built.

(** The configuration of [Fixture.manager] without a tag for the base image. *)
Definition untagged : WcEnvManager :=
  {| base_docker_image_repo := "karrlab/wc_env_dependencies";
     base_docker_image_tags := [];
     docker_image_repo := "karrlab/wc_env";
     docker_image_tags := ["latest"];
     dockerfile_path := "/repo/Dockerfile";
     docker_image_build_args := [];
     docker_image_context_path := "/repo";
     docker_container_name_format := "wc_env-%Y%m%d%H%M%S";
     paths_to_copy_to_docker_container := [];
     paths_to_mount_to_docker_container := [];
     ssh_key_container_path := "/root/.ssh/id_rsa";
     python_version_in_container := "3.6";
     python_packages_from_pypi := "requests==2.0";
     python_packages_from_github := "";
     python_packages_from_host := "";
     dockerhub_username := "";
     dockerhub_password := "";
     verbose := false;
     _docker_image := None;
     _docker_container := None |}.

(** A default configuration with credentials. *)
Definition secret : WcEnvManager :=
  {| base_docker_image_repo := "karrlab/wc_env_dependencies";
     base_docker_image_tags := ["latest"];
     docker_image_repo := "karrlab/wc_env";
     docker_image_tags := ["latest"];
     dockerfile_path := "/repo/Dockerfile";
     docker_image_build_args := [];
     docker_image_context_path := "/repo";
     docker_container_name_format := "wc_env-%Y%m%d%H%M%S";
     paths_to_copy_to_docker_container := [];
     paths_to_mount_to_docker_container := [];
     ssh_key_container_path := "/root/.ssh/id_rsa";
     python_version_in_container := "3.6";
     python_packages_from_pypi := "";
     python_packages_from_github := "";
     python_packages_from_host := "";
     dockerhub_username := "anonymous";
     dockerhub_password := "hunter2";
     verbose := false;
     _docker_image := None;
     _docker_container := None |}.

End Scenario.

(** Every call that [m] makes is one that [allowed] lets through. *)
Definition only_calls (allowed : call -> bool) {A} (m : M A) : Prop :=
  forall s, exists new,
    trace (snd (m s)) = (trace s ++ new)%list /\ forallb allowed new = true.

(** The calls of a setup: commands in the container as [root], checked
    copies into the container with [docker cp], and the host's files. *)
Definition setup_call (c : call) : bool :=
  match c with
  | exec_run _ _ _ _ user => String.eqb user (WcEnvUser_.name root)
  | subprocess_run ("docker" :: "cp" :: _) _ check => check
  | os_path_isdir _ | open_ _ _ | file_close _ | yaml_load _
  | tempfile_mkstemp _ | os_write _ _ | os_close _ | os_remove _ => true
  | _ => false
  end.




(* ================================================================== *)
(** ** The image of the session *)

Section Images.

Variable rt : Runtime.

(** [except docker.errors.ImageNotFound]: the class has no subclass, so
    the clause catches the exceptions of that very class. *)
Definition is_image_not_found (e : exn) : bool :=
  match e with
  | Foreign f => String.eqb (class_name f) "ImageNotFound"
  | _ => false
  end.

Definition get_latest_docker_image (image_repo : string) : M (option Image) :=
  got <- perform (images_get image_repo) (get_result rt) ;;
  match got with
  | Ok image => ret (Some image)
  | Raise e => if is_image_not_found e then ret None else raise e
  end.

(** What [set_docker_image] is given: a name, which is a [str], or
    something else, which is an image or [None]. *)
Inductive image_argument :=
| image_named (name : string)
| image_given (image : option Image).

Definition set_docker_image (image : image_argument) : M unit :=
  image <- match image with
           | image_named name =>
               got <- perform (images_get name) (get_result rt) ;;
               found <- lift got ;;
               ret (Some found)
           | image_given given => ret given
           end ;;
  m <- get_self ;;
  put_self (set__docker_image image m).

End Images.

(* ================================================================== *)
(** ** The rest of the client *)

(** The calls to the client, to a container and to the host that only the
    methods below make. *)
Inductive client_call :=
| docker_from_env
| client_login (username password : string)
| images_push (repository tag : string)
| images_pull (repository tag : string)
| containers_get (name : string)
| container_stop (c : Container)
| container_remove (c : Container) (force : bool)
| os_path_isfile (path : string).

(** A call of either kind, in the order the calls were made. *)
Definition event : Type := (call + client_call)%type.

(** The answers to the calls of [client_call], each one a function of all
    calls made so far, the call asked included. *)
Record Client := {
  from_env_result : list event -> Res unit;
  login_result : list event -> Res unit;
  push_result : list event -> Res unit;
  pull_result : list event -> Res Image;
  container_get_result : list event -> Res Container;
  stop_result : list event -> Res unit;
  container_remove_result : list event -> Res unit;
  isfile : list event -> bool
}.

(** The state of a method that makes calls of both kinds: the state of the
    methods above, and the calls of both kinds in order. *)
Record Session := {
  state : State;
  history : list event
}.

Definition Op (A : Type) : Type := Session -> Res A * Session.

Definition op_ret {A} (a : A) : Op A := fun ss => (Ok a, ss).

Definition op_bind {A B} (m : Op A) (k : A -> Op B) : Op B :=
  fun ss => match m ss with
            | (Ok a, ss') => k a ss'
            | (Raise e, ss') => (Raise e, ss')
            end.

Definition op_raise {A} (e : exn) : Op A := fun ss => (Raise e, ss).

Declare Scope op_scope.
Delimit Scope op_scope with op.
Notation "x <- m ;; k" := (op_bind m (fun x => k))
  (at level 61, m at next level, right associativity) : op_scope.
Notation "m ;; k" := (op_bind m (fun _ => k))
  (at level 61, right associativity) : op_scope.

(** Run a method of the first kind; the calls it makes go to the history. *)
Definition core {A} (m : M A) : Op A :=
  fun ss =>
    let (r, s') := m (state ss) in
    (r, {| state := s';
           history := (history ss
                       ++ map inl (skipn (List.length (trace (state ss))) (trace s')))%list |}).

(** Make the call [c]; the answer is a value or an exception. *)
Definition request {R} (c : client_call) (answer : list event -> Res R) : Op R :=
  fun ss => let h := (history ss ++ [inr c])%list in
            (answer h, {| state := state ss; history := h |}).

(** Make the call [c], which cannot fail. *)
Definition ask {R} (c : client_call) (answer : list event -> R) : Op R :=
  fun ss => let h := (history ss ++ [inr c])%list in
            (Ok (answer h), {| state := state ss; history := h |}).

Fixpoint op_for_each {A} (l : list A) (body : A -> Op unit) : Op unit :=
  match l with
  | [] => op_ret tt
  | x :: l' => op_bind (body x) (fun _ => op_for_each l' body)
  end.

(** The arguments of the constructor; [None] is an argument left out. *)
Module Args.

Record t := {
  base_docker_image_repo : option string;
  base_docker_image_tags : option (list string);
  docker_image_repo : option string;
  docker_image_tags : option (list string);
  dockerfile_path : option string;
  docker_image_build_args : option (list (string * string));
  docker_image_context_path : option string;
  docker_container_name_format : option string;
  paths_to_copy_to_docker_container : option (list (string * copy_attrs));
  paths_to_mount_to_docker_container : option (list (string * mount_attrs));
  ssh_key_container_path : option string;
  python_version_in_container : option string;
  python_packages_from_pypi : option string;
  python_packages_from_github : option string;
  python_packages_from_host : option string;
  dockerhub_username : option string;
  dockerhub_password : option string;
  verbose : option bool
}.


End Args.

(** [val = eval(key); if val is None: val = default_val] *)
Definition option_or_default {A} (val : option A) (default_val : A) : A :=
  match val with
  | Some v => v
  | None => default_val
  end.

(** The loop of the constructor over the default configuration, whose keys
    are the names of the arguments; [default_config] carries the default
    values.  The image and the container are set after the loop. *)
Definition handle_options (default_config : WcEnvManager) (a : Args.t) : WcEnvManager :=
  {| base_docker_image_repo :=
       option_or_default (Args.base_docker_image_repo a) (base_docker_image_repo default_config);
     base_docker_image_tags :=
       option_or_default (Args.base_docker_image_tags a) (base_docker_image_tags default_config);
     docker_image_repo :=
       option_or_default (Args.docker_image_repo a) (docker_image_repo default_config);
     docker_image_tags :=
       option_or_default (Args.docker_image_tags a) (docker_image_tags default_config);
     dockerfile_path :=
       option_or_default (Args.dockerfile_path a) (dockerfile_path default_config);
     docker_image_build_args :=
       option_or_default (Args.docker_image_build_args a)
                         (docker_image_build_args default_config);
     docker_image_context_path :=
       option_or_default (Args.docker_image_context_path a)
                         (docker_image_context_path default_config);
     docker_container_name_format :=
       option_or_default (Args.docker_container_name_format a)
                         (docker_container_name_format default_config);
     paths_to_copy_to_docker_container :=
       option_or_default (Args.paths_to_copy_to_docker_container a)
                         (paths_to_copy_to_docker_container default_config);
     paths_to_mount_to_docker_container :=
       option_or_default (Args.paths_to_mount_to_docker_container a)
                         (paths_to_mount_to_docker_container default_config);
     ssh_key_container_path :=
       option_or_default (Args.ssh_key_container_path a) (ssh_key_container_path default_config);
     python_version_in_container :=
       option_or_default (Args.python_version_in_container a)
                         (python_version_in_container default_config);
     python_packages_from_pypi :=
       option_or_default (Args.python_packages_from_pypi a)
                         (python_packages_from_pypi default_config);
     python_packages_from_github :=
       option_or_default (Args.python_packages_from_github a)
                         (python_packages_from_github default_config);
     python_packages_from_host :=
       option_or_default (Args.python_packages_from_host a)
                         (python_packages_from_host default_config);
     dockerhub_username :=
       option_or_default (Args.dockerhub_username a) (dockerhub_username default_config);
     dockerhub_password :=
       option_or_default (Args.dockerhub_password a) (dockerhub_password default_config);
     verbose := option_or_default (Args.verbose a) (verbose default_config);
     _docker_image := None;
     _docker_container := None |}.

(** What [set_docker_container] is given: a name, which is a [str], or
    something else, which is a container or [None]. *)
Inductive container_argument :=
| container_named (name : string)
| container_given (container : option Container).

Section Lifecycle.

Variable rt : Runtime.
Variable cl : Client.

#[local] Open Scope op_scope.

Definition login_dockerhub : Op unit :=
  m <- core get_self ;;
  request (client_login (dockerhub_username m) (dockerhub_password m)) (login_result cl).

Definition push_docker_image (image_repo : string) (image_tags : list string) : Op unit :=
  op_for_each image_tags (fun tag =>
    request (images_push image_repo tag) (push_result cl)).

Definition pull_docker_image (image_repo : string) (image_tags : list string) : Op Image :=
  match image_tags with
  | [] => op_raise (IndexError "list index out of range")
  | tag0 :: _ =>
      image <- request (images_pull image_repo tag0) (pull_result cl) ;;
      m <- core get_self ;;
      core (put_self (set__docker_image (Some image) m)) ;;
      op_ret image
  end.

Definition set_docker_container (container : container_argument) : Op unit :=
  container <- match container with
               | container_named name =>
                   found <- request (containers_get name) (container_get_result cl) ;;
                   op_ret (Some found)
               | container_given given => op_ret given
               end ;;
  m <- core get_self ;;
  core (put_self (set__docker_container container m)).

Definition copy_path_from_docker_container
           (container_path local_path : string) (overwrite : bool) : Op unit :=
  is_file <- (is_file <- ask (os_path_isfile local_path) (isfile cl) ;;
              if is_file then op_ret true
              else core (perform (os_path_isdir local_path) (isdir rt))) ;;
  if is_file && negb overwrite then
    op_raise (WcEnvManagerError ("File " ++ local_path ++ " already exists"))
  else
    c <- core (the_container "name") ;;
    core (run_process_on_host rt
            ["docker"; "cp"; container_name c ++ ":" ++ container_path; local_path]).

Definition stop_docker_container : Op unit :=
  c <- core (the_container "stop") ;;
  request (container_stop c) (stop_result cl).

Definition remove_docker_container (force : bool) : Op unit :=
  c <- core (the_container "remove") ;;
  request (container_remove c force) (container_remove_result cl) ;;
  m <- core get_self ;;
  core (put_self (set__docker_container None m)).

Definition remove_docker_containers (force : bool) : Op unit :=
  containers <- core (get_docker_containers rt false) ;;
  op_for_each containers (fun container =>
    request (container_remove container force) (container_remove_result cl)) ;;
  m <- core get_self ;;
  core (put_self (set__docker_container None m)).

(** The constructor, given the default configuration that
    [get_config] answers with. *)
Definition init (default_config : WcEnvManager) (a : Args.t) : Op unit :=
  (* handle options *)
  core (put_self (handle_options default_config a)) ;;
  (* load Docker client *)
  request docker_from_env (from_env_result cl) ;;
  (* get image and current container *)
  m <- core get_self ;;
  image <- core (get_latest_docker_image rt (base_docker_image_repo m)) ;;
  core (set_docker_image rt (image_given image)) ;;
  container <- core (get_latest_docker_container rt) ;;
  set_docker_container (container_given container).

End Lifecycle.

(** A session that starts in [s]. *)
Definition session (s : State) : Session := {| state := s; history := map inl (trace s) |}.

Module Daemon.

(** The daemon that grants every request. *)
Definition granting : Client :=
  {| from_env_result := fun _ => Ok tt;
     login_result := fun _ => Ok tt;
     push_result := fun _ => Ok tt;
     pull_result := fun _ => Ok {| image_id := "sha256:1";
                                   image_tags := ["karrlab/wc_env_dependencies:latest"] |};
     container_get_result := fun _ => Ok Fixture.c0;
     stop_result := fun _ => Ok tt;
     container_remove_result := fun _ => Ok tt;
     isfile := fun _ => false |}.

Definition conflict : foreign_exception :=
  {| clause := APIError_; class_name := "APIError";
     text := "409 Client Error: Conflict (You cannot remove a running container)" |}.


Definition denied : foreign_exception :=
  {| clause := APIError_; class_name := "APIError";
     text := "500 Server Error: Internal Server Error (denied: requested access to the resource is denied)" |}.

(** The daemon that refuses to push [tag] and grants everything else. *)
Definition denying (tag : string) : Client :=
  {| from_env_result := fun _ => Ok tt;
     login_result := fun _ => Ok tt;
     push_result := fun h => match last h (inr docker_from_env) with
                             | inr (images_push _ pushed) =>
                                 if String.eqb pushed tag then Raise (Foreign denied)
                                 else Ok tt
                             | _ => Ok tt
                             end;
     pull_result := pull_result granting;
     container_get_result := container_get_result granting;
     stop_result := fun _ => Ok tt;
     container_remove_result := fun _ => Ok tt;
     isfile := fun _ => false |}.

(** The daemon of a host on which every local path is a file. *)
Definition with_files : Client :=
  {| from_env_result := fun _ => Ok tt;
     login_result := fun _ => Ok tt;
     push_result := fun _ => Ok tt;
     pull_result := pull_result granting;
     container_get_result := container_get_result granting;
     stop_result := fun _ => Ok tt;
     container_remove_result := fun _ => Ok tt;
     isfile := fun _ => true |}.

(** The world [rt] in which the image [name] cannot be removed. *)
Definition keeping (rt : Runtime) (name : string) : Runtime :=
  {| cwd := cwd rt;
     home := home rt;
     getpwnam := getpwnam rt;
     strftime := strftime rt;
     strptime := strptime rt;
     parse_time := parse_time rt;
     now := now rt;
     build_result := build_result rt;
     tag_result := tag_result rt;
     get_result := get_result rt;
     remove_result := fun t => match last t datetime_now with
                               | images_remove removed _ =>
                                   if String.eqb removed name then Raise (Foreign conflict)
                                   else Ok tt
                               | _ => Ok tt
                               end;
     run_result := run_result rt;
     list_result := list_result rt;
     stats_read := stats_read rt;
     exec_result := exec_result rt;
     returncode := returncode rt;
     isdir := isdir rt;
     open_result := open_result rt;
     yaml_result := yaml_result rt;
     mkstemp_result := mkstemp_result rt |}.



End Daemon.

(* ================================================================== *)
(** * Properties *)

(** ** Strings and paths *)

Module PathFacts.
Import Str posixpath PathForm.

Lemma append_nil_r (s : string) : s ++ "" = s.
Proof. induction s; simpl; congruence. Qed.

Lemma append_assoc (a b c : string) : (a ++ b) ++ c = a ++ (b ++ c).
Proof. induction a; simpl; congruence. Qed.


Lemma prefix_empty (s : string) : String.prefix "" s = true.
Proof. destruct s; reflexivity. Qed.

Lemma prefix_cons (a b : ascii) (s1 s2 : string) :
  String.prefix (String a s1) (String b s2) = Ascii.eqb a b && String.prefix s1 s2.
Proof.
  change (String.prefix (String a s1) (String b s2))
    with (if ascii_dec a b then String.prefix s1 s2 else false).
  destruct (ascii_dec a b) as [->|N].
  - rewrite Ascii.eqb_refl. reflexivity.
  - apply Ascii.eqb_neq in N. rewrite N. reflexivity.
Qed.

#[local] Arguments String.prefix : simpl never.

Lemma prefix_append (p s : string) : String.prefix p (p ++ s) = true.
Proof.
  induction p as [|c p IH]; simpl.
  - apply prefix_empty.
  - rewrite prefix_cons, Ascii.eqb_refl, IH. reflexivity.
Qed.

Lemma split_sep_not_nil (s : string) : split_sep s <> [].
Proof.
  induction s as [|c s IH]; simpl; [discriminate|].
  destruct (Ascii.eqb c "/"); [discriminate|].
  destruct (split_sep s); discriminate.
Qed.

Lemma concat_cons_char (c : ascii) (w : string) (ws : list string) :
  String.concat "/" (String c w :: ws) = String c (String.concat "/" (w :: ws)).
Proof. destruct ws; reflexivity. Qed.

Lemma join_split (s : string) : join_sep (split_sep s) = s.
Proof.
  unfold join_sep.
  induction s as [|c s IH]; simpl; [reflexivity|].
  destruct (Ascii.eqb c "/") eqn:E.
  - apply Ascii.eqb_eq in E. subst c.
    destruct (split_sep s) as [|w ws] eqn:S.
    + exfalso. exact (split_sep_not_nil s S).
    + simpl in *. rewrite IH. reflexivity.
  - destruct (split_sep s) as [|w ws] eqn:S.
    + exfalso. exact (split_sep_not_nil s S).
    + rewrite concat_cons_char, IH. reflexivity.
Qed.

Lemma split_app_sep (a b : string) :
  split_sep (a ++ String "/" b) = (split_sep a ++ split_sep b)%list.
Proof.
  induction a as [|c a IH]; simpl; [reflexivity|].
  rewrite IH.
  destruct (Ascii.eqb c "/"); [reflexivity|].
  destruct (split_sep a) as [|w ws] eqn:S.
  - exfalso. exact (split_sep_not_nil a S).
  - reflexivity.
Qed.

Lemma split_no_sep (c : string) : no_sep c = true -> split_sep c = [c].
Proof.
  induction c as [|x c IH]; simpl; [reflexivity|].
  intros H. apply andb_true_iff in H. destruct H as [Hx Hc].
  apply negb_true_iff in Hx. rewrite Hx, (IH Hc). reflexivity.
Qed.

Lemma split_all_no_sep (s : string) : Forall (fun c => no_sep c = true) (split_sep s).
Proof.
  induction s as [|x s IH]; simpl.
  - constructor; [reflexivity | constructor].
  - destruct (Ascii.eqb x "/") eqn:E.
    + constructor; [reflexivity | exact IH].
    + destruct (split_sep s) as [|w ws]; inversion IH; subst.
      * constructor; [simpl; rewrite E; reflexivity | constructor].
      * constructor; [simpl; rewrite E; assumption | assumption].
Qed.

Lemma normal_no_sep (c : string) : normal c = true -> no_sep c = true.
Proof. unfold normal. intros H. apply andb_true_iff in H. tauto. Qed.

Lemma normal_not_empty (c : string) : normal c = true -> c <> "".
Proof. intros H ->. discriminate H. Qed.

Lemma join_sep_cons (c : string) (cs : list string) :
  cs <> [] -> join_sep (c :: cs) = c ++ String "/" (join_sep cs).
Proof. destruct cs; [congruence | reflexivity]. Qed.

Lemma split_join (cs : list string) :
  cs <> [] -> Forall (fun c => no_sep c = true) cs ->
  split_sep (join_sep cs) = cs.
Proof.
  induction cs as [|c cs IH]; [congruence|].
  intros _ H. inversion H as [|? ? Hc Hcs]; subst.
  destruct cs as [|d cs'].
  - simpl. apply split_no_sep. exact Hc.
  - rewrite join_sep_cons by discriminate.
    rewrite split_app_sep, (split_no_sep _ Hc), IH by (discriminate || assumption).
    reflexivity.
Qed.

Lemma join_sep_app (l r : list string) :
  l <> [] -> r <> [] ->
  join_sep (l ++ r) = join_sep l ++ String "/" (join_sep r).
Proof.
  induction l as [|c l IH]; [congruence|].
  intros _ Hr. destruct l as [|d l'].
  - simpl app. apply join_sep_cons. exact Hr.
  - change ((c :: d :: l') ++ r)%list with (c :: ((d :: l') ++ r))%list.
    rewrite join_sep_cons by discriminate.
    rewrite IH by (discriminate || assumption).
    rewrite (join_sep_cons c (d :: l')) by discriminate.
    rewrite append_assoc. reflexivity.
Qed.

Abbreviation normals := (Forall (fun c => normal c = true)).

Lemma relative_head (c : ascii) (s : string) :
  relative (String c s) = negb (Ascii.eqb c "/").
Proof.
  unfold relative, isabs, startswith.
  rewrite prefix_cons, prefix_empty, andb_true_r, Ascii.eqb_sym. reflexivity.
Qed.

Lemma no_sep_relative (c : string) : no_sep c = true -> relative c = true.
Proof.
  destruct c as [|x c]; [reflexivity|].
  rewrite relative_head. simpl. intros H. apply andb_true_iff in H. tauto.
Qed.

Lemma relative_append (a b : string) :
  a <> "" -> relative (a ++ b) = relative a.
Proof. destruct a as [|x a]; [congruence|]. intros _. simpl. rewrite !relative_head. reflexivity. Qed.

Lemma join_sep_relative (cs : list string) :
  normals cs -> relative (join_sep cs) = true.
Proof.
  intros H. destruct cs as [|c cs]; [reflexivity|].
  inversion H as [|? ? Hc Hcs]; subst.
  destruct cs as [|d cs'].
  - simpl. apply no_sep_relative, normal_no_sep, Hc.
  - rewrite join_sep_cons by discriminate.
    rewrite relative_append by (apply normal_not_empty, Hc).
    apply no_sep_relative, normal_no_sep, Hc.
Qed.

Lemma split_seps (n : nat) (s : string) :
  split_sep (seps n ++ s) = (repeat "" n ++ split_sep s)%list.
Proof. induction n as [|n IH]; simpl; [reflexivity | rewrite IH; reflexivity]. Qed.

Lemma normals_no_sep (cs : list string) :
  normals cs -> Forall (fun c => no_sep c = true) cs.
Proof. intros H. eapply Forall_impl; [|exact H]. apply normal_no_sep. Qed.

Lemma split_abs_form (n : nat) (cs : list string) :
  normals cs ->
  split_sep (abs_form n cs)
  = (repeat "" n ++ match cs with [] => [""] | _ => cs end)%list.
Proof.
  intros H. unfold abs_form. rewrite split_seps. f_equal.
  destruct cs as [|c cs]; [reflexivity|].
  apply split_join; [discriminate | apply normals_no_sep, H].
Qed.

Lemma filter_empties (n : nat) (l : list string) :
  filter (fun x => negb (String.eqb x "")) (repeat "" n ++ l)
  = filter (fun x => negb (String.eqb x "")) l.
Proof. induction n; simpl; auto. Qed.

Lemma filter_normals (cs : list string) :
  normals cs -> filter (fun x => negb (String.eqb x "")) cs = cs.
Proof.
  induction 1 as [|c cs Hc _ IH]; simpl; [reflexivity|].
  unfold normal in Hc. destruct (String.eqb c ""); [discriminate|].
  simpl. rewrite IH. reflexivity.
Qed.

Lemma parts_abs_form (n : nat) (cs : list string) :
  normals cs -> parts (abs_form n cs) = cs.
Proof.
  intros H. unfold parts. rewrite split_abs_form, filter_empties by exact H.
  destruct cs; [reflexivity|]. apply filter_normals, H.
Qed.

Lemma step_normal (n : nat) (st : list string) (c : string) :
  normal c = true -> normpath_step n st c = c :: st.
Proof.
  unfold normal, normpath_step. intros H.
  destruct (String.eqb c ""); [discriminate|].
  destruct (String.eqb c "."); [discriminate|].
  destruct (String.eqb c ".."); [discriminate|].
  reflexivity.
Qed.

Lemma step_keeps_normals (n : nat) (st : list string) (c : string) :
  n <> 0 -> normals st -> no_sep c = true -> normals (normpath_step n st c).
Proof.
  intros Hn Hst Hc. unfold normpath_step.
  destruct (String.eqb c "") eqn:E1; [exact Hst|].
  destruct (String.eqb c ".") eqn:E2; [exact Hst|].
  destruct (String.eqb c "..") eqn:E3; simpl.
  - destruct n; [congruence|]. simpl.
    destruct st as [|top rest]; [constructor|].
    inversion Hst as [|? ? Htop Hrest]; subst.
    destruct (String.eqb top "..") eqn:E4.
    + unfold normal in Htop. rewrite E4 in Htop.
      rewrite !andb_false_r in Htop. discriminate.
    + exact Hrest.
  - constructor; [|exact Hst].
    unfold normal. rewrite E1, E2, E3, Hc. reflexivity.
Qed.

Lemma fold_keeps_normals (n : nat) (cs st : list string) :
  n <> 0 -> normals st -> Forall (fun c => no_sep c = true) cs ->
  normals (fold_left (normpath_step n) cs st).
Proof.
  intros Hn. revert st.
  induction cs as [|c cs IH]; intros st Hst Hcs; simpl; [exact Hst|].
  inversion Hcs; subst. apply IH; [|assumption].
  apply step_keeps_normals; assumption.
Qed.

Lemma normcomps_normals (n : nat) (s : string) :
  n <> 0 -> normals (normcomps n (split_sep s)).
Proof.
  intros Hn. unfold normcomps. apply Forall_rev.
  apply fold_keeps_normals; [exact Hn | constructor | apply split_all_no_sep].
Qed.

Lemma fold_empties (n k : nat) (st : list string) :
  fold_left (normpath_step n) (repeat "" k) st = st.
Proof. induction k; simpl; auto. Qed.

Lemma fold_normals (n : nat) (cs st : list string) :
  normals cs -> fold_left (normpath_step n) cs st = (rev cs ++ st)%list.
Proof.
  intros H. revert st. induction H as [|c cs Hc _ IH]; intros st; simpl; [reflexivity|].
  rewrite (step_normal _ _ _ Hc), IH, <- app_assoc. reflexivity.
Qed.

Lemma normcomps_abs_form (n k : nat) (cs : list string) :
  normals cs -> normcomps n (split_sep (abs_form k cs)) = cs.
Proof.
  intros H. unfold normcomps.
  rewrite split_abs_form, fold_left_app, fold_empties by exact H.
  destruct cs as [|c cs]; [reflexivity|].
  rewrite fold_normals, app_nil_r, rev_involutive by exact H. reflexivity.
Qed.

Lemma initial_slashes_abs_form (n : nat) (cs : list string) :
  n = 1 \/ n = 2 -> normals cs -> initial_slashes (abs_form n cs) = n.
Proof.
  intros Hn H. pose proof (join_sep_relative cs H) as R.
  unfold abs_form. destruct (join_sep cs) as [|x s].
  - destruct Hn as [-> | ->]; reflexivity.
  - rewrite relative_head in R. apply negb_true_iff in R.
    assert (x <> "/"%char) as N by (intros ->; discriminate R).
    rewrite Ascii.eqb_sym in R.
    unfold initial_slashes, startswith.
    destruct Hn as [-> | ->]; simpl;
      rewrite !prefix_cons, ?R, ?prefix_empty; reflexivity.
Qed.

Lemma seps_not_empty (n : nat) (s : string) : n <> 0 -> seps n ++ s <> "".
Proof. destruct n; [congruence | discriminate]. Qed.

Lemma eqb_not_empty (s : string) : s <> "" -> String.eqb s "" = false.
Proof. intros H. apply String.eqb_neq. exact H. Qed.

(** [normpath] leaves an absolute path in normal form as it is. *)
Lemma normpath_abs_form (n : nat) (cs : list string) :
  n = 1 \/ n = 2 -> normals cs -> normpath (abs_form n cs) = abs_form n cs.
Proof.
  intros Hn H. unfold normpath.
  assert (n <> 0) as Hn0 by (destruct Hn; lia).
  rewrite (eqb_not_empty (abs_form n cs)) by (apply seps_not_empty, Hn0).
  rewrite initial_slashes_abs_form, normcomps_abs_form by assumption.
  fold (abs_form n cs).
  rewrite (eqb_not_empty (abs_form n cs)) by (apply seps_not_empty, Hn0).
  reflexivity.
Qed.

Lemma isabs_abs_form (n : nat) (cs : list string) :
  n <> 0 -> isabs (abs_form n cs) = true.
Proof.
  destruct n; [congruence|]. intros _. unfold isabs, startswith, abs_form. simpl.
  rewrite prefix_cons, prefix_empty. reflexivity.
Qed.

Lemma abspath_abs_form (cwd : string) (n : nat) (cs : list string) :
  n = 1 \/ n = 2 -> normals cs -> abspath cwd (abs_form n cs) = abs_form n cs.
Proof.
  intros Hn H. unfold abspath.
  rewrite isabs_abs_form by (destruct Hn; lia).
  apply normpath_abs_form; assumption.
Qed.

Lemma initial_slashes_isabs (p : string) :
  isabs p = true -> initial_slashes p = 1 \/ initial_slashes p = 2.
Proof.
  unfold initial_slashes, isabs. intros ->.
  destruct (startswith p "//" && negb (startswith p "///")); auto.
Qed.

(** [normpath] brings an absolute path into normal form. *)
Lemma normpath_isabs (p : string) :
  isabs p = true ->
  exists n cs, (n = 1 \/ n = 2) /\ normals cs /\ normpath p = abs_form n cs.
Proof.
  intros Habs.
  pose proof (initial_slashes_isabs p Habs) as Hn.
  exists (initial_slashes p), (normcomps (initial_slashes p) (split_sep p)).
  assert (initial_slashes p <> 0) as Hn0 by (destruct Hn; lia).
  split; [exact Hn|]. split; [apply normcomps_normals, Hn0|].
  unfold normpath.
  destruct p as [|x p]; [discriminate Habs|].
  change (String.eqb (String x p) "") with false. cbv iota.
  set (q := seps _ ++ _).
  rewrite (eqb_not_empty q) by (apply seps_not_empty, Hn0).
  reflexivity.
Qed.

Lemma isabs_append (a b : string) : isabs a = true -> isabs (a ++ b) = true.
Proof.
  destruct a as [|x a]; [discriminate|]. unfold isabs, startswith. simpl.
  rewrite !prefix_cons, !prefix_empty. auto.
Qed.

Lemma isabs_join2 (a b : string) : isabs a = true -> isabs (join2 a b) = true.
Proof.
  intros H. unfold join2. destruct (startswith b "/") eqn:E; [exact E|].
  destruct (String.eqb a "" || endswith_sep a); apply isabs_append, H.
Qed.

(** Under an absolute working directory [abspath] always answers with an
    absolute path in normal form. *)
Lemma abspath_shape (cwd p : string) :
  isabs cwd = true ->
  exists n cs, (n = 1 \/ n = 2) /\ normals cs /\ abspath cwd p = abs_form n cs.
Proof.
  intros Hcwd. unfold abspath. destruct (isabs p) eqn:E.
  - apply normpath_isabs, E.
  - apply normpath_isabs. simpl. apply isabs_join2, Hcwd.
Qed.

Lemma abspath_idempotent (cwd p : string) :
  isabs cwd = true -> abspath cwd (abspath cwd p) = abspath cwd p.
Proof.
  intros Hcwd. destruct (abspath_shape cwd p Hcwd) as (n & cs & Hn & Hcs & ->).
  apply abspath_abs_form; assumption.
Qed.

(** *** Joining *)

Lemma relative_startswith (s : string) :
  relative s = true -> startswith s "/" = false.
Proof. unfold relative, isabs. apply negb_true_iff. Qed.

Lemma endswith_sep_append (a b : string) :
  b <> "" -> endswith_sep (a ++ b) = endswith_sep b.
Proof.
  intros Hb. induction a as [|x a IH]; [reflexivity|].
  simpl. rewrite IH. destruct (a ++ b) eqn:E; [|reflexivity].
  destruct a; simpl in E; congruence.
Qed.

Lemma endswith_sep_no_sep (c : string) : no_sep c = true -> endswith_sep c = false.
Proof.
  induction c as [|x c IH]; [reflexivity|]. simpl. intros H.
  apply andb_true_iff in H. destruct H as [Hx Hc].
  destruct c; [apply negb_true_iff, Hx | apply IH, Hc].
Qed.

Lemma endswith_sep_seps (n : nat) : n <> 0 -> endswith_sep (seps n) = true.
Proof.
  induction n as [|n IH]; [congruence|]. intros _. simpl.
  destruct n; [reflexivity|]. apply IH. discriminate.
Qed.

Lemma join_sep_not_empty (c : string) (cs : list string) :
  c <> "" -> join_sep (c :: cs) <> "".
Proof.
  intros Hc. destruct cs; [exact Hc|]. rewrite join_sep_cons by discriminate.
  destruct c; [congruence | discriminate].
Qed.

Lemma endswith_sep_join_sep (cs : list string) :
  normals cs -> endswith_sep (join_sep cs) = false.
Proof.
  induction 1 as [|c cs Hc Hcs IH]; [reflexivity|].
  destruct cs as [|d cs'].
  - apply endswith_sep_no_sep, normal_no_sep, Hc.
  - rewrite join_sep_cons by discriminate.
    inversion Hcs; subst.
    rewrite endswith_sep_append by discriminate.
    change (String "/" (join_sep (d :: cs'))) with ("/" ++ join_sep (d :: cs')).
    rewrite endswith_sep_append; [exact IH|].
    apply join_sep_not_empty, normal_not_empty. assumption.
Qed.

(** [join] of a path with one relative piece. *)
Lemma join2_abs_form (n : nat) (cs : list string) (s : string) :
  n <> 0 -> normals cs -> relative s = true ->
  join2 (abs_form n cs) s
  = match cs with
    | [] => seps n ++ s
    | _ => abs_form n cs ++ String "/" s
    end.
Proof.
  intros Hn Hcs Hs. unfold join2.
  rewrite (relative_startswith s Hs).
  rewrite (eqb_not_empty (abs_form n cs)) by (apply seps_not_empty, Hn).
  destruct cs as [|c cs].
  - unfold abs_form. simpl join_sep. rewrite append_nil_r.
    rewrite endswith_sep_seps by exact Hn. reflexivity.
  - unfold abs_form at 1.
    rewrite endswith_sep_append.
    + rewrite endswith_sep_join_sep by exact Hcs. reflexivity.
    + inversion Hcs; subst. apply join_sep_not_empty, normal_not_empty. assumption.
Qed.

Lemma join2_abs_form_comps (n : nat) (cs rs : list string) :
  n <> 0 -> normals cs -> normals rs -> rs <> [] ->
  join2 (abs_form n cs) (join_sep rs) = abs_form n (cs ++ rs).
Proof.
  intros Hn Hcs Hrs Hne.
  rewrite join2_abs_form by (try assumption; apply join_sep_relative, Hrs).
  destruct cs as [|c cs]; [reflexivity|].
  unfold abs_form. rewrite append_assoc. f_equal.
  symmetry. apply join_sep_app; [discriminate | exact Hne].
Qed.

(** [join] applied to a list of components joins them by [sep]. *)
Lemma fold_join2_comps (rest : list string) (acc : string) :
  normals rest -> acc <> "" -> endswith_sep acc = false ->
  fold_left join2 rest acc
  = match rest with
    | [] => acc
    | _ => acc ++ String "/" (join_sep rest)
    end.
Proof.
  intros H. revert acc.
  induction H as [|c rest Hc Hrest IH]; intros acc Hacc Hend; [reflexivity|].
  simpl fold_left.
  assert (join2 acc c = acc ++ String "/" c) as ->.
  { unfold join2.
    rewrite (relative_startswith c) by (apply no_sep_relative, normal_no_sep, Hc).
    rewrite (eqb_not_empty acc Hacc), Hend. reflexivity. }
  rewrite IH.
  - destruct rest as [|d rest']; [reflexivity|].
    rewrite (join_sep_cons c) by discriminate.
    rewrite append_assoc. reflexivity.
  - destruct acc; discriminate.
  - rewrite endswith_sep_append by discriminate.
    change (String "/" c) with ("/" ++ c).
    rewrite endswith_sep_append by (apply normal_not_empty, Hc).
    apply endswith_sep_no_sep, normal_no_sep, Hc.
Qed.

Lemma join_comps (c : string) (rest : list string) :
  normals (c :: rest) -> join c rest = join_sep (c :: rest).
Proof.
  intros H. inversion H as [|? ? Hc Hrest]; subst. unfold join.
  rewrite fold_join2_comps.
  - destruct rest; [reflexivity|]. rewrite (join_sep_cons c) by discriminate. reflexivity.
  - exact Hrest.
  - apply normal_not_empty, Hc.
  - apply endswith_sep_no_sep, normal_no_sep, Hc.
Qed.

(** *** The common prefix of two component lists *)

Lemma compare_refl (x : string) : String.compare x x = Eq.
Proof.
  pose proof (String.compare_antisym x x) as H.
  destruct (String.compare x x); simpl in H; congruence.
Qed.

Lemma list_leb_app (l r : list string) : list_leb l (l ++ r) = true.
Proof. induction l as [|x l IH]; simpl; [reflexivity|]. rewrite compare_refl. exact IH. Qed.

Lemma common_app (l r : list string) : common l (l ++ r) = l.
Proof.
  induction l as [|x l IH]; simpl; [reflexivity|].
  rewrite String.eqb_refl, IH. reflexivity.
Qed.

Lemma commonprefix_app (l r : list string) : commonprefix l (l ++ r) = l.
Proof. unfold commonprefix. rewrite list_leb_app. apply common_app. Qed.

Lemma skipn_length_app {A} (l r : list A) : skipn (List.length l) (l ++ r) = r.
Proof. induction l; simpl; auto. Qed.

(** [relpath] of a path below [start]: the components that follow. *)
Lemma relpath_below (cwd : string) (n n' : nat) (cs rs : list string) :
  (n = 1 \/ n = 2) -> (n' = 1 \/ n' = 2) ->
  normals cs -> normals rs -> rs <> [] ->
  relpath cwd (abs_form n (cs ++ rs)) (abs_form n' cs) = Some (join_sep rs).
Proof.
  intros Hn Hn' Hcs Hrs Hne. unfold relpath.
  assert (normals (cs ++ rs)) as Hall by (apply Forall_app; split; assumption).
  rewrite (eqb_not_empty (abs_form n (cs ++ rs))) by (apply seps_not_empty; destruct Hn; lia).
  rewrite !abspath_abs_form, !parts_abs_form by assumption.
  rewrite commonprefix_app, Nat.sub_diag, skipn_length_app. simpl.
  destruct rs as [|r rs]; [congruence|].
  f_equal. apply join_comps, Hrs.
Qed.

(** [relpath] of a path to itself. *)
Lemma relpath_self (cwd : string) (n n' : nat) (cs : list string) :
  (n = 1 \/ n = 2) -> (n' = 1 \/ n' = 2) -> normals cs ->
  relpath cwd (abs_form n cs) (abs_form n' cs) = Some ".".
Proof.
  intros Hn Hn' Hcs. unfold relpath.
  rewrite (eqb_not_empty (abs_form n cs)) by (apply seps_not_empty; destruct Hn; lia).
  rewrite !abspath_abs_form, !parts_abs_form by assumption.
  assert (commonprefix cs cs = cs) as ->
      by (pose proof (commonprefix_app cs []) as E; rewrite app_nil_r in E; exact E).
  rewrite Nat.sub_diag, skipn_all. reflexivity.
Qed.

(** *** A path below another *)

Lemma split_relative (s : string) :
  s <> "" -> relative s = true ->
  exists w ws, split_sep s = w :: ws /\ w <> "".
Proof.
  destruct s as [|x s]; [congruence|]. intros _ H.
  rewrite relative_head in H. apply negb_true_iff in H. simpl. rewrite H.
  destruct (split_sep s) as [|w ws]; eexists _, _; split; try reflexivity; discriminate.
Qed.

Lemma leading_empties (n n' : nat) (x x' : string) (l l' : list string) :
  x <> "" -> x' <> "" ->
  (repeat "" n ++ x :: l = repeat "" n' ++ x' :: l')%list ->
  n = n' /\ x :: l = x' :: l'.
Proof.
  intros Hx Hx'. revert n'.
  induction n as [|n IH]; intros [|n'] E; simpl in E.
  - auto.
  - injection E as E _. congruence.
  - injection E as E _. congruence.
  - injection E as E. destruct (IH _ E). auto.
Qed.

Lemma split_join2_abs_form (n : nat) (cs : list string) (s : string) :
  n <> 0 -> normals cs -> relative s = true ->
  split_sep (join2 (abs_form n cs) s) = (repeat "" n ++ cs ++ split_sep s)%list.
Proof.
  intros Hn Hcs Hs. rewrite join2_abs_form by assumption.
  destruct cs as [|c cs].
  - apply split_seps.
  - rewrite split_app_sep, split_abs_form, <- app_assoc by exact Hcs. reflexivity.
Qed.

(** A normal form that is another one joined with a relative piece
    extends its components by those of the piece. *)
Lemma abs_form_below (n n' : nat) (cs cs' : list string) (s : string) :
  n <> 0 -> n' <> 0 -> normals cs -> normals cs' ->
  s <> "" -> relative s = true ->
  abs_form n cs = join2 (abs_form n' cs') s ->
  n = n' /\ exists rs, rs <> [] /\ normals rs /\ cs = (cs' ++ rs)%list /\ s = join_sep rs.
Proof.
  intros Hn Hn' Hcs Hcs' Hs Hrel E.
  apply (f_equal split_sep) in E.
  rewrite split_join2_abs_form, split_abs_form in E by assumption.
  destruct (split_relative s Hs Hrel) as (w & ws & Hw & Hne).
  destruct cs as [|c cs0].
  - exfalso.
    assert (In w (repeat "" n ++ [""])) as Hin.
    { rewrite E, Hw. apply in_or_app. right. apply in_or_app. right. left. reflexivity. }
    apply in_app_or in Hin. destruct Hin as [Hin | [Hin | []]].
    + apply repeat_spec in Hin. congruence.
    + congruence.
  - assert (exists x' l', (cs' ++ split_sep s)%list = x' :: l' /\ x' <> "") as (x' & l' & Hx & Hx').
    { destruct cs' as [|c' cs1].
      - exists w, ws. split; [exact Hw | exact Hne].
      - exists c', (cs1 ++ split_sep s)%list. split; [reflexivity|].
        inversion Hcs'; subst. apply normal_not_empty. assumption. }
    rewrite Hx in E.
    apply leading_empties in E; [|inversion Hcs; subst; apply normal_not_empty; assumption | exact Hx'].
    destruct E as [-> E]. split; [reflexivity|].
    rewrite <- Hx in E.
    exists (split_sep s). split; [apply split_sep_not_nil|].
    split; [|split; [exact E | symmetry; apply join_split]].
    rewrite E in Hcs. apply Forall_app in Hcs. tauto.
Qed.

Lemma startswith_join2 (a s : string) :
  relative s = true -> startswith (join2 a s) a = true.
Proof.
  intros Hs. unfold join2. rewrite (relative_startswith s Hs).
  unfold startswith.
  destruct (String.eqb a "" || endswith_sep a); apply prefix_append.
Qed.

End PathFacts.

(** *** Resolving a joined path *)

Module JoinFacts.
Import Str posixpath PathForm PathFacts.

#[local] Arguments String.prefix : simpl never.

Lemma endswith_sep_split (p : string) :
  endswith_sep p = true -> exists q, p = q ++ "/".
Proof.
  induction p as [|c p IH]; [discriminate|].
  destruct p as [|d p'].
  - simpl. intros H. apply Ascii.eqb_eq in H. subst c. exists "". reflexivity.
  - intros H.
    change (endswith_sep (String c (String d p'))) with (endswith_sep (String d p')) in H.
    destruct (IH H) as [q Eq]. exists (String c q). simpl. rewrite <- Eq. reflexivity.
Qed.

(** What [join2] appends to [p] when the second path is relative. *)
Lemma join2_relative (p s : string) :
  relative s = true ->
  join2 p s = if String.eqb p "" || endswith_sep p then p ++ s else p ++ String "/" s.
Proof. intros Hs. unfold join2. rewrite (relative_startswith s Hs). reflexivity. Qed.

(** The components that [normpath] keeps of a path joined with normal
    components are those it keeps of the path, and then these. *)
Lemma fold_join2 (n : nat) (p : string) (rs : list string) :
  normals rs -> rs <> [] ->
  fold_left (normpath_step n) (split_sep (join2 p (join_sep rs))) []
  = (rev rs ++ fold_left (normpath_step n) (split_sep p) [])%list.
Proof.
  intros Hrs Hne.
  pose proof (split_join rs Hne (normals_no_sep rs Hrs)) as Es.
  rewrite (join2_relative p _ (join_sep_relative rs Hrs)).
  destruct (String.eqb p "") eqn:Ep.
  - apply String.eqb_eq in Ep. subst p. cbn [orb].
    change ("" ++ join_sep rs) with (join_sep rs).
    rewrite Es, fold_normals by exact Hrs. reflexivity.
  - cbn [orb]. destruct (endswith_sep p) eqn:Ee.
    + destruct (endswith_sep_split p Ee) as [q ->].
      rewrite append_assoc. change ("/" ++ join_sep rs) with (String "/" (join_sep rs)).
      rewrite !split_app_sep, Es, !fold_left_app, fold_normals by exact Hrs.
      reflexivity.
    + rewrite split_app_sep, Es, fold_left_app, fold_normals by exact Hrs.
      reflexivity.
Qed.

Lemma normcomps_join2 (n : nat) (p : string) (rs : list string) :
  normals rs -> rs <> [] ->
  normcomps n (split_sep (join2 p (join_sep rs)))
  = (normcomps n (split_sep p) ++ rs)%list.
Proof.
  intros Hrs Hne. unfold normcomps.
  rewrite fold_join2, rev_app_distr, rev_involutive by assumption. reflexivity.
Qed.

Lemma initial_slashes_join2 (p s : string) :
  isabs p = true -> relative s = true -> s <> "" ->
  initial_slashes (join2 p s) = initial_slashes p.
Proof.
  intros Hp Hs Hne. rewrite (join2_relative p s Hs).
  destruct s as [|x s]; [congruence|].
  rewrite relative_head in Hs. apply negb_true_iff in Hs. rewrite Ascii.eqb_sym in Hs.
  destruct p as [|a p]; [discriminate Hp|].
  unfold isabs, startswith in Hp. rewrite prefix_cons, prefix_empty, andb_true_r in Hp.
  destruct (Ascii.eqb_spec "/"%char a) as [<-|]; [clear Hp | discriminate Hp].
  change (String.eqb (String "/" p) "") with false. cbn [orb].
  unfold initial_slashes, startswith.
  destruct p as [|b p].
  - simpl. rewrite !prefix_cons, ?Hs, ?prefix_empty. reflexivity.
  - destruct p as [|c p].
    + destruct (Ascii.eqb_spec b "/") as [->|Nb].
      * simpl. rewrite !prefix_cons, ?prefix_empty, Hs. reflexivity.
      * assert (Ascii.eqb "/" b = false) as Eb
            by (apply Ascii.eqb_neq; intros E; exact (Nb (eq_sym E))).
        destruct (endswith_sep _); simpl; rewrite !prefix_cons, Eb; reflexivity.
    + destruct (endswith_sep _); simpl; rewrite !prefix_cons, ?prefix_empty; reflexivity.
Qed.

(** [normpath] of an absolute path, written out. *)
Lemma normpath_isabs_form (p : string) :
  isabs p = true ->
  normpath p = abs_form (initial_slashes p) (normcomps (initial_slashes p) (split_sep p)).
Proof.
  intros Habs.
  pose proof (initial_slashes_isabs p Habs) as Hn.
  assert (initial_slashes p <> 0) as Hn0 by (destruct Hn; lia).
  unfold normpath.
  destruct p as [|x p]; [discriminate Habs|].
  change (String.eqb (String x p) "") with false. cbv iota.
  set (q := seps _ ++ _).
  rewrite (eqb_not_empty q) by (apply seps_not_empty, Hn0).
  reflexivity.
Qed.

Lemma normpath_join2 (p : string) (rs : list string) :
  isabs p = true -> normals rs -> rs <> [] ->
  exists n cs,
    (n = 1 \/ n = 2) /\ normals cs
    /\ normpath p = abs_form n cs
    /\ normpath (join2 p (join_sep rs)) = abs_form n (cs ++ rs).
Proof.
  intros Hp Hrs Hne.
  pose proof (initial_slashes_isabs p Hp) as Hn.
  assert (initial_slashes p <> 0) as Hn0 by (destruct Hn; lia).
  exists (initial_slashes p), (normcomps (initial_slashes p) (split_sep p)).
  split; [exact Hn|]. split; [apply normcomps_normals, Hn0|].
  split; [apply normpath_isabs_form, Hp|].
  rewrite normpath_isabs_form by (apply isabs_join2, Hp).
  rewrite initial_slashes_join2; try assumption.
  - rewrite normcomps_join2 by assumption. reflexivity.
  - apply join_sep_relative, Hrs.
  - destruct rs as [|r rs]; [congruence|].
    inversion Hrs as [|? ? Hr _]; subst. apply normal_not_empty in Hr.
    intros E. apply (f_equal split_sep) in E.
    rewrite split_join in E by (discriminate || apply normals_no_sep, Hrs).
    simpl in E. injection E as E _. exact (Hr E).
Qed.

Lemma isabs_relative_join2 (b s : string) :
  isabs b = false -> relative s = true -> isabs (join2 b s) = false.
Proof.
  intros Hb Hs. rewrite (join2_relative b s Hs).
  destruct b as [|x b].
  - simpl. unfold relative in Hs. apply negb_true_iff in Hs. exact Hs.
  - unfold isabs, startswith in *. destruct (_ || _); simpl;
      rewrite prefix_cons in *; rewrite prefix_empty in *; exact Hb.
Qed.

(** Joining is associative on relative paths. *)
Lemma join2_assoc (c b s : string) :
  c <> "" -> isabs b = false -> relative s = true ->
  join2 c (join2 b s) = join2 (join2 c b) s.
Proof.
  intros Hc Hb Hs.
  assert (relative b = true) as Hrb by (unfold relative; rewrite Hb; reflexivity).
  assert (relative (join2 b s) = true) as Hrj
      by (unfold relative; rewrite isabs_relative_join2 by assumption; reflexivity).
  rewrite (join2_relative c _ Hrj), (join2_relative c b Hrb), (join2_relative b s Hs).
  rewrite (eqb_not_empty c Hc). cbn [orb].
  destruct (String.eqb b "") eqn:Eb.
  - apply String.eqb_eq in Eb. subst b. cbn [orb]. change ("" ++ s) with s.
    destruct (endswith_sep c) eqn:Ec.
    + rewrite append_nil_r, (join2_relative c s Hs), (eqb_not_empty c Hc), Ec. reflexivity.
    + rewrite (join2_relative _ s Hs).
      assert (endswith_sep (c ++ "/") = true) as ->
          by (rewrite endswith_sep_append by discriminate; reflexivity).
      rewrite orb_true_r, append_assoc. reflexivity.
  - cbn [orb]. apply String.eqb_neq in Eb.
    assert (forall x, x ++ b <> "") as Hxb.
    { intros x E. destruct x; simpl in E; [exact (Eb E) | discriminate E]. }
    destruct (endswith_sep c) eqn:Ec; rewrite (join2_relative _ s Hs).
    + rewrite (eqb_not_empty _ (Hxb c)), endswith_sep_append by exact Eb. cbn [orb].
      destruct (endswith_sep b); rewrite !append_assoc; reflexivity.
    + assert (c ++ String "/" b = (c ++ "/") ++ b) as E
          by (rewrite append_assoc; reflexivity).
      rewrite E, (eqb_not_empty _ (Hxb (c ++ "/"))), endswith_sep_append by exact Eb.
      cbn [orb]. destruct (endswith_sep b); rewrite !append_assoc; reflexivity.
Qed.

(** [abspath] of a path joined with normal components: the components
    come after those of the path. *)
Lemma abspath_join2 (cwd b : string) (rs : list string) :
  isabs cwd = true -> normals rs -> rs <> [] ->
  exists n cs,
    (n = 1 \/ n = 2) /\ normals cs
    /\ abspath cwd b = abs_form n cs
    /\ abspath cwd (join2 b (join_sep rs)) = abs_form n (cs ++ rs).
Proof.
  intros Hcwd Hrs Hne. unfold abspath.
  pose proof (join_sep_relative rs Hrs) as Hrel.
  destruct (isabs b) eqn:Hb.
  - rewrite (isabs_join2 b _ Hb). apply normpath_join2; assumption.
  - rewrite (isabs_relative_join2 b _ Hb Hrel). simpl join.
    rewrite join2_assoc; try assumption.
    + apply normpath_join2; try assumption. apply isabs_join2, Hcwd.
    + intros ->. discriminate Hcwd.
Qed.

(** [relpath] from a start to a path that resolves below it. *)
Lemma relpath_resolved_below (cwd path start : string) (n n' : nat) (cs rs : list string) :
  path <> "" ->
  normals cs -> normals rs -> rs <> [] ->
  abspath cwd start = abs_form n' cs ->
  abspath cwd path = abs_form n (cs ++ rs) ->
  relpath cwd path start = Some (join_sep rs).
Proof.
  intros Hp Hcs Hrs Hne Es Ep. unfold relpath.
  assert (normals (cs ++ rs)) as Hall by (apply Forall_app; split; assumption).
  rewrite (eqb_not_empty path Hp), Es, Ep, !parts_abs_form by assumption.
  rewrite commonprefix_app, Nat.sub_diag, skipn_length_app. simpl.
  destruct rs as [|r rs]; [congruence|].
  f_equal. apply join_comps, Hrs.
Qed.

Lemma join2_longer (p s : string) :
  s <> "" -> relative s = true -> String.length p < String.length (join2 p s).
Proof.
  intros Hs Hrel. rewrite (join2_relative p s Hrel).
  assert (forall a b, String.length (a ++ b) = String.length a + String.length b) as L.
  { intros a b. induction a; simpl; congruence. }
  destruct s as [|x s]; [congruence|].
  destruct (_ || _); rewrite L; simpl; lia.
Qed.

End JoinFacts.

(* ================================================================== *)
(** ** Host paths and container paths *)

Section PathConversion.

Import Str posixpath PathForm PathFacts JoinFacts.

Variable rt : Runtime.

Lemma convert_host_loop_first (H : string) (M1 M2 : list (string * mount_attrs))
      (k : string) (a : mount_attrs) :
  (forall e, In e M1 -> startswith H (abspath (cwd rt) (fst e)) = false) ->
  startswith H (abspath (cwd rt) k) = true ->
  convert_host_loop rt H (M1 ++ (k, a) :: M2)
  = match relpath (cwd rt) H (abspath (cwd rt) k) with
    | Some r => Ok (join (bind a) [r])
    | None => Raise (ValueError "no path specified")
    end.
Proof.
  intros Hearlier Hhere.
  induction M1 as [|[k' a'] M1 IH]; simpl.
  - rewrite Hhere. reflexivity.
  - pose proof (Hearlier (k', a') (or_introl eq_refl)) as E'. simpl in E'. rewrite E'.
    apply IH. intros e He. apply Hearlier. right. exact He.
Qed.

Lemma convert_host_loop_none (H : string) (M : list (string * mount_attrs)) :
  (forall e, In e M -> startswith H (abspath (cwd rt) (fst e)) = false) ->
  convert_host_loop rt H M
  = Raise (WcEnvManagerError (H ++ " is not mounted into the container")).
Proof.
  induction M as [|[k a] M IH]; intros Hall; simpl; [reflexivity|].
  pose proof (Hall (k, a) (or_introl eq_refl)) as E'. simpl in E'. rewrite E'.
  apply IH. intros e He. apply Hall. right. exact He.
Qed.

Lemma convert_container_loop_first (C : string) (M1 M2 : list (string * mount_attrs))
      (k : string) (a : mount_attrs) :
  (forall e, In e M1 -> startswith C (bind (snd e)) = false) ->
  startswith C (bind a) = true ->
  convert_container_loop rt C (M1 ++ (k, a) :: M2)
  = match relpath (cwd rt) C (bind a) with
    | Some r => Ok (join k [r])
    | None => Raise (ValueError "no path specified")
    end.
Proof.
  intros Hearlier Hhere.
  induction M1 as [|[k' a'] M1 IH]; simpl.
  - rewrite Hhere. reflexivity.
  - pose proof (Hearlier (k', a') (or_introl eq_refl)) as E'. simpl in E'. rewrite E'.
    apply IH. intros e He. apply Hearlier. right. exact He.
Qed.

(** The path of [H] relative to a mount point it lies below is the piece
    that was joined to the mount point. *)
Lemma relpath_of_join (k' s H : string) :
  isabs (cwd rt) = true ->
  abspath (cwd rt) H = H -> abspath (cwd rt) k' = k' ->
  s <> "" -> isabs s = false ->
  H = join k' [s] ->
  relpath (cwd rt) H k' = Some s.
Proof.
  intros Hcwd HH Hk Hs Hrel E.
  destruct (abspath_shape (cwd rt) H Hcwd) as (n & cs & Hn & Hcs & EH).
  destruct (abspath_shape (cwd rt) k' Hcwd) as (n' & cs' & Hn' & Hcs' & Ek).
  rewrite HH in EH. rewrite Hk in Ek. rewrite EH, Ek in E |- *. clear EH Ek HH Hk.
  assert (relative s = true) as Hr by (unfold relative; rewrite Hrel; reflexivity).
  simpl join in E.
  apply abs_form_below in E; try assumption; try (destruct Hn; lia); try (destruct Hn'; lia).
  destruct E as [-> (rs & Hne & Hrs & -> & ->)].
  apply relpath_below; assumption.
Qed.

(** The loop, at a resolved host path that lies below the mount point of
    the first entry that passes the test. *)
Lemma convert_host_loop_below
      (H : string) (M1 M2 : list (string * mount_attrs)) (k : string)
      (a : mount_attrs) (rest : string) :
  isabs (cwd rt) = true ->
  abspath (cwd rt) H = H ->
  (forall e, In e M1 -> startswith H (abspath (cwd rt) (fst e)) = false) ->
  rest <> "" -> isabs rest = false ->
  H = join (abspath (cwd rt) k) [rest] ->
  convert_host_loop rt H (M1 ++ (k, a) :: M2) = Ok (join (bind a) [rest]).
Proof.
  intros Hcwd HH Hearlier Hrest Hrel E.
  rewrite convert_host_loop_first; [|exact Hearlier|].
  - rewrite (relpath_of_join (abspath (cwd rt) k) rest); try assumption.
    + reflexivity.
    + apply abspath_idempotent, Hcwd.
  - rewrite E at 1. apply startswith_join2. unfold relative. rewrite Hrel. reflexivity.
Qed.

(** The loop, at the mount point of the first entry that passes the
    test: the relative path is [.]. *)
Lemma convert_host_loop_at_mount
      (M1 M2 : list (string * mount_attrs)) (k : string) (a : mount_attrs) :
  isabs (cwd rt) = true ->
  (forall e, In e M1 ->
             startswith (abspath (cwd rt) k) (abspath (cwd rt) (fst e)) = false) ->
  convert_host_loop rt (abspath (cwd rt) k) (M1 ++ (k, a) :: M2)
  = Ok (join (bind a) ["."]).
Proof.
  intros Hcwd Hearlier.
  rewrite convert_host_loop_first; [|exact Hearlier|].
  - destruct (abspath_shape (cwd rt) k Hcwd) as (n & cs & Hn & Hcs & ->).
    rewrite relpath_self by assumption. reflexivity.
  - unfold startswith. rewrite <- (append_nil_r (abspath (cwd rt) k)) at 2.
    apply prefix_append.
Qed.

(** C1 (amended): the host path is resolved to absolute form, and the
    first entry of the mount table, in its iteration order, whose resolved
    host path is a prefix of it decides the result: when the host path is
    that mount point joined with a relative rest, the result is the entry's
    container path joined with the same rest. *)
Theorem convert_host_to_container_path_first_match
        (m : WcEnvManager) (host_path : string)
        (M1 M2 : list (string * mount_attrs)) (k : string) (a : mount_attrs)
        (rest : string) :
  isabs (cwd rt) = true ->
  paths_to_mount_to_docker_container m = (M1 ++ (k, a) :: M2)%list ->
  (forall e, In e M1 ->
             startswith (abspath (cwd rt) host_path) (abspath (cwd rt) (fst e)) = false) ->
  rest <> "" -> isabs rest = false ->
  abspath (cwd rt) host_path = join (abspath (cwd rt) k) [rest] ->
  convert_host_to_container_path rt m host_path = Ok (join (bind a) [rest]).
Proof.
  intros Hcwd HM Hearlier Hrest Hrel E.
  unfold convert_host_to_container_path. rewrite HM.
  apply convert_host_loop_below.
  - exact Hcwd.
  - apply abspath_idempotent, Hcwd.
  - exact Hearlier.
  - exact Hrest.
  - exact Hrel.
  - exact E.
Qed.

Lemma convert_container_loop_none (C : string) (M : list (string * mount_attrs)) :
  (forall e, In e M -> startswith C (bind (snd e)) = false) ->
  convert_container_loop rt C M
  = Raise (WcEnvManagerError (C ++ " is not mounted into the container")).
Proof.
  induction M as [|[k a] M IH]; intros Hall; simpl; [reflexivity|].
  pose proof (Hall (k, a) (or_introl eq_refl)) as E'. simpl in E'. rewrite E'.
  apply IH. intros e He. apply Hall. right. exact He.
Qed.

Lemma startswith_empty (b : string) : startswith "" b = true -> b = "".
Proof. destruct b; [reflexivity | discriminate]. Qed.

(** The loop on the way back, at a path that starts with the container
    path of the first entry that passes the test and resolves to a path
    below what this container path resolves to. *)
Lemma convert_container_loop_below
      (C : string) (M1 M2 : list (string * mount_attrs)) (k : string)
      (a : mount_attrs) (rest : string) :
  isabs (cwd rt) = true ->
  (forall e, In e M1 -> startswith C (bind (snd e)) = false) ->
  startswith C (bind a) = true ->
  rest <> "" -> isabs rest = false ->
  abspath (cwd rt) C = join (abspath (cwd rt) (bind a)) [rest] ->
  convert_container_loop rt C (M1 ++ (k, a) :: M2) = Ok (join k [rest]).
Proof.
  intros Hcwd Hearlier Hhere Hrest Hrel E.
  assert (relative rest = true) as Hr by (unfold relative; rewrite Hrel; reflexivity).
  assert (C <> "") as HC.
  { intros ->. apply startswith_empty in Hhere. rewrite Hhere in E. simpl join in E.
    pose proof (join2_longer (abspath (cwd rt) "") rest Hrest Hr) as L.
    rewrite <- E in L. lia. }
  rewrite convert_container_loop_first by assumption.
  destruct (abspath_shape (cwd rt) C Hcwd) as (n & cs & Hn & Hcs & EC).
  destruct (abspath_shape (cwd rt) (bind a) Hcwd) as (n' & cs' & Hn' & Hcs' & EB).
  rewrite EC, EB in E. simpl join in E.
  apply abs_form_below in E; try assumption; try (destruct Hn; lia); try (destruct Hn'; lia).
  destruct E as [-> (rs & Hne & Hrs & -> & ->)].
  rewrite (relpath_resolved_below (cwd rt) C (bind a) n' n' cs' rs) by assumption.
  reflexivity.
Qed.

(** A key that [abspath] leaves as it is, or that is such a key followed
    by one separator, joins like the key resolved. *)
Lemma join2_resolved_key (k rest : string) :
  isabs (cwd rt) = true ->
  k = abspath (cwd rt) k \/ k = abspath (cwd rt) k ++ "/" ->
  relative rest = true ->
  join2 k rest = join2 (abspath (cwd rt) k) rest.
Proof.
  intros Hcwd Hk Hr. destruct Hk as [Hk | Hk]; [rewrite <- Hk; reflexivity|].
  destruct (abspath_shape (cwd rt) k Hcwd) as (n & cs & Hn & Hcs & EK).
  rewrite EK in Hk. rewrite Hk in EK |- *.
  assert (n <> 0) as Hn0 by (destruct Hn; lia).
  rewrite EK, (join2_relative _ rest Hr), join2_abs_form by assumption.
  rewrite (eqb_not_empty (abs_form n cs ++ "/"))
    by (unfold abs_form; rewrite append_assoc; apply seps_not_empty, Hn0).
  rewrite endswith_sep_append by discriminate. cbn [orb endswith_sep Ascii.eqb].
  destruct cs as [|c cs].
  - exfalso. unfold abs_form in EK. simpl join_sep in EK. rewrite append_nil_r in EK.
    destruct Hn as [-> | ->]; vm_compute in EK; discriminate EK.
  - rewrite append_assoc. reflexivity.
Qed.

(** C2 (amended): the round trip from a host path to the container and
    back returns the resolved host path when the host path lies strictly
    below the entry chosen on the way in, the key of this entry is what
    [abspath] makes of it, up to one separator at its end, and no earlier
    entry is chosen on the way back; the container path of the entry may
    be any path. *)
Theorem convert_round_trip
        (m : WcEnvManager) (host_path : string)
        (M1 M2 : list (string * mount_attrs)) (k : string) (a : mount_attrs)
        (rest : string) :
  isabs (cwd rt) = true ->
  paths_to_mount_to_docker_container m = (M1 ++ (k, a) :: M2)%list ->
  k = abspath (cwd rt) k \/ k = abspath (cwd rt) k ++ "/" ->
  rest <> "" -> isabs rest = false ->
  abspath (cwd rt) host_path = join (abspath (cwd rt) k) [rest] ->
  (forall e, In e M1 ->
             startswith (abspath (cwd rt) host_path) (abspath (cwd rt) (fst e)) = false
             /\ startswith (join (bind a) [rest]) (bind (snd e)) = false) ->
  exists container_path,
    convert_host_to_container_path rt m host_path = Ok container_path
    /\ convert_container_to_host_path rt m container_path
       = Ok (abspath (cwd rt) host_path).
Proof.
  intros Hcwd HM Hk Hrest Hrel E Hearlier.
  assert (relative rest = true) as Hr by (unfold relative; rewrite Hrel; reflexivity).
  exists (join (bind a) [rest]). split.
  - unfold convert_host_to_container_path. rewrite HM.
    apply convert_host_loop_below; try assumption.
    + apply abspath_idempotent, Hcwd.
    + intros e He. apply Hearlier, He.
  - unfold convert_container_to_host_path. rewrite HM.
    rewrite (convert_container_loop_below _ M1 M2 k a rest); try assumption.
    + rewrite E. simpl join. rewrite (join2_resolved_key k rest) by assumption.
      reflexivity.
    + intros e He. apply Hearlier, He.
    + apply startswith_join2, Hr.
    + (* the converted path resolves below the resolved container path *)
      destruct (abspath_shape (cwd rt) host_path Hcwd) as (n1 & cs1 & Hn1 & Hcs1 & EH).
      destruct (abspath_shape (cwd rt) k Hcwd) as (n2 & cs2 & Hn2 & Hcs2 & Ek).
      rewrite EH, Ek in E. simpl join in E.
      apply abs_form_below in E; try assumption;
        try (destruct Hn1; lia); try (destruct Hn2; lia).
      destruct E as [_ (rs & Hne & Hrs & _ & ->)].
      destruct (abspath_join2 (cwd rt) (bind a) rs Hcwd Hrs Hne)
        as (n & cs & Hn & Hcs & -> & Ej).
      simpl join. rewrite Ej.
      rewrite join2_abs_form_comps; try assumption; [reflexivity | destruct Hn; lia].
Qed.

Lemma substring_all (s : string) : substring 0 (String.length s) s = s.
Proof. induction s as [|c s IH]; simpl; congruence. Qed.

Lemma rstrip_sep_id (s : string) : endswith_sep s = false -> rstrip_sep s = s.
Proof.
  induction s as [|c s IH]; [reflexivity|].
  destruct s as [|d s'].
  - simpl. intros ->. reflexivity.
  - intros H. change (endswith_sep (String c (String d s'))) with (endswith_sep (String d s')) in H.
    change (rstrip_sep (String c (String d s')))
      with (match rstrip_sep (String d s') with
            | EmptyString => if Ascii.eqb c "/" then "" else String c ""
            | r => String c r
            end).
    rewrite (IH H). reflexivity.
Qed.

(** [expanduser] of a path below the home marker is the home directory
    joined with the rest. *)
Lemma expanduser_home (x : string) :
  home rt <> "" -> endswith_sep (home rt) = false -> isabs x = false ->
  expanduser (home rt) (getpwnam rt) ("~/" ++ x) = join (home rt) [x].
Proof.
  intros Hne Hend Hrel.
  change ("~/" ++ x) with (String "~" (String "/" x)).
  unfold expanduser. cbn [find_sep Ascii.eqb Bool.eqb].
  cbn [Nat.eqb]. rewrite Nat.sub_0_r, substring_all, rstrip_sep_id by exact Hend.
  simpl join. unfold join2, startswith. unfold isabs, startswith in Hrel. rewrite Hrel.
  rewrite (eqb_not_empty _ Hne), Hend. simpl orb. cbv iota.
  destruct (home rt) as [|c h]; [congruence|]. reflexivity.
Qed.

(** C8 (amended): home-marker expansion, where the manager performs it
    ([os.path.expanduser]), turns [~/x] into the home directory joined with
    [x], so both resolve alike; [convert_host_to_container_path] does not
    perform it: it resolves [~/x] as a relative path below the working
    directory. *)
Theorem home_marker_resolution (m : WcEnvManager) (x : string) :
  isabs (cwd rt) = true ->
  home rt <> "" -> endswith_sep (home rt) = false -> isabs x = false ->
  abspath (cwd rt) (expanduser (home rt) (getpwnam rt) ("~/" ++ x))
  = abspath (cwd rt) (join (home rt) [x])
  /\ abspath (cwd rt) ("~/" ++ x) = abspath (cwd rt) (join (cwd rt) ["~/" ++ x])
  /\ convert_host_to_container_path rt m ("~/" ++ x)
     = convert_host_to_container_path rt m (join (cwd rt) ["~/" ++ x]).
Proof.
  intros Hcwd Hne Hend Hrel.
  assert (abspath (cwd rt) ("~/" ++ x) = abspath (cwd rt) (join (cwd rt) ["~/" ++ x])) as E.
  { pose proof (isabs_join2 (cwd rt) ("~/" ++ x) Hcwd) as Habs.
    unfold abspath.
    change (join (cwd rt) ["~/" ++ x]) with (join2 (cwd rt) ("~/" ++ x)).
    rewrite Habs.
    change (isabs ("~/" ++ x)) with false. reflexivity. }
  split; [|split].
  - rewrite expanduser_home by assumption. reflexivity.
  - exact E.
  - unfold convert_host_to_container_path. rewrite E. reflexivity.
Qed.

End PathConversion.

(** *** Path conversion at given inputs *)

Lemma convert_host_to_container_path_first_match_witness :
  convert_host_to_container_path Fixture.quiet
    (Fixture.manager [("/x", Fixture.rw "/cx"); ("/a", Fixture.rw "/c1");
                      ("/a/b", Fixture.rw "/c2")])
    "/a/b/../b/file"
  = Ok "/c1/b/file".
Proof.
  apply (convert_host_to_container_path_first_match Fixture.quiet _ _
           [("/x", Fixture.rw "/cx")] [("/a/b", Fixture.rw "/c2")]
           "/a" (Fixture.rw "/c1") "b/file").
  - reflexivity.
  - reflexivity.
  - intros e [<- | []]. reflexivity.
  - discriminate.
  - reflexivity.
  - reflexivity.
Defined.

(** C1, as stated, fails: the entry that comes first wins, not the longest. *)
Lemma first_entry_beats_longest_prefix :
  convert_host_to_container_path Fixture.quiet
    (Fixture.manager [("/a", Fixture.rw "/c1"); ("/a/b", Fixture.rw "/c2")])
    "/a/b/file"
  = Ok "/c1/b/file"
  /\ convert_host_to_container_path Fixture.quiet
       (Fixture.manager [("/a", Fixture.rw "/c1"); ("/a/b", Fixture.rw "/c2")])
       "/a/b/file"
     <> Ok "/c2/file".
Proof. split; [reflexivity | discriminate]. Qed.

(** The prefix test is a test on characters: a sibling directory whose
    name extends the mount point's passes it. *)
Example convert_host_to_container_path_sibling :
  convert_host_to_container_path Fixture.quiet
    (Fixture.manager [("/mnt/foo", Fixture.rw "/c")]) "/mnt/foobar"
  = Ok "/c/../foobar".
Proof. reflexivity. Qed.

(** The mount point itself is answered with a trailing [.]. *)
Example convert_host_to_container_path_mount_point :
  convert_host_to_container_path Fixture.quiet
    (Fixture.manager [("/a", Fixture.rw "/c")]) "/a"
  = Ok "/c/.".
Proof. reflexivity. Qed.

Lemma convert_round_trip_witness :
  exists container_path,
    convert_host_to_container_path Fixture.quiet
      (Fixture.manager [("/x", Fixture.rw "/cx"); ("/a/", Fixture.rw "/c/../d/")])
      "lib/../../a/b/file"
    = Ok container_path
    /\ convert_container_to_host_path Fixture.quiet
         (Fixture.manager [("/x", Fixture.rw "/cx"); ("/a/", Fixture.rw "/c/../d/")])
         container_path
       = Ok "/a/b/file".
Proof.
  apply (convert_round_trip Fixture.quiet _ "lib/../../a/b/file"
           [("/x", Fixture.rw "/cx")] [] "/a/" (Fixture.rw "/c/../d/") "b/file").
  - reflexivity.
  - reflexivity.
  - right. reflexivity.
  - discriminate.
  - reflexivity.
  - reflexivity.
  - intros e [<- | []]. split; reflexivity.
Defined.

(** C2, as stated, fails: [/b/file] is matched by the entry [/b] alone, but
    on the way back the entry [/a], whose container path [/c] is a prefix
    of [/c/x/file], is met first. *)
Lemma round_trip_fails_on_overlapping_binds :
  let m := Fixture.manager [("/a", Fixture.rw "/c"); ("/b", Fixture.rw "/c/x")] in
  List.length (matching_entries Fixture.quiet m "/b/file") = 1
  /\ convert_host_to_container_path Fixture.quiet m "/b/file" = Ok "/c/x/file"
  /\ convert_container_to_host_path Fixture.quiet m "/c/x/file" = Ok "/a/x/file"
  /\ posixpath.abspath (cwd Fixture.quiet) "/b/file" = "/b/file"
  /\ convert_container_to_host_path Fixture.quiet m "/c/x/file"
     <> Ok (posixpath.abspath (cwd Fixture.quiet) "/b/file").
Proof. repeat split; try reflexivity. discriminate. Qed.

(** The round trip of a mount point itself ends in [/a/.], not [/a]. *)
Example round_trip_of_mount_point :
  let m := Fixture.manager [("/a", Fixture.rw "/c")] in
  convert_host_to_container_path Fixture.quiet m "/a" = Ok "/c/."
  /\ convert_container_to_host_path Fixture.quiet m "/c/." = Ok "/a/.".
Proof. split; reflexivity. Qed.

(** A relative key of the mount table comes back as it is written. *)
Example round_trip_of_relative_key :
  let m := Fixture.manager [("data", Fixture.rw "/c")] in
  convert_host_to_container_path Fixture.quiet m "data/f" = Ok "/c/f"
  /\ convert_container_to_host_path Fixture.quiet m "/c/f" = Ok "data/f"
  /\ posixpath.abspath (cwd Fixture.quiet) "data/f" = "/work/data/f".
Proof. repeat split; reflexivity. Qed.

(** Container paths that are not in normal form come back all the same. *)
Example round_trip_of_unresolved_binds :
  convert_container_to_host_path Fixture.quiet
    (Fixture.manager [("/a", Fixture.rw "/c/")]) "/c/b/file" = Ok "/a/b/file"
  /\ convert_container_to_host_path Fixture.quiet
       (Fixture.manager [("/a", Fixture.rw "/c/../d")]) "/c/../d/b/file" = Ok "/a/b/file"
  /\ convert_container_to_host_path Fixture.quiet
       (Fixture.manager [("/a", Fixture.rw "/c//e")]) "/c//e/b/file" = Ok "/a/b/file"
  /\ convert_container_to_host_path Fixture.quiet
       (Fixture.manager [("/a", Fixture.rw "rel")]) "rel/b/file" = Ok "/a/b/file".
Proof. repeat split; reflexivity. Qed.

(** A key that is not what [abspath] makes of it, beyond a separator at
    its end, does not come back resolved. *)
Example round_trip_of_unresolved_key :
  let m := Fixture.manager [("/a//", Fixture.rw "/c")] in
  convert_host_to_container_path Fixture.quiet m "/a/f" = Ok "/c/f"
  /\ convert_container_to_host_path Fixture.quiet m "/c/f" = Ok "/a//f".
Proof. split; reflexivity. Qed.

Lemma home_marker_resolution_witness :
  posixpath.abspath "/work" (posixpath.expanduser "/home/u" (fun _ => None) "~/tmp/repo_dir")
  = "/home/u/tmp/repo_dir"
  /\ convert_host_to_container_path Fixture.quiet
       (Fixture.manager [("/work", Fixture.rw "/c")]) "~/tmp/repo_dir"
     = Ok "/c/~/tmp/repo_dir".
Proof.
  destruct (home_marker_resolution Fixture.quiet
              (Fixture.manager [("/work", Fixture.rw "/c")]) "tmp/repo_dir")
    as (E1 & E2 & E3).
  - reflexivity.
  - discriminate.
  - reflexivity.
  - reflexivity.
  - split; [exact E1 | exact E3].
Defined.

(** C8, as stated, fails: a host path below the home marker is not
    converted like the path below the home directory. *)
Lemma home_marker_is_not_expanded :
  let m := Fixture.manager [("/home/u", Fixture.rw "/c")] in
  home Fixture.quiet = "/home/u"
  /\ convert_host_to_container_path Fixture.quiet m (posixpath.join "/home/u" ["x"])
     = Ok "/c/x"
  /\ convert_host_to_container_path Fixture.quiet m "~/x"
     = Raise (WcEnvManagerError "/work/~/x is not mounted into the container").
Proof. repeat split; reflexivity. Qed.

(* ================================================================== *)
(** ** Commands in the container and provisioning steps *)

Ltac mrun :=
  unfold mbind, get_self, perform, ret, raise, lift, put_self, when, print;
  cbn [self trace stdout fst snd].

Section Steps.

Variable rt : Runtime.

(** A command that is not checked, or that exits with 0, costs one call
    and returns the output without its last character. *)
Lemma run_process_in_docker_container_returns
      (s : State) (c : Container) (cmd : command) (work_dir : option string)
      (env : option (list (string * string))) (check : bool) (user : WcEnvUser) :
  _docker_container (self s) = Some c ->
  let env' := match env with Some ((_ :: _) as e) => e | _ => [] end in
  let t1 := (trace s ++ [exec_run c cmd work_dir (Some env') (WcEnvUser_.name user)])%list in
  let out := exec_result rt t1 in
  check = false \/ snd out = 0%Z ->
  run_process_in_docker_container rt cmd work_dir env check user s
  = (Ok (Str.drop_last (fst out), snd out),
     {| self := self s;
        trace := t1;
        stdout := if verbose (self s)
                  then (stdout s ++ [(Str.drop_last (fst out) ++ Fmt.nl)%string])%list
                  else stdout s |}).
Proof.
  intros Hc env' t1 out Hok.
  unfold run_process_in_docker_container, the_container, mbind, get_self, perform,
    when, print, ret, raise.
  rewrite Hc. cbv beta iota. simpl self. simpl trace. fold env'. fold t1. fold out.
  assert (check && negb (snd out =? 0)%Z = false) as E.
  { destruct Hok as [-> | ->]; [reflexivity | apply andb_false_r]. }
  destruct (verbose (self s)) eqn:V; simpl; fold t1; fold out;
    rewrite ?V; simpl; rewrite E; reflexivity.
Qed.

(** A checked command that exits with another code raises; at most one
    more command, [pwd], has been run for the message. *)
Lemma run_process_in_docker_container_fails
      (s : State) (c : Container) (cmd : command) (work_dir : option string)
      (env : option (list (string * string))) (user : WcEnvUser) :
  _docker_container (self s) = Some c ->
  let env' := match env with Some ((_ :: _) as e) => e | _ => [] end in
  let t1 := (trace s ++ [exec_run c cmd work_dir (Some env') (WcEnvUser_.name user)])%list in
  snd (exec_result rt t1) <> 0%Z ->
  let (r, s') := run_process_in_docker_container rt cmd work_dir env true user s in
  (exists message, r = Raise (WcEnvManagerError message))
  /\ (trace s' = t1
      \/ trace s' = (t1 ++ [exec_run c (CmdStr "pwd") None None (WcEnvUser_.name user)])%list).
Proof.
  intros Hc env' t1 Hexit.
  unfold run_process_in_docker_container, the_container. mrun.
  rewrite Hc. mrun. fold env'. fold t1.
  apply Z.eqb_neq in Hexit.
  destruct (verbose (self s)) eqn:V; mrun; rewrite Hexit; cbn [andb negb];
    destruct work_dir as [[|x w]|]; mrun; rewrite ?Hc; mrun;
    (split; [eexists; reflexivity | auto]).
Qed.

Lemma copy_actions_app (t u : list call) :
  copy_actions (t ++ u) = copy_actions t + copy_actions u.
Proof. unfold copy_actions. rewrite filter_app, length_app. reflexivity. Qed.

Lemma drop_last_newline (body : string) : Str.drop_last (body ++ Fmt.nl) = body.
Proof.
  induction body as [|b body IH]; [reflexivity|].
  change (String b body ++ Fmt.nl) with (String b (body ++ Fmt.nl)).
  simpl. rewrite IH. destruct (body ++ Fmt.nl) eqn:E; [|reflexivity].
  destruct body; discriminate.
Qed.

(** When the check itself fails, the step fails with it and nothing is
    copied. *)
Lemma copy_path_to_docker_container_check_fails
      (s : State) (c : Container) (local_path container_path : string)
      (overwrite : bool) (user : WcEnvUser) :
  _docker_container (self s) = Some c ->
  let check := exec_run c (CmdStr ("bash -c " ++ Str.dq ++ "if [ -f " ++ container_path
                                    ++ " ] || [ -d " ++ container_path
                                    ++ " ]; then echo 1; fi" ++ Str.dq))
                        None (Some []) (WcEnvUser_.name user) in
  snd (exec_result rt (trace s ++ [check])) <> 0%Z ->
  let (r, s') := copy_path_to_docker_container rt local_path container_path
                                               overwrite user s in
  (exists message, r = Raise (WcEnvManagerError message))
  /\ copy_actions (trace s') = copy_actions (trace s).
Proof.
  intros Hc check Hexit.
  unfold copy_path_to_docker_container, mbind.
  pose proof (run_process_in_docker_container_fails s c _ None None user Hc Hexit) as H.
  fold check in H.
  destruct (run_process_in_docker_container rt _ None None true user s) as [r s1].
  destruct H as [[message ->] Ht]. split; [exists message; reflexivity|].
  destruct Ht as [-> | ->]; rewrite !copy_actions_app; unfold copy_actions; simpl; lia.
Qed.

(** C3 (amended): the check of a file-copy step prints nothing for a
    destination that is absent and a line for one that is present.  When
    the check exits with 0 and reports the destination present while
    [overwrite] is false, the step raises the already-exists error, a
    [WcEnvManagerError], and the copy action is not invoked; when it exits
    with 0 and reports the destination absent, or [overwrite] is true, the
    copy action is invoked, once; when the check exits with another code
    the step raises a [WcEnvManagerError] and the copy action is not
    invoked, whatever [overwrite] is. *)
Theorem copy_path_to_docker_container_gate
        (s : State) (c : Container) (local_path container_path : string)
        (overwrite : bool) (user : WcEnvUser) (reported : string) :
  _docker_container (self s) = Some c ->
  let check := exec_run c (CmdStr ("bash -c " ++ Str.dq ++ "if [ -f " ++ container_path
                                    ++ " ] || [ -d " ++ container_path
                                    ++ " ]; then echo 1; fi" ++ Str.dq))
                        None (Some []) (WcEnvUser_.name user) in
  let answer := exec_result rt (trace s ++ [check]) in
  (fst answer = "" /\ reported = "") \/ fst answer = reported ++ Fmt.nl ->
  let action := subprocess_run ["docker"; "cp"; local_path;
                                container_name c ++ ":" ++ container_path]
                               (negb (verbose (self s))) true in
  let (r, s') := copy_path_to_docker_container rt local_path container_path
                                               overwrite user s in
  if (snd answer =? 0)%Z then
    if negb (String.eqb reported "") && negb overwrite then
      r = Raise (WcEnvManagerError ("File " ++ container_path ++ " already exists"))
      /\ trace s' = (trace s ++ [check])%list
      /\ copy_actions (trace s') = copy_actions (trace s)
    else
      trace s' = (trace s ++ [check; action])%list
      /\ copy_actions (trace s') = S (copy_actions (trace s))
      /\ (r = Ok tt <-> returncode rt (trace s') = 0%Z)
  else
    (exists message, r = Raise (WcEnvManagerError message))
    /\ copy_actions (trace s') = copy_actions (trace s).
Proof.
  intros Hc check answer Hout action.
  destruct (snd answer =? 0)%Z eqn:Hexit.
  - apply Z.eqb_eq in Hexit.
    assert (Str.drop_last (fst answer) = reported) as Ed.
    { destruct Hout as [[-> ->] | ->]; [reflexivity | apply drop_last_newline]. }
    unfold copy_path_to_docker_container, mbind.
    rewrite (run_process_in_docker_container_returns s c _ None None true user Hc
               (or_intror Hexit)).
    fold check. fold answer. cbv beta iota. simpl fst. rewrite Ed.
    destruct (negb (String.eqb reported "") && negb overwrite) eqn:G.
    + mrun. split; [reflexivity|]. split; [reflexivity|].
      rewrite copy_actions_app. unfold copy_actions at 2. simpl. lia.
    + unfold the_container, run_process_on_host. mrun. rewrite Hc. mrun. fold action.
      set (t2 := ((trace s ++ [check]) ++ [action])%list).
      assert (t2 = (trace s ++ [check; action])%list) as Et
          by (unfold t2; rewrite <- app_assoc; reflexivity).
      assert (copy_actions t2 = S (copy_actions (trace s))) as Ec.
      { rewrite Et, copy_actions_app. unfold copy_actions at 2. simpl. lia. }
      destruct (returncode rt t2 =? 0)%Z eqn:R; mrun.
      * split; [exact Et|]. split; [exact Ec|].
        apply Z.eqb_eq in R. split; intros _; [exact R | reflexivity].
      * split; [exact Et|]. split; [exact Ec|].
        apply Z.eqb_neq in R. split; [discriminate | intros R'; contradiction].
  - apply Z.eqb_neq in Hexit.
    exact (copy_path_to_docker_container_check_fails s c local_path container_path
             overwrite user Hc Hexit).
Qed.

#[local] Arguments String.prefix : simpl never.

Lemma prefix_before_newline (m x : string) :
  lacks "010" m = true ->
  String.prefix m (x ++ Fmt.nl) = String.prefix m x.
Proof.
  revert x. induction m as [|a m IH]; intros x Hm.
  - rewrite !PathFacts.prefix_empty. reflexivity.
  - simpl in Hm. apply andb_true_iff in Hm. destruct Hm as [Ha Hm].
    apply negb_true_iff in Ha.
    destruct x as [|b x].
    + change ("" ++ Fmt.nl) with (String "010" "").
      rewrite PathFacts.prefix_cons, Ha. reflexivity.
    + change (String b x ++ Fmt.nl) with (String b (x ++ Fmt.nl)).
      rewrite !PathFacts.prefix_cons, IH by exact Hm. reflexivity.
Qed.

(** A text without newline occurs in a newline-terminated output exactly
    when it occurs before the final newline. *)
Lemma contains_before_newline (body m : string) :
  lacks "010" m = true ->
  Str.contains (body ++ Fmt.nl) m = Str.contains body m.
Proof.
  intros Hm. induction body as [|b body IH].
  - change ("" ++ Fmt.nl) with (String "010" "").
    change (Str.contains (String "010" "") m)
      with (String.prefix m (String "010" "") || Str.contains "" m).
    change (String "010" "") with ("" ++ Fmt.nl).
    rewrite prefix_before_newline by exact Hm.
    simpl. destruct (String.prefix m ""); reflexivity.
  - change (String b body ++ Fmt.nl) with (String b (body ++ Fmt.nl)).
    change (Str.contains (String b (body ++ Fmt.nl)) m)
      with (String.prefix m (String b (body ++ Fmt.nl)) || Str.contains (body ++ Fmt.nl) m).
    change (String b (body ++ Fmt.nl)) with (String b body ++ Fmt.nl).
    rewrite prefix_before_newline, IH by exact Hm. reflexivity.
Qed.

(** The probe returns true exactly when the exit code is 1
    and the output without its last character contains the message; for
    an output that ends in a newline that is the output containing it.
    The probe returns for every exit code. *)
Theorem test_github_ssh_access_in_docker_container_result
        (s : State) (c : Container) :
  _docker_container (self s) = Some c ->
  let probe := exec_run c (CmdStr "ssh -T git@github.com") None (Some [])
                        (WcEnvUser_.name root) in
  let answer := exec_result rt (trace s ++ [probe]) in
  let (r, s') := test_github_ssh_access_in_docker_container rt s in
  r = Ok ((snd answer =? 1)%Z
          && Str.contains (Str.drop_last (fst answer)) "successfully authenticated")
  /\ trace s' = (trace s ++ [probe])%list
  /\ forall body,
       fst answer = body ++ Fmt.nl ->
       r = Ok ((snd answer =? 1)%Z
               && Str.contains (fst answer) "successfully authenticated").
Proof.
  intros Hc probe answer.
  unfold test_github_ssh_access_in_docker_container, mbind.
  rewrite (run_process_in_docker_container_returns s c _ None None false root Hc
             (or_introl eq_refl)).
  fold probe. fold answer. mrun.
  split; [reflexivity|]. split; [reflexivity|].
  intros body E. rewrite E, drop_last_newline, contains_before_newline by reflexivity.
  reflexivity.
Qed.

(** C4 (amended): [create_docker_container] takes a name from the clock
    and the name format, asks the runtime to run the base image repository
    with the mount table of the session as user [root], and keeps the
    container it gets as the current one. *)
Theorem create_docker_container_runs (s : State) (tty : bool) :
  let t1 := (trace s ++ [datetime_now])%list in
  let name := strftime rt (now rt t1) (docker_container_name_format (self s)) in
  let t2 := (t1 ++ [containers_run (base_docker_image_repo (self s)) name
                                   (paths_to_mount_to_docker_container (self s))
                                   true tty true (WcEnvUser_.name root)])%list in
  let (r, s') := create_docker_container rt tty s in
  trace s' = t2
  /\ WcEnvUser_.value root = 0%Z
  /\ match run_result rt t2 with
     | Ok c => r = Ok c /\ _docker_container (self s') = Some c
     | Raise e => r = Raise e /\ self s' = self s
     end.
Proof.
  intros t1 name t2.
  unfold create_docker_container, make_docker_container_name. mrun.
  fold t1. fold name. fold t2.
  destruct (run_result rt t2) as [c|e]; mrun; repeat split; reflexivity.
Qed.

Lemma for_each_cons {A} (x : A) (l : list A) (body : A -> M unit) (s : State) :
  for_each (x :: l) body s
  = match body x s with
    | (Ok _, s1) => for_each l body s1
    | (Raise e, s1) => (Raise e, s1)
    end.
Proof. reflexivity. Qed.

(** The loop of [remove_docker_image]: the removals are asked for in the
    order of the tags, each one after the one before it succeeded, and the
    first one that fails ends the loop with its failure. *)
Lemma remove_docker_image_loop (image_repo : string) (image_tags : list string) (s : State) :
  let removal := fun tag => images_remove (image_repo ++ ":" ++ tag) true in
  let (r, s') := for_each image_tags (fun tag =>
                   r <- perform (removal tag) (remove_result rt) ;; lift r) s in
  self s' = self s
  /\ exists attempted,
       trace s' = (trace s ++ map removal attempted)%list
       /\ (forall done rest,
              attempted = (done ++ rest)%list -> done <> [] -> rest <> [] ->
              remove_result rt (trace s ++ map removal done)%list = Ok tt)
       /\ match r with
          | Ok _ => attempted = image_tags
                    /\ (image_tags <> [] -> remove_result rt (trace s') = Ok tt)
          | Raise e => (exists rest, image_tags = (attempted ++ rest)%list)
                       /\ attempted <> []
                       /\ remove_result rt (trace s') = Raise e
          end.
Proof.
  intros removal. revert s.
  induction image_tags as [|tag tags IH]; intros s.
  - simpl. split; [reflexivity|]. exists []. simpl. rewrite app_nil_r.
    split; [reflexivity|]. split.
    + intros done rest E Hd. destruct done; [congruence | discriminate E].
    + split; [reflexivity | congruence].
  - rewrite for_each_cons. unfold mbind at 1. unfold perform at 1. unfold lift at 1.
    cbn [self trace stdout].
    set (t1 := (trace s ++ [removal tag])%list).
    destruct (remove_result rt t1) as [[]|e] eqn:E1.
    + specialize (IH {| self := self s; trace := t1; stdout := stdout s |}).
      destruct (for_each tags _ _) as [r s'].
      destruct IH as (Hself & attempted & Ht & Hearlier & Hr).
      cbn [self trace] in Hself, Ht, Hearlier.
      split; [exact Hself|]. exists (tag :: attempted).
      assert (forall l, (t1 ++ map removal l)%list
                        = (trace s ++ map removal (tag :: l))%list) as Eapp.
      { intros l. unfold t1. rewrite <- app_assoc. reflexivity. }
      split; [rewrite Ht; apply Eapp|]. split.
      * intros done rest Ed Hd Hrest. destruct done as [|d done]; [congruence|].
        injection Ed as <- Ed. rewrite <- Eapp.
        destruct done as [|d' done].
        -- simpl. rewrite app_nil_r. exact E1.
        -- apply (Hearlier (d' :: done) rest Ed); [discriminate | exact Hrest].
      * destruct r as [[]|e].
        -- destruct Hr as [-> Hlast]. split; [reflexivity|]. intros _.
           destruct tags as [|tag' tags'].
           ++ rewrite Ht. simpl. rewrite app_nil_r. exact E1.
           ++ apply Hlast. discriminate.
        -- destruct Hr as ((rest & ->) & _ & Hlast).
           split; [exists rest; reflexivity|]. split; [discriminate | exact Hlast].
    + split; [reflexivity|]. exists [tag]. cbn [self trace stdout map].
      split; [reflexivity|]. split.
      * intros done rest Ed Hd Hrest.
        destruct done as [|d done]; [congruence|]. injection Ed as _ Ed.
        destruct done; destruct rest; try discriminate Ed. congruence.
      * split; [exists tags; reflexivity|]. split; [discriminate | exact E1].
Qed.

(** C10: whatever [force] is, [remove_docker_image] asks for the forced
    removal of each tag in turn: a run that returns has removed every tag,
    each removal having succeeded, and a run that raises has stopped at
    the first removal that failed, with the failure of that removal; the
    argument does not change what it does. *)
Theorem remove_docker_image_always_forces
        (image_repo : string) (image_tags : list string) (force : bool) (s : State) :
  let removal := fun tag => images_remove (image_repo ++ ":" ++ tag) true in
  let (r, s') := remove_docker_image rt image_repo image_tags force s in
  remove_docker_image rt image_repo image_tags (negb force) s = (r, s')
  /\ self s' = self s
  /\ exists attempted,
       trace s' = (trace s ++ map removal attempted)%list
       /\ (forall done rest,
              attempted = (done ++ rest)%list -> done <> [] -> rest <> [] ->
              remove_result rt (trace s ++ map removal done)%list = Ok tt)
       /\ match r with
          | Ok _ => attempted = image_tags
                    /\ (image_tags <> [] -> remove_result rt (trace s') = Ok tt)
          | Raise e => (exists rest, image_tags = (attempted ++ rest)%list)
                       /\ attempted <> []
                       /\ remove_result rt (trace s') = Raise e
          end.
Proof.
  intros removal.
  pose proof (remove_docker_image_loop image_repo image_tags s) as H.
  cbv zeta in H. unfold remove_docker_image.
  destruct (for_each image_tags _ s) as [r s'].
  split; [reflexivity | exact H].
Qed.

(** A failure of the image build reaches the caller as a
    [WcEnvManagerError], whatever its cause; the causes differ in the text
    the message starts with. *)
Lemma build_base_docker_image_wraps (s : State) (exception : foreign_exception) :
  let m := self s in
  let t0 := trace s in
  let t1 := (t0 ++ [os_path_isdir (docker_image_context_path m)])%list in
  let t2 := (t1 ++ [open_ (dockerfile_path m) "rb"])%list in
  let t3 := (t2 ++ [images_build (docker_image_context_path m) (dockerfile_path m)
                                 true (docker_image_build_args m)])%list in
  isdir rt t1 = true -> open_result rt t2 = Ok tt -> build_result rt t3 = inl exception ->
  exists message,
    fst (build_base_docker_image rt s) = Raise (WcEnvManagerError message)
    /\ exn_class (WcEnvManagerError message) = "WcEnvManagerError"
    /\ message
       = match clause exception with
         | ConnectionError_ => "Docker connection error: service must be running:"
         | APIError_ => "Docker API error: Dockerfile contains syntax errors:"
         | BuildError_ => "Docker build error: Error building Dockerfile:"
         | Exception_ => class_name exception ++ ":"
         end ++ Fmt.nl ++ "  " ++ Str.indent_newlines (text exception).
Proof.
  intros m t0 t1 t2 t3 Hdir Hopen Hbuild.
  unfold build_base_docker_image. mrun. fold m.
  destruct (verbose m) eqn:V; mrun; fold t0; fold t1; rewrite Hdir; cbn [negb]; mrun;
    fold m; fold t2; rewrite Hopen; mrun; fold t3; rewrite Hbuild; mrun;
    destruct (clause exception); mrun; eexists; repeat split;
    rewrite ?PathFacts.append_assoc; reflexivity.
Qed.

End Steps.

(* ================================================================== *)
(** ** The latest container *)

Section Selection.

Variable rt : Runtime.

Lemma insert_reverse_perm {A} (x : Z * A) (l : list (Z * A)) :
  Permutation (insert_reverse x l) (x :: l).
Proof.
  induction l as [|y l IH]; simpl; [apply Permutation_refl|].
  destruct (fst x <? fst y)%Z.
  - eapply perm_trans; [apply perm_skip, IH | apply perm_swap].
  - apply Permutation_refl.
Qed.

Lemma sort_reverse_perm {A} (l : list (Z * A)) : Permutation (sort_reverse l) l.
Proof.
  induction l as [|x l IH]; simpl; [constructor|].
  eapply perm_trans; [apply insert_reverse_perm | apply perm_skip, IH].
Qed.

Lemma insert_reverse_descending {A} (x : Z * A) (l : list (Z * A)) :
  descending l -> descending (insert_reverse x l).
Proof.
  unfold descending. induction 1 as [|y l Hl IH Hy]; simpl.
  - repeat constructor.
  - destruct (fst x <? fst y)%Z eqn:E.
    + apply Z.ltb_lt in E. constructor; [exact IH|].
      eapply Permutation_Forall.
      * apply Permutation_sym, insert_reverse_perm.
      * constructor; [lia | exact Hy].
    + apply Z.ltb_ge in E. constructor.
      * constructor; assumption.
      * constructor; [exact E|].
        eapply Forall_impl; [|exact Hy]. simpl. intros z Hz. lia.
Qed.

Lemma sort_reverse_descending {A} (l : list (Z * A)) : descending (sort_reverse l).
Proof.
  induction l as [|x l IH]; simpl; [constructor|].
  apply insert_reverse_descending, IH.
Qed.

(** Equal keys keep their order: the item put in comes before the items
    of the same key. *)
Lemma insert_reverse_head {A} (x : Z * A) (l : list (Z * A)) :
  hd_error (insert_reverse x l)
  = match hd_error l with
    | Some y => if (fst x <? fst y)%Z then Some y else Some x
    | None => Some x
    end.
Proof. destruct l as [|y l]; simpl; [reflexivity|]. destruct (fst x <? fst y)%Z; reflexivity. Qed.

(** The head of the sorted list has the greatest key of the list. *)
Lemma sort_reverse_head {A} (l : list (Z * A)) (x : Z * A) (rest : list (Z * A)) :
  sort_reverse l = x :: rest ->
  In x l /\ forall y, In y l -> (fst y <= fst x)%Z.
Proof.
  intros E.
  pose proof (sort_reverse_perm l) as P.
  pose proof (sort_reverse_descending l) as D.
  rewrite E in P, D. split.
  - apply (Permutation_in _ P). left. reflexivity.
  - intros y Hy. apply Permutation_sym in P.
    apply (Permutation_in _ P) in Hy. destruct Hy as [<- | Hy]; [lia|].
    unfold descending in D. apply StronglySorted_inv in D. destruct D as [_ F].
    rewrite Forall_forall in F. apply F, Hy.
Qed.

(** Among the items of greatest key the one that comes first stays first. *)
Lemma sort_reverse_first_greatest {A} (l1 l2 : list (Z * A)) (x : Z * A) :
  (forall y, In y l1 -> (fst y < fst x)%Z) ->
  (forall y, In y l2 -> (fst y <= fst x)%Z) ->
  hd_error (sort_reverse (l1 ++ x :: l2)) = Some x.
Proof.
  intros Hbefore Hafter. induction l1 as [|z l1 IH]; simpl.
  - rewrite insert_reverse_head.
    destruct (hd_error (sort_reverse l2)) as [y|] eqn:E; [|reflexivity].
    assert (In y l2) as Hy.
    { apply (Permutation_in _ (sort_reverse_perm l2)).
      destruct (sort_reverse l2); [discriminate E|].
      injection E as ->. left. reflexivity. }
    apply Hafter in Hy. apply Z.ltb_ge in Hy. rewrite Hy. reflexivity.
  - rewrite insert_reverse_head, IH.
    + assert (fst z < fst x)%Z as Hz by (apply Hbefore; left; reflexivity).
      apply Z.ltb_lt in Hz. rewrite Hz. reflexivity.
    + intros y Hy. apply Hbefore. right. exact Hy.
Qed.

(** Asking for the stats of each container costs one call each. *)
Lemma stats_of_all (cs : list Container) (s : State) :
  map_m (fun container =>
           read <- perform (container_stats container false) (stats_read rt) ;;
           ret (parse_time rt read)) cs s
  = (Ok (read_times rt (trace s) cs),
     {| self := self s;
        trace := (trace s ++ map (fun c => container_stats c false) cs)%list;
        stdout := stdout s |}).
Proof.
  revert s. induction cs as [|c cs IH]; intros s.
  - simpl. unfold ret. rewrite app_nil_r. destruct s; reflexivity.
  - simpl map_m. unfold mbind at 1 2. unfold perform at 1. unfold ret at 1.
    cbn [self trace stdout].
    unfold mbind at 1. rewrite IH. cbn [self trace stdout]. unfold ret.
    rewrite <- app_assoc. reflexivity.
Qed.

Lemma get_docker_containers_sorted (s : State) :
  let t1 := (trace s ++ [containers_list true])%list in
  let managed := filter (is_managed rt (self s)) (list_result rt t1) in
  get_docker_containers rt true s
  = (Ok (map snd (sort_reverse (combine (read_times rt t1 managed) managed))),
     {| self := self s;
        trace := (t1 ++ map (fun c => container_stats c false) managed)%list;
        stdout := stdout s |}).
Proof.
  intros t1 managed. unfold get_docker_containers.
  unfold mbind at 1. unfold get_self. unfold mbind at 1. unfold perform at 1.
  cbn [self trace stdout]. fold t1.
  change (filter _ (list_result rt t1)) with managed.
  unfold mbind at 1. rewrite stats_of_all. reflexivity.
Qed.

(** C6: [get_latest_docker_container] lists all containers, keeps those
    whose name parses against the name format, asks the runtime for the
    stats of each, and returns one whose read time no other exceeds, or
    nothing when no container is managed. *)
Theorem get_latest_docker_container_latest (s : State) :
  let t1 := (trace s ++ [containers_list true])%list in
  let managed := filter (is_managed rt (self s)) (list_result rt t1) in
  let keyed := combine (read_times rt t1 managed) managed in
  let (r, s') := get_latest_docker_container rt s in
  trace s' = (t1 ++ map (fun c => container_stats c false) managed)%list
  /\ r = Ok (option_map snd (hd_error (sort_reverse keyed)))
  /\ descending (sort_reverse keyed)
  /\ Permutation (sort_reverse keyed) keyed
  /\ match managed with
     | [] => r = Ok None
     | _ :: _ =>
         exists read c,
           r = Ok (Some c) /\ In (read, c) keyed
           /\ forall read' c', In (read', c') keyed -> (read' <= read)%Z
     end.
Proof.
  intros t1 managed keyed. unfold get_latest_docker_container.
  unfold mbind. rewrite get_docker_containers_sorted.
  fold t1. fold managed. fold keyed.
  pose proof (sort_reverse_perm keyed) as P.
  destruct (sort_reverse keyed) as [|[read c] rest] eqn:E.
  - apply Permutation_nil in P.
    assert (managed = []) as Em.
    { destruct managed as [|c cs] eqn:Em; [reflexivity|].
      unfold keyed in P. simpl in P. discriminate P. }
    rewrite Em. simpl. unfold ret.
    split; [reflexivity|]. split; [reflexivity|].
    split; [constructor|]. split; [|reflexivity].
    rewrite P. apply perm_nil.
  - simpl. unfold ret. split; [reflexivity|]. split; [reflexivity|].
    split; [rewrite <- E; apply sort_reverse_descending|].
    split; [exact P|].
    destruct (sort_reverse_head keyed _ _ E) as [Hin Hmax].
    destruct managed as [|c1 cs] eqn:Em.
    + unfold keyed in Hin. simpl in Hin. destruct (read_times rt t1 []); contradiction.
    + exists read, c. split; [reflexivity|]. split; [exact Hin|].
      intros read' c' H'. apply (Hmax (read', c') H').
Qed.

(** Of two managed containers the one read later is the latest, in
    whichever order the runtime lists them. *)
Lemma latest_of_two (s : State) (A B : Container) (t1 t2 : Z) :
  let tr := (trace s ++ [containers_list true])%list in
  let managed := filter (is_managed rt (self s)) (list_result rt tr) in
  (managed = [A; B] /\ read_times rt tr managed = [t1; t2])
  \/ (managed = [B; A] /\ read_times rt tr managed = [t2; t1]) ->
  (t1 < t2)%Z ->
  fst (get_latest_docker_container rt s) = Ok (Some B).
Proof.
  intros tr managed Hlisted Hlt.
  unfold get_latest_docker_container, mbind.
  rewrite get_docker_containers_sorted. fold tr. fold managed.
  destruct Hlisted as [[-> ->] | [-> ->]]; simpl.
  - apply Z.ltb_lt in Hlt. rewrite Hlt. reflexivity.
  - assert ((t2 <? t1)%Z = false) as -> by (apply Z.ltb_ge; lia). reflexivity.
Qed.

End Selection.

(** *** Selection at given inputs *)

(** [B], read later than [A], is the latest, although [A] carries the
    later name; [postgres] is not managed. *)
Example get_latest_docker_container_by_read_time :
  is_managed Fixture.two_managed (Fixture.manager []) Fixture.other = false
  /\ Fixture.parse_name (container_name Fixture.B) ""
     = Some 20180801090000%Z
  /\ Fixture.parse_name (container_name Fixture.A) ""
     = Some 20180901090000%Z
  /\ fst (get_latest_docker_container Fixture.two_managed
            (Fixture.start (Fixture.manager [])))
     = Ok (Some Fixture.B).
Proof. repeat split; reflexivity. Qed.

Example get_latest_docker_container_none :
  fst (get_latest_docker_container Fixture.quiet (Fixture.start (Fixture.manager [])))
  = Ok None.
Proof. reflexivity. Qed.

(* ================================================================== *)
(** ** The installs of a setup *)

Section Provisioning.

Variable rt : Runtime.

Lemma issues_ret {A} (a : A) : issues (ret a) [].
Proof. intros s. exists []. rewrite app_nil_r. split; reflexivity. Qed.

Lemma issues_raise {A} (e : exn) (out : list install_event) : issues (@raise A e) out.
Proof. intros s. exists []. rewrite app_nil_r. split; [reflexivity | exists out; reflexivity]. Qed.

Lemma issues_lift {A} (r : Res A) : issues (lift r) [].
Proof.
  intros s. exists []. rewrite app_nil_r. split; [reflexivity|].
  destruct r; [reflexivity | exists []; reflexivity].
Qed.

Lemma issues_get_self : issues get_self [].
Proof. intros s. exists []. rewrite app_nil_r. split; reflexivity. Qed.

Lemma issues_put_self (m : WcEnvManager) : issues (put_self m) [].
Proof. intros s. exists []. simpl. rewrite app_nil_r. split; reflexivity. Qed.

Lemma issues_print (line : string) : issues (print line) [].
Proof. intros s. exists []. simpl. rewrite app_nil_r. split; reflexivity. Qed.

Lemma issues_perform {R} (c : call) (answer : list call -> R) :
  issues (perform c answer) (install_events c).
Proof.
  intros s. exists (install_events c). simpl. split; [|reflexivity].
  unfold installs. rewrite flat_map_app. simpl. rewrite app_nil_r. reflexivity.
Qed.

Lemma issues_bind {A B} (m : M A) (k : A -> M B) (o1 o2 : list install_event) :
  issues m o1 -> (forall a, issues (k a) o2) -> issues (mbind m k) (o1 ++ o2).
Proof.
  intros Hm Hk s. unfold mbind.
  specialize (Hm s). destruct (m s) as [[a|e] s1].
  - destruct Hm as (d1 & E1 & ->).
    specialize (Hk a s1). destruct (k a s1) as [r s2].
    destruct Hk as (d2 & E2 & H2). exists (o1 ++ d2)%list. split.
    + rewrite E2, E1, app_assoc. reflexivity.
    + destruct r as [b|e].
      * rewrite H2. reflexivity.
      * destruct H2 as (rest & ->). exists rest. rewrite app_assoc. reflexivity.
  - destruct Hm as (d1 & E1 & rest & ->). exists d1. split; [exact E1|].
    exists (rest ++ o2)%list. rewrite app_assoc. reflexivity.
Qed.

Lemma issues_then {A B} (m : M A) (k : A -> M B) (out : list install_event) :
  issues m [] -> (forall a, issues (k a) out) -> issues (mbind m k) out.
Proof. intros Hm Hk. apply (issues_bind m k [] out Hm Hk). Qed.

Lemma issues_when (b : bool) (m : M unit) : issues m [] -> issues (when b m) [].
Proof. intros H. destruct b; [exact H | apply issues_ret]. Qed.

Lemma issues_for_each {A} (l : list A) (body : A -> M unit) :
  (forall x, issues (body x) []) -> issues (for_each l body) [].
Proof.
  intros H. induction l as [|x l IH]; simpl.
  - apply issues_ret.
  - apply issues_then; [apply H | intros _; exact IH].
Qed.

Lemma issues_the_container (attr : string) : issues (the_container attr) [].
Proof.
  unfold the_container. apply issues_then; [apply issues_get_self|].
  intros m. destruct (_docker_container m); [apply issues_ret | apply issues_raise].
Qed.

(** A command that returns has been executed once. *)
Lemma issues_run_process_in_docker_container
      (cmd : command) (work_dir : option string)
      (env : option (list (string * string))) (check : bool) (user : WcEnvUser) :
  issues (run_process_in_docker_container rt cmd work_dir env check user)
        (command_installs cmd).
Proof.
  unfold run_process_in_docker_container.
  apply issues_then; [apply issues_the_container|]. intros c.
  rewrite <- (app_nil_r (command_installs cmd)).
  apply issues_bind; [apply issues_perform|]. intros result.
  apply issues_then; [apply issues_get_self|]. intros m.
  apply issues_then; [apply issues_when, issues_print|]. intros _.
  destruct (check && negb (snd result =? 0)%Z).
  - apply issues_then; [|intros w; apply issues_raise].
    destruct work_dir as [[|x w]|]; try apply issues_ret;
      (apply issues_then; [apply issues_the_container|]; intros c2;
       apply issues_then; [apply (issues_perform (exec_run _ (CmdStr _) _ _ _))|];
       intros result2; apply issues_ret).
  - apply issues_ret.
Qed.

Lemma issues_run_process_on_host (cmd : list string) : issues (run_process_on_host rt cmd) [].
Proof.
  unfold run_process_on_host.
  apply issues_then; [apply issues_get_self|]. intros m.
  apply issues_then; [apply (issues_perform (subprocess_run cmd _ _))|]. intros code.
  destruct (code =? 0)%Z; [apply issues_ret | apply issues_raise].
Qed.

Lemma issues_copy_path_to_docker_container
      (local_path container_path : string) (overwrite : bool) (user : WcEnvUser) :
  issues (copy_path_to_docker_container rt local_path container_path overwrite user) [].
Proof.
  unfold copy_path_to_docker_container.
  apply issues_then; [apply (issues_run_process_in_docker_container (CmdStr _))|].
  intros [is_path code].
  destruct (negb (String.eqb is_path "") && negb overwrite); [apply issues_raise|].
  apply issues_then; [apply issues_the_container|]. intros c.
  apply issues_run_process_on_host.
Qed.

Lemma issues_install_github_ssh_host_in_docker_container (upgrade : bool) :
  issues (install_github_ssh_host_in_docker_container rt upgrade) [].
Proof.
  unfold install_github_ssh_host_in_docker_container.
  apply issues_then; [apply (issues_run_process_in_docker_container (CmdStr _))|]. intros _.
  apply issues_then.
  - destruct upgrade; [|apply issues_ret].
    apply issues_then; [apply (issues_run_process_in_docker_container (CmdStr _))|].
    intros _. apply issues_ret.
  - intros _.
    apply issues_then; [apply (issues_run_process_in_docker_container (CmdStr _))|].
    intros _. apply issues_ret.
Qed.

Lemma issues_test_github_ssh_access_in_docker_container :
  issues (test_github_ssh_access_in_docker_container rt) [].
Proof.
  unfold test_github_ssh_access_in_docker_container.
  apply issues_then; [apply (issues_run_process_in_docker_container (CmdStr _))|].
  intros [message code]. apply issues_ret.
Qed.

Lemma issues_copy_config_files_to_docker_container (overwrite : bool) :
  issues (copy_config_files_to_docker_container rt overwrite) [].
Proof.
  unfold copy_config_files_to_docker_container.
  apply issues_then; [apply (issues_run_process_in_docker_container (CmdStr _))|].
  intros [dirname code].
  apply issues_then; [apply (issues_perform (os_path_isdir _))|]. intros [|]; [|apply issues_ret].
  apply issues_then; [apply issues_copy_path_to_docker_container|]. intros _.
  apply issues_then; [apply (issues_perform (open_ _ _))|]. intros opened.
  apply issues_then; [apply issues_lift|]. intros _.
  apply issues_then; [apply (issues_perform (yaml_load _))|]. intros loaded.
  apply issues_then; [apply (issues_perform (file_close _))|]. intros _.
  apply issues_then; [apply issues_lift|]. intros paths.
  apply issues_for_each. intros [rel_src abs_dest].
  apply issues_then; [apply (issues_run_process_in_docker_container (CmdList [_; _; _]))|].
  intros _. apply issues_copy_path_to_docker_container.
Qed.

(** One package set: its requirements are saved, then installed. *)
Lemma issues_install_python_packages_in_docker_container
      (packages : string) (upgrade process_dependency_links : bool) :
  issues (install_python_packages_in_docker_container rt packages upgrade
                                                     process_dependency_links)
        [requirements_saved packages;
         pip_install ((if upgrade then ["-U"] else [])
                      ++ (if process_dependency_links
                          then ["--process-dependency-links"] else []))%list].
Proof.
  unfold install_python_packages_in_docker_container.
  apply issues_then; [apply (issues_perform (tempfile_mkstemp _))|].
  intros [file host_temp_filename].
  apply (issues_bind _ _ [requirements_saved packages] [pip_install _]);
    [apply (issues_perform (os_write _ _))|]. intros _.
  apply issues_then; [apply (issues_perform (os_close _))|]. intros _.
  apply issues_then; [apply (issues_run_process_in_docker_container (CmdStr _))|].
  intros [container_temp_filename code].
  apply issues_then; [apply issues_copy_path_to_docker_container|]. intros _.
  apply issues_then; [apply issues_get_self|]. intros m.
  apply (issues_bind _ _ [pip_install _] []).
  - pose proof (issues_run_process_in_docker_container
                  (CmdList (([("pip" ++ python_version_in_container m)%string; "install"; "-r";
                              container_temp_filename]
                             ++ (if upgrade then ["-U"] else [])
                             ++ (if process_dependency_links
                                 then ["--process-dependency-links"] else []))%list))
                  None None true root) as H.
    unfold command_installs in H. cbn [app] in H.
    unfold Str.startswith in H.
    rewrite PathFacts.prefix_append, !String.eqb_refl in H. exact H.
  - intros _.
    apply issues_then; [apply (issues_perform (os_remove _))|]. intros _.
    apply issues_then; [apply (issues_run_process_in_docker_container (CmdList [_; _]))|].
    intros _. apply issues_ret.
Qed.

Lemma issues_create_docker_container (tty : bool) :
  issues (create_docker_container rt tty) [].
Proof.
  unfold create_docker_container, make_docker_container_name.
  apply issues_then.
  { apply issues_then; [apply issues_get_self|]. intros m.
    apply issues_then; [apply (issues_perform datetime_now)|]. intros t. apply issues_ret. }
  intros name.
  apply issues_then; [apply issues_get_self|]. intros m.
  apply issues_then; [apply (issues_perform (containers_run _ _ _ _ _ _ _))|]. intros r.
  apply issues_then; [apply issues_lift|]. intros container.
  apply issues_then; [apply issues_get_self|]. intros m'.
  apply issues_then; [apply issues_put_self|]. intros _. apply issues_ret.
Qed.

Lemma issues_bind_self {B} (k : WcEnvManager -> M B)
      (out : WcEnvManager -> list install_event) :
  (forall m, issues (k m) (out m)) ->
  forall s,
    let (r, s') := mbind get_self k s in
    exists done,
      installs (trace s') = (installs (trace s) ++ done)%list
      /\ match r with
         | Ok _ => done = out (self s)
         | Raise _ => exists rest, out (self s) = (done ++ rest)%list
         end.
Proof. intros H s. apply (H (self s) s). Qed.

(** The installs of a configuration: each package set is saved and
    installed, in the order PyPI, GitHub, host. *)
Lemma setup_docker_container_installs (upgrade : bool) (s : State) :
  let (r, s') := setup_docker_container rt upgrade s in
  exists done,
    installs (trace s') = (installs (trace s) ++ done)%list
    /\ match r with
       | Ok _ => done = package_installs (self s) upgrade
       | Raise _ => exists rest, package_installs (self s) upgrade = (done ++ rest)%list
       end.
Proof.
  unfold setup_docker_container.
  refine (issues_bind_self _ (fun m => package_installs m upgrade) _ s).
  intros m.
  apply issues_then; [apply issues_copy_config_files_to_docker_container|]. intros _.
  apply issues_then.
  { apply issues_for_each. intros path. apply issues_copy_path_to_docker_container. }
  intros _.
  apply issues_then; [apply issues_install_github_ssh_host_in_docker_container|]. intros _.
  apply issues_then; [apply issues_test_github_ssh_access_in_docker_container|]. intros ok.
  apply issues_then; [destruct ok; [apply issues_ret | apply issues_raise]|]. intros _.
  pose proof (issues_install_python_packages_in_docker_container
                (python_packages_from_pypi m) upgrade false) as H1.
  pose proof (issues_install_python_packages_in_docker_container
                (python_packages_from_github m) upgrade true) as H2.
  pose proof (issues_install_python_packages_in_docker_container
                (python_packages_from_host m) upgrade true) as H3.
  unfold package_installs.
  destruct upgrade; cbn [app] in H1, H2, H3.
  - apply (issues_bind _ _ [_; _] _ H1). intros _.
    apply (issues_bind _ _ [_; _] _ H2). intros _. exact H3.
  - apply (issues_bind _ _ [_; _] _ H1). intros _.
    apply (issues_bind _ _ [_; _] _ H2). intros _. exact H3.
Qed.

(** C7 (amended): [create_docker_container] followed by
    [setup_docker_container] issues a package-install step for each of the
    three package sets of the configuration, in the order PyPI, GitHub,
    host, whether a set is empty or not: all three when it returns, and
    the first of them, up to the step that failed, when it raises. *)
Theorem create_then_setup_installs (tty upgrade : bool) (s : State) :
  let (r, s') := (create_docker_container rt tty ;;
                  setup_docker_container rt upgrade) s in
  exists done,
    installs (trace s') = (installs (trace s) ++ done)%list
    /\ match r with
       | Ok _ =>
           done = [requirements_saved (python_packages_from_pypi (self s));
                   pip_install (if upgrade then ["-U"] else []);
                   requirements_saved (python_packages_from_github (self s));
                   pip_install (if upgrade then ["-U"; "--process-dependency-links"]
                                else ["--process-dependency-links"]);
                   requirements_saved (python_packages_from_host (self s));
                   pip_install (if upgrade then ["-U"; "--process-dependency-links"]
                                else ["--process-dependency-links"])]
           /\ install_steps (trace s') = install_steps (trace s) + 3
       | Raise _ =>
           exists rest, package_installs (self s) upgrade = (done ++ rest)%list
       end.
Proof.
  unfold mbind.
  pose proof (issues_create_docker_container tty s) as Hc.
  destruct (create_docker_container rt tty s) as [[c|e] s1] eqn:Ec.
  - destruct Hc as (d0 & E0 & ->). rewrite app_nil_r in E0.
    assert (exists c', self s1 = set__docker_container (Some c') (self s)) as [c' Eself].
    { revert Ec. unfold create_docker_container, make_docker_container_name. mrun.
      destruct (run_result rt _); mrun; intros E; [|discriminate E].
      injection E as _ <-. eexists. reflexivity. }
    pose proof (setup_docker_container_installs upgrade s1) as Hs.
    destruct (setup_docker_container rt upgrade s1) as [r s'].
    destruct Hs as (done & E & H). rewrite E0 in E.
    exists done. split; [exact E|].
    rewrite Eself in H. destruct r as [[]|e'].
    + split; [exact H|].
      unfold install_steps. rewrite E, H, filter_app, length_app. reflexivity.
    + exact H.
  - destruct Hc as (d0 & E0 & rest & Hrest).
    destruct d0; [|discriminate Hrest].
    exists []. split; [exact E0|].
    exists (package_installs (self s) upgrade). reflexivity.
Qed.

End Provisioning.

(* ================================================================== *)
(** ** Steps at given inputs *)

Lemma copy_path_to_docker_container_gate_witness :
  let rt := Fixture.answering ("1" ++ Fmt.nl) 0 in
  let s := Fixture.running (Fixture.manager []) in
  fst (copy_path_to_docker_container rt "/home/u/.wc" "/root/.wc" false root s)
  = Raise (WcEnvManagerError "File /root/.wc already exists")
  /\ copy_actions
       (trace (snd (copy_path_to_docker_container rt "/home/u/.wc" "/root/.wc" false root s)))
     = 0.
Proof.
  intros rt s.
  pose proof (copy_path_to_docker_container_gate rt s Fixture.c0
                "/home/u/.wc" "/root/.wc" false root "1" eq_refl
                (or_intror eq_refl)) as H.
  vm_compute in H. destruct H as (H1 & _ & H3).
  split; [exact H1 | exact H3].
Defined.

(** C3, as stated, fails: with [overwrite] the copy action is not invoked
    when the check command itself fails, and the error of a destination
    that exists is a [WcEnvManagerError]; the code has no class
    [AlreadyExistsError]. *)
Lemma copy_needs_a_successful_check :
  let s := Fixture.running (Fixture.manager []) in
  let failed := copy_path_to_docker_container Scenario.command_not_found
                  "/home/u/.wc" "/root/.wc" true root s in
  let refused := copy_path_to_docker_container (Fixture.answering ("1" ++ Fmt.nl) 0)
                   "/home/u/.wc" "/root/.wc" false root s in
  snd (exec_result Scenario.command_not_found
         [exec_run Fixture.c0
            (CmdStr ("bash -c " ++ Str.dq
                     ++ "if [ -f /root/.wc ] || [ -d /root/.wc ]; then echo 1; fi"
                     ++ Str.dq))
            None (Some []) "root"])
  = 127%Z
  /\ copy_actions (trace (snd failed)) = 0
  /\ raised_class (fst failed) = Some "WcEnvManagerError"
  /\ raised_class (fst refused) = Some "WcEnvManagerError"
  /\ raised_class (fst refused) <> Some "AlreadyExistsError".
Proof. repeat split; try reflexivity. discriminate. Qed.

(** A destination that is absent is copied to, also without [overwrite]. *)
Example copy_path_to_docker_container_absent :
  trace (snd (copy_path_to_docker_container (Fixture.answering "" 0)
                "/home/u/.wc" "/root/.wc" false root
                (Fixture.running (Fixture.manager []))))
  = [exec_run Fixture.c0
       (CmdStr ("bash -c " ++ Str.dq
                ++ "if [ -f /root/.wc ] || [ -d /root/.wc ]; then echo 1; fi" ++ Str.dq))
       None (Some []) "root";
     subprocess_run ["docker"; "cp"; "/home/u/.wc"; "wc_env-20180823120001:/root/.wc"]
                    true true].
Proof. reflexivity. Qed.

(** With [overwrite], a destination that exists is copied over. *)
Example copy_path_to_docker_container_overwrites :
  trace (snd (copy_path_to_docker_container (Fixture.answering ("1" ++ Fmt.nl) 0)
                "/home/u/.wc" "/root/.wc" true root
                (Fixture.running (Fixture.manager []))))
  = [exec_run Fixture.c0
       (CmdStr ("bash -c " ++ Str.dq
                ++ "if [ -f /root/.wc ] || [ -d /root/.wc ]; then echo 1; fi" ++ Str.dq))
       None (Some []) "root";
     subprocess_run ["docker"; "cp"; "/home/u/.wc"; "wc_env-20180823120001:/root/.wc"]
                    true true].
Proof. reflexivity. Qed.

(** C4, as stated, fails: the container is started as [root]. *)
Lemma container_is_started_as_root :
  run_identities
    (trace (snd (create_docker_container Fixture.quiet true
                   (Fixture.start (Fixture.manager [])))))
  = [WcEnvUser_.name root]
  /\ WcEnvUser_.name root = "root"
  /\ WcEnvUser_.value root = 0%Z.
Proof. repeat split; reflexivity. Qed.

Example create_docker_container_trace :
  trace (snd (create_docker_container Fixture.quiet true
                (Fixture.start (Fixture.manager [("/a", Fixture.rw "/c")]))))
  = [datetime_now;
     containers_run "karrlab/wc_env_dependencies" "wc_env-20180823120001"
                    [("/a", Fixture.rw "/c")] true true true "root"].
Proof. reflexivity. Qed.

Lemma test_github_ssh_access_in_docker_container_result_witness :
  fst (test_github_ssh_access_in_docker_container Fixture.provisioning
         (Fixture.running (Fixture.manager [])))
  = Ok true.
Proof.
  pose proof (test_github_ssh_access_in_docker_container_result Fixture.provisioning
                (Fixture.running (Fixture.manager [])) Fixture.c0 eq_refl) as H.
  vm_compute in H. destruct H as (H & _). exact H.
Defined.


Lemma create_then_setup_installs_witness :
  let s := Fixture.start (Fixture.manager []) in
  let run := (create_docker_container Fixture.provisioning true ;;
              setup_docker_container Fixture.provisioning false) s in
  fst run = Ok tt
  /\ installs (trace (snd run))
     = [requirements_saved "requests==2.0"; pip_install [];
        requirements_saved ""; pip_install ["--process-dependency-links"];
        requirements_saved ""; pip_install ["--process-dependency-links"]].
Proof.
  intros s run.
  pose proof (create_then_setup_installs Fixture.provisioning true false s) as H.
  fold run in H.
  assert (run = (Ok tt, snd run)) as E by (vm_compute; reflexivity).
  rewrite E in H. destruct H as (done & Ht & Hd & _).
  split; [rewrite E; reflexivity|].
  rewrite Ht, Hd. reflexivity.
Defined.

(** C7, as stated, fails: with one PyPI package and two empty package
    sets, the setup that follows a create issues three install steps. *)
Lemma empty_package_sets_are_installed :
  let m := Fixture.manager [] in
  let run := (create_docker_container Fixture.provisioning true ;;
              setup_docker_container Fixture.provisioning false) (Fixture.start m) in
  python_packages_from_pypi m = "requests==2.0"
  /\ python_packages_from_github m = ""
  /\ python_packages_from_host m = ""
  /\ fst run = Ok tt
  /\ install_steps (trace (snd run)) = 3.
Proof. repeat split; vm_compute; reflexivity. Qed.

Example build_base_docker_image_connection_refused :
  fst (build_base_docker_image (Fixture.failing_build Fixture.connection_refused)
         (Fixture.start (Fixture.manager [])))
  = Raise (WcEnvManagerError
             ("Docker connection error: service must be running:" ++ Fmt.nl
              ++ "  ('Connection aborted.', ConnectionRefusedError(111, 'Connection refused'))")).
Proof. reflexivity. Qed.

(** C9, as stated, fails: an unreachable daemon, a build specification
    with a syntax error, a failed build, a path that is not mounted and a
    destination that exists are all raised as the one class. *)
Lemma failures_share_one_class :
  let s := Fixture.start (Fixture.manager []) in
  raised_class (fst (build_base_docker_image
                       (Fixture.failing_build Fixture.connection_refused) s))
  = Some "WcEnvManagerError"
  /\ raised_class (fst (build_base_docker_image
                          (Fixture.failing_build Fixture.syntax_error) s))
     = Some "WcEnvManagerError"
  /\ raised_class (fst (build_base_docker_image
                          (Fixture.failing_build Fixture.build_failed) s))
     = Some "WcEnvManagerError"
  /\ raised_class (convert_host_to_container_path Fixture.quiet (Fixture.manager []) "/data")
     = Some "WcEnvManagerError"
  /\ raised_class (fst (copy_path_to_docker_container
                          (Fixture.answering ("1" ++ Fmt.nl) 0)
                          "/home/u/.wc" "/root/.wc" false root
                          (Fixture.running (Fixture.manager []))))
     = Some "WcEnvManagerError".
Proof. repeat split; reflexivity. Qed.

Lemma remove_docker_image_always_forces_witness :
  let rt := Daemon.keeping Fixture.quiet "karrlab/wc_env:0.0.1" in
  let run := remove_docker_image rt "karrlab/wc_env" ["latest"; "0.0.1"; "0.0.2"] false
               (Fixture.start (Fixture.manager [])) in
  fst run = Raise (Foreign Daemon.conflict)
  /\ trace (snd run)
     = [images_remove "karrlab/wc_env:latest" true;
        images_remove "karrlab/wc_env:0.0.1" true]
  /\ remove_result rt [images_remove "karrlab/wc_env:latest" true] = Ok tt.
Proof.
  intros rt run.
  pose proof (remove_docker_image_always_forces rt "karrlab/wc_env"
                ["latest"; "0.0.1"; "0.0.2"] false
                (Fixture.start (Fixture.manager []))) as H.
  cbv zeta in H. fold run in H.
  assert (trace (snd run)
          = [images_remove "karrlab/wc_env:latest" true;
             images_remove "karrlab/wc_env:0.0.1" true]) as Et
      by (vm_compute; reflexivity).
  destruct run as [[[]|e] s']; cbn [fst snd] in *;
    destruct H as (_ & _ & attempted & Ht & Hearlier & Hr).
  - destruct Hr as [-> _]. rewrite Et in Ht. discriminate Ht.
  - destruct Hr as (_ & _ & Hlast). rewrite Et in Hlast.
    split; [symmetry; exact Hlast|]. split; [exact Et|].
    rewrite Et in Ht.
    destruct attempted as [|x [|y [|z l]]]; simpl in Ht; try discriminate Ht.
    injection Ht as Ex Ey. subst x y.
    exact (Hearlier ["latest"] ["0.0.1"] eq_refl ltac:(discriminate) ltac:(discriminate)).
Defined.

Example remove_docker_image_unforced :
  trace (snd (remove_docker_image Fixture.quiet "karrlab/wc_env" ["latest"; "0.0.1"] false
                (Fixture.start (Fixture.manager []))))
  = [images_remove "karrlab/wc_env:latest" true;
     images_remove "karrlab/wc_env:0.0.1" true].
Proof. reflexivity. Qed.

Lemma get_latest_docker_container_latest_witness :
  fst (get_latest_docker_container Fixture.two_managed
         (Fixture.start (Fixture.manager [])))
  = Ok (Some Fixture.B).
Proof.
  pose proof (get_latest_docker_container_latest Fixture.two_managed
                (Fixture.start (Fixture.manager []))) as H.
  vm_compute in H. destruct H as (_ & H & _). exact H.
Defined.

Lemma create_docker_container_runs_witness :
  _docker_container
    (self (snd (create_docker_container Fixture.quiet true
                  (Fixture.start (Fixture.manager [])))))
  = Some Fixture.c0.
Proof.
  pose proof (create_docker_container_runs Fixture.quiet
                (Fixture.start (Fixture.manager [])) true) as H.
  vm_compute in H. destruct H as (_ & _ & _ & H). exact H.
Defined.

(* ================================================================== *)
(** ** The version of the image *)

Module VersionFacts.
Import Version.

Lemma take_skip (class : ascii -> bool) (s : string) :
  s = take class s ++ skip class s.
Proof.
  induction s as [|c s IH]; simpl; [reflexivity|].
  destruct (class c); simpl; [rewrite <- IH|]; reflexivity.
Qed.

Lemma all_take (class : ascii -> bool) (s : string) : all class (take class s) = true.
Proof.
  induction s as [|c s IH]; simpl; [reflexivity|].
  destruct (class c) eqn:E; simpl; [rewrite E, IH|]; reflexivity.
Qed.

Lemma skip_all (class : ascii -> bool) (a rest : string) :
  all class a = true -> skip class (a ++ rest) = skip class rest.
Proof.
  induction a as [|c a IH]; simpl; [reflexivity|].
  intros H. apply andb_true_iff in H. destruct H as [Hc Ha].
  rewrite Hc. apply IH, Ha.
Qed.

Lemma digit_alnum (c : ascii) : is_digit c = true -> is_alnum c = true.
Proof. unfold is_alnum. intros ->. reflexivity. Qed.

Lemma skip_alnum_skip_digit (s : string) :
  skip is_alnum (skip is_digit s) = skip is_alnum s.
Proof.
  induction s as [|c s IH]; simpl; [reflexivity|].
  destruct (is_digit c) eqn:E.
  - rewrite (digit_alnum c E). exact IH.
  - reflexivity.
Qed.

Lemma plus_some (class : ascii -> bool) (s r : string) :
  plus class s = Some r ->
  exists a, a <> "" /\ all class a = true /\ s = a ++ r.
Proof.
  destruct s as [|c s]; simpl; [discriminate|].
  destruct (class c) eqn:E; [|discriminate].
  intros H. injection H as <-.
  exists (String c (take class s)). split; [discriminate|]. split.
  - simpl. rewrite E. apply all_take.
  - simpl. f_equal. apply take_skip.
Qed.

Lemma dot_some (s r : string) : dot s = Some r -> s = "." ++ r.
Proof.
  destruct s as [|c s]; simpl; [discriminate|].
  destruct (Ascii.eqb c ".") eqn:E; [|discriminate].
  apply Ascii.eqb_eq in E. subst c. intros H. injection H as <-. reflexivity.
Qed.

Lemma plus_run (class : ascii -> bool) (a rest : string) :
  a <> "" -> all class a = true ->
  plus class (a ++ rest) = Some (skip class rest).
Proof.
  destruct a as [|c a]; [congruence|]. intros _ H. simpl in *.
  apply andb_true_iff in H. destruct H as [Hc Ha].
  rewrite Hc. f_equal. apply skip_all, Ha.
Qed.

Lemma skip_dot (r : string) : skip is_digit ("." ++ r) = "." ++ r.
Proof. reflexivity. Qed.

Lemma dot_dot (r : string) : dot ("." ++ r) = Some r.
Proof. reflexivity. Qed.

(** The scan accepts exactly the language of the pattern. *)
Lemma is_version_shape (v : string) : is_version v = true <-> version_shape v.
Proof.
  split.
  - unfold is_version. intros H.
    destruct (plus is_digit v) as [r1|] eqn:E1; [|discriminate].
    destruct (dot r1) as [r2|] eqn:E2; [|discriminate].
    destruct (plus is_digit r2) as [r3|] eqn:E3; [|discriminate].
    destruct (dot r3) as [r4|] eqn:E4; [|discriminate].
    destruct (plus is_digit r4) as [r5|] eqn:E5; [|discriminate].
    apply plus_some in E1. destruct E1 as (a & Ha & Da & ->).
    apply dot_some in E2. subst r1.
    apply plus_some in E3. destruct E3 as (b & Hb & Db & ->).
    apply dot_some in E4. subst r3.
    apply plus_some in E5. destruct E5 as (c & Hc & Dc & ->).
    exists a, b, c, (take is_alnum r5), (skip is_alnum r5).
    rewrite <- take_skip.
    repeat split; try assumption; try apply all_take.
    apply orb_true_iff in H. destruct H as [H | H].
    + left. apply String.eqb_eq, H.
    + right. apply String.eqb_eq, H.
  - intros (a & b & c & suffix & tail & -> & Ha & Da & Hb & Db & Hc & Dc & Ds & Ht).
    unfold is_version.
    rewrite (plus_run is_digit a _ Ha Da), skip_dot, dot_dot.
    rewrite (plus_run is_digit b _ Hb Db), skip_dot, dot_dot.
    rewrite (plus_run is_digit c _ Hc Dc).
    cbv zeta. rewrite skip_alnum_skip_digit, (skip_all is_alnum suffix tail Ds).
    destruct Ht as [-> | ->]; reflexivity.
Qed.

Lemma after_colon_split (tag : string) :
  (lacks ":" tag = true /\ after_colon tag = "")
  \/ exists head, lacks ":" head = true /\ tag = head ++ ":" ++ after_colon tag.
Proof.
  induction tag as [|c tag IH]; simpl.
  - left. split; reflexivity.
  - destruct (Ascii.eqb c ":") eqn:E.
    + right. exists "". apply Ascii.eqb_eq in E. subst c. split; reflexivity.
    + destruct IH as [[Hl He] | (head & Hl & Et)].
      * left. rewrite Hl. split; [reflexivity | exact He].
      * right. exists (String c head). simpl. rewrite E, Hl.
        split; [reflexivity|]. f_equal. exact Et.
Qed.

Lemma version_shape_not_empty (v : string) : version_shape v -> v <> "".
Proof.
  intros (a & b & c & suffix & tail & -> & Ha & _). destruct a; [congruence | discriminate].
Qed.

Lemma lacks_append (x : ascii) (a b : string) :
  lacks x (a ++ b) = lacks x a && lacks x b.
Proof. induction a as [|c a IH]; simpl; [reflexivity|]. rewrite IH, andb_assoc. reflexivity. Qed.

Lemma all_lacks (class : ascii -> bool) (x : ascii) (a : string) :
  class x = false -> all class a = true -> lacks x a = true.
Proof.
  intros Hx. induction a as [|c a IH]; simpl; [reflexivity|].
  intros H. apply andb_true_iff in H. destruct H as [Hc Ha].
  rewrite (IH Ha), andb_true_r. apply negb_true_iff, Ascii.eqb_neq.
  intros ->. congruence.
Qed.

(** A version holds digits, letters and dots, and at most a final newline. *)
Lemma version_shape_lacks (v : string) (x : ascii) :
  is_alnum x = false -> x <> "."%char -> x <> "010"%char ->
  version_shape v -> lacks x v = true.
Proof.
  intros Hx Hdot Hnl (a & b & c & suffix & tail & -> & _ & Da & _ & Db & _ & Dc & Ds & Ht).
  assert (is_digit x = false) as Hd.
  { destruct (is_digit x) eqn:E; [|reflexivity]. rewrite (digit_alnum x E) in Hx. discriminate. }
  assert (Ascii.eqb "." x = false) as Edot by (apply Ascii.eqb_neq; congruence).
  assert (Ascii.eqb "010" x = false) as Enl by (apply Ascii.eqb_neq; congruence).
  rewrite !lacks_append.
  rewrite (all_lacks is_digit x a Hd Da), (all_lacks is_digit x b Hd Db),
    (all_lacks is_digit x c Hd Dc), (all_lacks is_alnum x suffix Hx Ds).
  destruct Ht as [-> | ->]; unfold Fmt.nl; cbn [lacks]; rewrite Edot, ?Enl; reflexivity.
Qed.

End VersionFacts.

(** X1: [get_docker_image_version] answers with what follows the first
    colon of the first tag for which that is a version (digits, a dot,
    digits, a dot, digits, then letters and digits); it answers [None] when
    no tag has one. *)
Theorem get_docker_image_version_first_versioned_tag (m : WcEnvManager) (image : Image) :
  _docker_image m = Some image ->
  match get_docker_image_version m with
  | Ok (Some version) =>
      exists earlier tag later head,
        image_tags image = (earlier ++ tag :: later)%list
        /\ tag = head ++ ":" ++ version
        /\ lacks ":" head = true
        /\ Version.version_shape version
        /\ forall t, In t earlier -> ~ Version.version_shape (Version.after_colon t)
  | Ok None =>
      forall t, In t (image_tags image) -> ~ Version.version_shape (Version.after_colon t)
  | Raise _ => False
  end.
Proof.
  intros Hi. unfold get_docker_image_version. rewrite Hi.
  induction (image_tags image) as [|tag tags IH]; simpl.
  - intros t [].
  - destruct (Version.is_version (Version.after_colon tag)) eqn:E.
    + apply VersionFacts.is_version_shape in E.
      destruct (VersionFacts.after_colon_split tag) as [[_ He] | (head & Hl & Et)].
      * exfalso. rewrite He in E. exact (VersionFacts.version_shape_not_empty _ E eq_refl).
      * exists [], tag, tags, head. repeat split; try assumption. intros t [].
    + assert (~ Version.version_shape (Version.after_colon tag)) as Hn.
      { intros S. apply VersionFacts.is_version_shape in S. congruence. }
      destruct (first_version tags) as [version|].
      * destruct IH as (earlier & tag' & later & head & Et & Etag & Hl & Hs & Hearlier).
        exists (tag :: earlier), tag', later, head. rewrite Et.
        repeat split; try assumption.
        intros t [<- | Ht]; [exact Hn | apply Hearlier, Ht].
      * intros t [<- | Ht]; [exact Hn | apply IH, Ht].
Qed.

Lemma get_docker_image_version_first_versioned_tag_witness :
  let m := set__docker_image
             (Some {| image_id := "sha256:0";
                      image_tags := ["karrlab/wc_env:latest"; "karrlab/wc_env:0.0.20a";
                                     "karrlab/wc_env:0.0.19"] |})
             (Fixture.manager []) in
  get_docker_image_version m = Ok (Some "0.0.20a")
  /\ Version.version_shape "0.0.20a".
Proof.
  intros m.
  pose proof (get_docker_image_version_first_versioned_tag m _ eq_refl) as H.
  change (get_docker_image_version m) with (Ok (Some "0.0.20a")) in H.
  cbv iota in H. destruct H as (earlier & tag & later & head & _ & _ & _ & Hs & _).
  split; [reflexivity | exact Hs].
Defined.

(** X2: a tag whose part after the first colon holds a slash, as every tag
    of a registry addressed with a port does, is never taken for a version:
    for an image with such tags only the answer is [None]. *)
Theorem get_docker_image_version_registry_port (m : WcEnvManager) (image : Image) :
  _docker_image m = Some image ->
  (forall t, In t (image_tags image) -> lacks "/" (Version.after_colon t) = false) ->
  get_docker_image_version m = Ok None.
Proof.
  intros Hi Hslash. unfold get_docker_image_version. rewrite Hi. f_equal.
  induction (image_tags image) as [|tag tags IH]; simpl; [reflexivity|].
  destruct (Version.is_version (Version.after_colon tag)) eqn:E.
  - apply VersionFacts.is_version_shape in E.
    apply (VersionFacts.version_shape_lacks _ "/") in E;
      [|reflexivity | discriminate | discriminate].
    rewrite (Hslash tag (or_introl eq_refl)) in E. discriminate.
  - apply IH. intros t Ht. apply Hslash. right. exact Ht.
Qed.

Lemma get_docker_image_version_registry_port_witness :
  get_docker_image_version
    (set__docker_image
       (Some {| image_id := "sha256:0";
                image_tags := ["localhost:5000/wc_env:1.2.3"] |})
       (Fixture.manager []))
  = Ok None.
Proof.
  apply (get_docker_image_version_registry_port _
           {| image_id := "sha256:0"; image_tags := ["localhost:5000/wc_env:1.2.3"] |}).
  - reflexivity.
  - intros t [<- | []]. reflexivity.
Defined.

(* ================================================================== *)
(** ** More on path conversion *)

Section PathOutcomes.

Import Str posixpath PathForm PathFacts.

Variable rt : Runtime.

Lemma normpath_not_empty (p : string) : normpath p <> "".
Proof.
  unfold normpath. destruct (String.eqb p ""); [discriminate|].
  cbv zeta. destruct (String.eqb _ "") eqn:E; [discriminate|].
  apply String.eqb_neq, E.
Qed.

Lemma abspath_not_empty (cwd p : string) : abspath cwd p <> "".
Proof. unfold abspath. destruct (isabs p); apply normpath_not_empty. Qed.

Lemma relpath_some (cwd path start : string) :
  path <> "" -> exists r, relpath cwd path start = Some r.
Proof.
  intros H. unfold relpath. rewrite (eqb_not_empty path H). cbv zeta.
  destruct (_ ++ _)%list; eexists; reflexivity.
Qed.

Lemma convert_host_loop_outcome (H : string) (M : list (string * mount_attrs)) :
  H <> "" ->
  match convert_host_loop rt H M with
  | Ok container_path =>
      exists M1 k a M2 r,
        M = (M1 ++ (k, a) :: M2)%list
        /\ (forall e, In e M1 -> startswith H (abspath (cwd rt) (fst e)) = false)
        /\ startswith H (abspath (cwd rt) k) = true
        /\ relpath (cwd rt) H (abspath (cwd rt) k) = Some r
        /\ container_path = join (bind a) [r]
  | Raise e =>
      e = WcEnvManagerError (H ++ " is not mounted into the container")
      /\ forall e', In e' M -> startswith H (abspath (cwd rt) (fst e')) = false
  end.
Proof.
  intros Hne. induction M as [|[k a] M IH]; simpl.
  - split; [reflexivity | intros e' []].
  - destruct (startswith H (abspath (cwd rt) k)) eqn:E.
    + destruct (relpath_some (cwd rt) H (abspath (cwd rt) k) Hne) as [r Er].
      rewrite Er. exists [], k, a, M, r.
      repeat split; try assumption. intros e [].
    + destruct (convert_host_loop rt H M) as [p|e].
      * destruct IH as (M1 & k' & a' & M2 & r & -> & Hearlier & Hhere & Hr & ->).
        exists ((k, a) :: M1), k', a', M2, r.
        repeat split; try assumption.
        intros e [<- | He]; [exact E | apply Hearlier, He].
      * destruct IH as [-> Hall]. split; [reflexivity|].
        intros e' [<- | He]; [exact E | apply Hall, He].
Qed.

(** X3: [convert_host_to_container_path] raises nothing but the
    not-mounted error, and raises it exactly when the resolved host path
    starts with the resolved host path of no entry; otherwise it answers
    from the first entry that it starts with: the container path of that
    entry joined with the path relative to its mount point. *)
Theorem convert_host_to_container_path_outcome (m : WcEnvManager) (host_path : string) :
  let H := abspath (cwd rt) host_path in
  match convert_host_to_container_path rt m host_path with
  | Ok container_path =>
      exists M1 k a M2 r,
        paths_to_mount_to_docker_container m = (M1 ++ (k, a) :: M2)%list
        /\ (forall e, In e M1 -> startswith H (abspath (cwd rt) (fst e)) = false)
        /\ startswith H (abspath (cwd rt) k) = true
        /\ relpath (cwd rt) H (abspath (cwd rt) k) = Some r
        /\ container_path = join (bind a) [r]
  | Raise e =>
      e = WcEnvManagerError (H ++ " is not mounted into the container")
      /\ forall e', In e' (paths_to_mount_to_docker_container m) ->
                    startswith H (abspath (cwd rt) (fst e')) = false
  end.
Proof.
  intros H. unfold convert_host_to_container_path. fold H.
  apply convert_host_loop_outcome. apply abspath_not_empty.
Qed.

(** X4: [convert_container_to_host_path] answers from the first entry
    whose container path the given path starts with: when the given path
    resolves to what this container path resolves to, joined with a
    relative rest, the answer is the entry's host path, as the mount table
    writes it, joined with the same rest. *)
Theorem convert_container_to_host_path_first_match
        (m : WcEnvManager) (container_path : string)
        (M1 M2 : list (string * mount_attrs)) (k : string) (a : mount_attrs)
        (rest : string) :
  isabs (cwd rt) = true ->
  paths_to_mount_to_docker_container m = (M1 ++ (k, a) :: M2)%list ->
  (forall e, In e M1 -> startswith container_path (bind (snd e)) = false) ->
  startswith container_path (bind a) = true ->
  rest <> "" -> isabs rest = false ->
  abspath (cwd rt) container_path = join (abspath (cwd rt) (bind a)) [rest] ->
  convert_container_to_host_path rt m container_path = Ok (join k [rest]).
Proof.
  intros Hcwd HM Hearlier Hhere Hrest Hrel E.
  unfold convert_container_to_host_path. rewrite HM.
  apply convert_container_loop_below.
  - exact Hcwd.
  - exact Hearlier.
  - exact Hhere.
  - exact Hrest.
  - exact Hrel.
  - exact E.
Qed.

End PathOutcomes.

Lemma convert_host_to_container_path_outcome_witness :
  convert_host_to_container_path Fixture.quiet
    (Fixture.manager [("/a", Fixture.rw "/c")]) "../data"
  = Raise (WcEnvManagerError "/data is not mounted into the container").
Proof.
  pose proof (convert_host_to_container_path_outcome Fixture.quiet
                (Fixture.manager [("/a", Fixture.rw "/c")]) "../data") as H.
  cbv zeta in H.
  destruct (convert_host_to_container_path Fixture.quiet
              (Fixture.manager [("/a", Fixture.rw "/c")]) "../data") as [p|e] eqn:E.
  - discriminate E.
  - destruct H as [-> _]. reflexivity.
Defined.

Lemma convert_container_to_host_path_first_match_witness :
  convert_container_to_host_path Fixture.quiet
    (Fixture.manager [("/x", Fixture.rw "/cx"); ("data", Fixture.rw "/c/")])
    "/c/lib/../b/file"
  = Ok "data/b/file".
Proof.
  apply (convert_container_to_host_path_first_match Fixture.quiet _ _
           [("/x", Fixture.rw "/cx")] [] "data" (Fixture.rw "/c/") "b/file").
  - reflexivity.
  - reflexivity.
  - intros e [<- | []]. reflexivity.
  - reflexivity.
  - discriminate.
  - reflexivity.
  - reflexivity.
Defined.

(* ================================================================== *)
(** ** More on the containers of the environment *)

Section ManagedContainers.

Variable rt : Runtime.

Lemma read_times_length (t : list call) (cs : list Container) :
  List.length (read_times rt t cs) = List.length cs.
Proof.
  revert t. induction cs as [|c cs IH]; intros t; simpl; [reflexivity|].
  rewrite IH. reflexivity.
Qed.

Lemma map_snd_combine {A B} (l : list A) (l' : list B) :
  List.length l = List.length l' -> map snd (combine l l') = l'.
Proof.
  revert l'. induction l as [|x l IH]; intros [|y l'] H; simpl in *; try discriminate.
  - reflexivity.
  - rewrite IH by lia. reflexivity.
Qed.

Lemma get_docker_containers_listed (s : State) :
  let t1 := (trace s ++ [containers_list true])%list in
  get_docker_containers rt false s
  = (Ok (filter (is_managed rt (self s)) (list_result rt t1)),
     {| self := self s; trace := t1; stdout := stdout s |}).
Proof. reflexivity. Qed.

(** X5: [get_docker_containers] answers with the containers of the
    listing whose name parses against the name format, in the order of
    the listing and at the cost of the listing alone; when asked to sort,
    it answers with the same containers in another order, and changes
    nothing of the session. *)
Theorem get_docker_containers_same_containers (s : State) :
  let t1 := (trace s ++ [containers_list true])%list in
  let managed := filter (is_managed rt (self s)) (list_result rt t1) in
  get_docker_containers rt false s
  = (Ok managed, {| self := self s; trace := t1; stdout := stdout s |})
  /\ Forall (fun c => In c (list_result rt t1)
                      /\ strptime rt (container_name c)
                                  (docker_container_name_format (self s)) <> None) managed
  /\ let (r, s') := get_docker_containers rt true s in
     exists sorted,
       r = Ok sorted /\ Permutation sorted managed
       /\ self s' = self s /\ stdout s' = stdout s.
Proof.
  intros t1 managed. split; [reflexivity|]. split.
  - apply Forall_forall. intros c Hc. unfold managed in Hc.
    apply filter_In in Hc. destruct Hc as [Hin Hm]. split; [exact Hin|].
    unfold is_managed in Hm. destruct (strptime rt _ _); [discriminate | discriminate Hm].
  - rewrite get_docker_containers_sorted. fold t1. fold managed.
    eexists. split; [reflexivity|]. split; [|split; reflexivity].
    eapply perm_trans; [apply Permutation_map, sort_reverse_perm|].
    rewrite map_snd_combine by apply read_times_length. apply Permutation_refl.
Qed.

(** X6: among the managed containers with the greatest read time the one
    that the runtime lists first is the latest. *)
Theorem get_latest_docker_container_first_listed
        (s : State) (before after : list (Z * Container)) (read : Z) (c : Container) :
  let t1 := (trace s ++ [containers_list true])%list in
  let managed := filter (is_managed rt (self s)) (list_result rt t1) in
  combine (read_times rt t1 managed) managed = (before ++ (read, c) :: after)%list ->
  (forall y, In y before -> (fst y < read)%Z) ->
  (forall y, In y after -> (fst y <= read)%Z) ->
  fst (get_latest_docker_container rt s) = Ok (Some c).
Proof.
  intros t1 managed E Hbefore Hafter.
  unfold get_latest_docker_container, mbind.
  rewrite get_docker_containers_sorted. fold t1. fold managed. rewrite E.
  pose proof (sort_reverse_first_greatest before after (read, c) Hbefore Hafter) as Hh.
  destruct (sort_reverse (before ++ (read, c) :: after)) as [|x rest]; [discriminate Hh|].
  injection Hh as ->. reflexivity.
Qed.

End ManagedContainers.

Lemma get_docker_containers_same_containers_witness :
  fst (get_docker_containers Fixture.two_managed false (Fixture.start (Fixture.manager [])))
  = Ok [Fixture.A; Fixture.B]
  /\ fst (get_docker_containers Fixture.two_managed true (Fixture.start (Fixture.manager [])))
     = Ok [Fixture.B; Fixture.A].
Proof.
  destruct (get_docker_containers_same_containers Fixture.two_managed
              (Fixture.start (Fixture.manager []))) as (H1 & _ & _).
  split; [rewrite H1; reflexivity | reflexivity].
Defined.

(** Read at the same time, [A], listed first, is the latest. *)
Lemma get_latest_docker_container_first_listed_witness :
  let rt := Fixture.world [Fixture.A; Fixture.other; Fixture.B]
                          (fun _ => ("", 0%Z)) (fun _ => "2018-09-02T10:00:00Z")
                          (fun _ => 36000%Z) (fun _ => false) Fixture.built in
  fst (get_latest_docker_container rt (Fixture.start (Fixture.manager [])))
  = Ok (Some Fixture.A).
Proof.
  intros rt.
  apply (get_latest_docker_container_first_listed rt (Fixture.start (Fixture.manager []))
           [] [(36000%Z, Fixture.B)] 36000%Z Fixture.A).
  - reflexivity.
  - intros y [].
  - intros y [<- | []]. simpl. lia.
Defined.

(* ================================================================== *)
(** ** More on commands, the image build and the setup *)

Section MoreSteps.

Variable rt : Runtime.

(** X7: a checked command that exits with another code than 0 raises an
    error that reports the working directory, the exit code and the
    output; the working directory is the one given or, when none was
    given, the answer of the container to [pwd], asked with one more
    command. *)
Theorem run_process_in_docker_container_reports_failure
        (s : State) (c : Container) (cmd : command) (work_dir : option string)
        (env : option (list (string * string))) (user : WcEnvUser) :
  _docker_container (self s) = Some c ->
  let env' := match env with Some ((_ :: _) as e) => e | _ => [] end in
  let t1 := (trace s ++ [exec_run c cmd work_dir (Some env') (WcEnvUser_.name user)])%list in
  let out := exec_result rt t1 in
  snd out <> 0%Z ->
  let asked := exec_run c (CmdStr "pwd") None None (WcEnvUser_.name user) in
  let t2 := match work_dir with
            | Some (String _ _) => t1
            | _ => (t1 ++ [asked])%list
            end in
  let dir := match work_dir with
             | Some ((String _ _) as w) => w
             | _ => Str.drop_last (fst (exec_result rt (t1 ++ [asked])))
             end in
  let (r, s') := run_process_in_docker_container rt cmd work_dir env true user s in
  trace s' = t2
  /\ self s' = self s
  /\ exists before after,
       r = Raise (WcEnvManagerError
                    (before ++ "  working directory: " ++ dir ++ Fmt.nl
                     ++ after ++ "  exit code: " ++ Str.of_Z (snd out) ++ Fmt.nl
                     ++ "  output: " ++ fst out)).
Proof.
  intros Hc env' t1 out Hexit asked t2 dir.
  unfold run_process_in_docker_container, the_container. mrun.
  rewrite Hc. mrun. fold env'. fold t1. fold out.
  apply Z.eqb_neq in Hexit.
  assert (forall wd : string,
             exists before after,
               @Raise (string * Z)
                 (WcEnvManagerError
                    ("Command not successfully executed in Docker container:" ++ Fmt.nl
                     ++ "  command: " ++ Fmt.command cmd ++ Fmt.nl
                     ++ "  working directory: " ++ wd ++ Fmt.nl
                     ++ "  environment:" ++ Fmt.nl ++ "    "
                     ++ String.concat (Fmt.nl ++ "    ")
                          (map (fun kv => fst kv ++ ": " ++ snd kv) env') ++ Fmt.nl
                     ++ "  exit code: " ++ Str.of_Z (snd out) ++ Fmt.nl
                     ++ "  output: " ++ fst out))
               = Raise (WcEnvManagerError
                          (before ++ "  working directory: " ++ wd ++ Fmt.nl
                           ++ after ++ "  exit code: " ++ Str.of_Z (snd out) ++ Fmt.nl
                           ++ "  output: " ++ fst out))) as Hmsg.
  { intros wd.
    exists ("Command not successfully executed in Docker container:" ++ Fmt.nl
            ++ "  command: " ++ Fmt.command cmd ++ Fmt.nl),
           ("  environment:" ++ Fmt.nl ++ "    "
            ++ String.concat (Fmt.nl ++ "    ")
                 (map (fun kv => fst kv ++ ": " ++ snd kv) env') ++ Fmt.nl).
    rewrite !PathFacts.append_assoc. reflexivity. }
  destruct (verbose (self s)) eqn:V; mrun; rewrite Hexit; cbn [andb negb];
    destruct work_dir as [[|x w]|]; mrun; rewrite ?Hc; mrun;
    (split; [reflexivity|]; split; [reflexivity|]; apply Hmsg).
Qed.

(** *** The image build *)

Lemma for_each_calls {A} (l : list A) (body : A -> M unit) (c : A -> call) :
  (forall x s, body x s
               = (Ok tt, {| self := self s; trace := (trace s ++ [c x])%list;
                            stdout := stdout s |})) ->
  forall s,
    for_each l body s
    = (Ok tt, {| self := self s; trace := (trace s ++ map c l)%list;
                 stdout := stdout s |}).
Proof.
  intros Hbody. induction l as [|x l IH]; intros s.
  - simpl. unfold ret. rewrite app_nil_r. destruct s; reflexivity.
  - rewrite for_each_cons, Hbody, IH. cbn [self trace stdout].
    rewrite <- app_assoc. reflexivity.
Qed.

Lemma for_each_prints {A} (l : list A) (body : A -> M unit) :
  (forall x s, exists lines,
      body x s = (Ok tt, {| self := self s; trace := trace s;
                            stdout := (stdout s ++ lines)%list |})) ->
  forall s, exists lines,
    for_each l body s
    = (Ok tt, {| self := self s; trace := trace s; stdout := (stdout s ++ lines)%list |}).
Proof.
  intros Hbody. induction l as [|x l IH]; intros s.
  - exists []. simpl. unfold ret. rewrite app_nil_r. destruct s; reflexivity.
  - rewrite for_each_cons. destruct (Hbody x s) as [l1 ->].
    destruct (IH {| self := self s; trace := trace s; stdout := (stdout s ++ l1)%list |})
      as [l2 ->].
    exists (l1 ++ l2)%list. cbn [self trace stdout]. rewrite app_assoc. reflexivity.
Qed.

(** X8: a build that succeeds tags the image it built with every tag of the
    configuration, then gets the image of the first tag again and keeps
    that image, the one it got and not the one it built, as the image of
    the session; when getting it fails, the image of the session is left
    as it was. *)
Theorem build_base_docker_image_keeps_refetched
        (s : State) (image : Image) (log : list log_entry)
        (tag0 : string) (more : list string) :
  let m := self s in
  let t1 := (trace s ++ [os_path_isdir (docker_image_context_path m)])%list in
  let t2 := (t1 ++ [open_ (dockerfile_path m) "rb"])%list in
  let t3 := (t2 ++ [images_build (docker_image_context_path m) (dockerfile_path m)
                                 true (docker_image_build_args m)])%list in
  let t4 := (t3 ++ file_close (dockerfile_path m)
                :: map (image_tag image (base_docker_image_repo m)) (tag0 :: more)
                ++ [images_get (base_docker_image_repo m ++ ":" ++ tag0)])%list in
  isdir rt t1 = true -> open_result rt t2 = Ok tt ->
  build_result rt t3 = inr (image, log) ->
  base_docker_image_tags m = tag0 :: more ->
  let (r, s') := build_base_docker_image rt s in
  trace s' = t4
  /\ match get_result rt t4 with
     | Ok refetched => r = Ok refetched /\ _docker_image (self s') = Some refetched
     | Raise e => r = Raise e /\ self s' = self s
     end.
Proof.
  intros m t1 t2 t3 t4 Hdir Hopen Hbuild Htags.
  unfold build_base_docker_image.
  unfold mbind at 1. unfold get_self at 1. fold m.
  assert (exists out0,
             when (verbose m)
                  (print ("Building base image " ++ base_docker_image_repo m
                          ++ " with tags {" ++ String.concat ", " (base_docker_image_tags m)
                          ++ "} ..." ++ Fmt.nl)) s
             = (Ok tt, {| self := m; trace := trace s; stdout := out0 |})) as [out0 E0].
  { destruct (verbose m); unfold when, print, ret; [eexists; reflexivity|].
    exists (stdout s). destruct s; reflexivity. }
  unfold mbind at 1. rewrite E0.
  unfold mbind at 1. unfold perform at 1. cbn [self trace stdout]. fold t1.
  rewrite Hdir. cbn [negb].
  unfold mbind at 1. unfold perform at 1. cbn [self trace stdout]. fold t2.
  unfold mbind at 1. unfold lift at 1. rewrite Hopen.
  unfold mbind at 1. unfold perform at 1. cbn [self trace stdout]. fold t3.
  unfold mbind at 1. unfold perform at 1. cbn [self trace stdout].
  rewrite Hbuild, Htags.
  unfold mbind at 1.
  rewrite (for_each_calls (tag0 :: more) _ (image_tag image (base_docker_image_repo m)))
    by reflexivity.
  cbn [self trace stdout].
  unfold mbind at 1. unfold perform at 1. cbn [self trace stdout].
  replace ((((t3 ++ [file_close (dockerfile_path m)])
             ++ map (image_tag image (base_docker_image_repo m)) (tag0 :: more))
            ++ [images_get (base_docker_image_repo m ++ ":" ++ tag0)])%list) with t4
    by (unfold t4; rewrite <- !app_assoc; reflexivity).
  unfold mbind at 1. unfold lift at 1.
  destruct (get_result rt t4) as [refetched|e]; [|split; [reflexivity | split; reflexivity]].
  assert (exists out1,
             when (verbose m)
                  (for_each log (fun entry =>
                     match stream entry, log_id entry, status entry with
                     | Some text, _, _ => print text
                     | None, Some i, Some st => print (i ++ ": " ++ st ++ Fmt.nl)
                     | _, _, _ => ret tt
                     end))
                  {| self := m; trace := t4; stdout := out0 |}
             = (Ok tt, {| self := m; trace := t4; stdout := out1 |})) as [out1 E1].
  { destruct (verbose m); unfold when; [|eexists; reflexivity].
    edestruct (for_each_prints log) as [lines ->]; [|eexists; reflexivity].
    intros entry st. cbv beta. unfold print.
    destruct (stream entry) as [text|]; [eexists; reflexivity|].
    destruct (log_id entry) as [i|]; [|exists []; unfold ret; rewrite app_nil_r; destruct st; reflexivity].
    destruct (status entry) as [x|]; [eexists; reflexivity|].
    exists []. unfold ret. rewrite app_nil_r. destruct st; reflexivity. }
  unfold mbind at 1. rewrite E1.
  unfold mbind, get_self, put_self, ret. cbn [self trace stdout].
  split; [reflexivity|]. split; reflexivity.
Qed.

(** X9: with an empty list of tags the image is built all the same, and
    then the method fails with an [IndexError]; the image of the session
    is left as it was. *)
Theorem build_base_docker_image_without_tags
        (s : State) (image : Image) (log : list log_entry) :
  let m := self s in
  let t1 := (trace s ++ [os_path_isdir (docker_image_context_path m)])%list in
  let t2 := (t1 ++ [open_ (dockerfile_path m) "rb"])%list in
  let t3 := (t2 ++ [images_build (docker_image_context_path m) (dockerfile_path m)
                                 true (docker_image_build_args m)])%list in
  isdir rt t1 = true -> open_result rt t2 = Ok tt ->
  build_result rt t3 = inr (image, log) ->
  base_docker_image_tags m = [] ->
  let (r, s') := build_base_docker_image rt s in
  r = Raise (IndexError "list index out of range")
  /\ trace s' = (t3 ++ [file_close (dockerfile_path m)])%list
  /\ self s' = self s.
Proof.
  intros m t1 t2 t3 Hdir Hopen Hbuild Htags.
  unfold build_base_docker_image. mrun. fold m.
  destruct (verbose m) eqn:V; mrun; fold t1; rewrite Hdir; cbn [negb]; mrun;
    fold m; fold t2; rewrite Hopen; mrun; fold t3; rewrite Hbuild; mrun;
    rewrite Htags; mrun; repeat split; reflexivity.
Qed.

(** X10: when the context of the image is not a directory the method
    raises at once: no file is opened and nothing is built. *)
Theorem build_base_docker_image_needs_directory (s : State) :
  let m := self s in
  let t1 := (trace s ++ [os_path_isdir (docker_image_context_path m)])%list in
  isdir rt t1 = false ->
  let (r, s') := build_base_docker_image rt s in
  r = Raise (WcEnvManagerError ("Docker image context " ++ Str.dq
                                ++ docker_image_context_path m
                                ++ Str.dq ++ " must be a directory"))
  /\ trace s' = t1
  /\ self s' = self s.
Proof.
  intros m t1 Hdir.
  unfold build_base_docker_image. mrun. fold m.
  destruct (verbose m) eqn:V; mrun; fold t1; rewrite Hdir; cbn [negb]; mrun;
    repeat split; reflexivity.
Qed.

(** *** The configuration files *)

(** X11: when the host has no directory [.wc] in the home directory,
    [copy_config_files_to_docker_container] returns after it has asked
    the container for its home directory and the host for the directory:
    nothing is copied. *)
Theorem copy_config_files_to_docker_container_without_host_directory
        (s : State) (c : Container) (overwrite : bool) :
  _docker_container (self s) = Some c ->
  let asked := exec_run c (CmdStr ("bash -c " ++ Str.dq ++ "realpath ~" ++ Str.dq))
                        None (Some []) (WcEnvUser_.name root) in
  let t1 := (trace s ++ [asked])%list in
  let t2 := (t1 ++ [os_path_isdir
                      (posixpath.expanduser (home rt) (getpwnam rt) "~/.wc")])%list in
  snd (exec_result rt t1) = 0%Z ->
  isdir rt t2 = false ->
  let (r, s') := copy_config_files_to_docker_container rt overwrite s in
  r = Ok tt /\ trace s' = t2 /\ copy_actions (trace s') = copy_actions (trace s).
Proof.
  intros Hc asked t1 t2 Hexit Hdir.
  unfold copy_config_files_to_docker_container.
  unfold mbind at 1.
  rewrite (run_process_in_docker_container_returns rt s c _ None None true root Hc
             (or_intror Hexit)).
  fold asked. fold t1. cbv beta iota.
  unfold mbind at 1. unfold perform at 1. cbn [self trace stdout].
  change (posixpath.join "~" [".wc"]) with "~/.wc". fold t2. rewrite Hdir.
  unfold ret. split; [reflexivity|]. split; [reflexivity|].
  cbn [trace]. unfold t2, t1. rewrite !copy_actions_app. unfold copy_actions. simpl. lia.
Qed.

(** *** The assertion of the setup *)

Lemma never_asserts_ret {A} (a : A) : never_asserts (ret a).
Proof. intros s. discriminate. Qed.

Lemma never_asserts_raise {A} (e : exn) : e <> AssertionError -> never_asserts (@raise A e).
Proof. intros H s E. injection E as E. exact (H E). Qed.

Lemma never_asserts_perform {R} (c : call) (answer : list call -> R) :
  never_asserts (perform c answer).
Proof. intros s. discriminate. Qed.

Lemma never_asserts_get_self : never_asserts get_self.
Proof. intros s. discriminate. Qed.

Lemma never_asserts_bind {A B} (m : M A) (k : A -> M B) :
  never_asserts m -> (forall a, never_asserts (k a)) -> never_asserts (mbind m k).
Proof.
  intros Hm Hk s. unfold mbind. specialize (Hm s).
  destruct (m s) as [[a|e] s1]; [apply Hk|].
  cbn [fst] in *. intros E. apply Hm. injection E as ->. reflexivity.
Qed.

Lemma never_asserts_when (b : bool) (m : M unit) : never_asserts m -> never_asserts (when b m).
Proof. intros H. destruct b; [exact H | apply never_asserts_ret]. Qed.

Lemma never_asserts_the_container (attr : string) : never_asserts (the_container attr).
Proof.
  unfold the_container. apply never_asserts_bind; [apply never_asserts_get_self|].
  intros m. destruct (_docker_container m);
    [apply never_asserts_ret | apply never_asserts_raise; discriminate].
Qed.

Lemma never_asserts_run_process_in_docker_container
      (cmd : command) (work_dir : option string)
      (env : option (list (string * string))) (check : bool) (user : WcEnvUser) :
  never_asserts (run_process_in_docker_container rt cmd work_dir env check user).
Proof.
  unfold run_process_in_docker_container.
  apply never_asserts_bind; [apply never_asserts_the_container|]. intros c.
  apply never_asserts_bind; [apply never_asserts_perform|]. intros result.
  apply never_asserts_bind; [apply never_asserts_get_self|]. intros m.
  apply never_asserts_bind.
  { apply never_asserts_when. intros s. discriminate. }
  intros _. destruct (check && negb (snd result =? 0)%Z); [|apply never_asserts_ret].
  apply never_asserts_bind; [|intros w; apply never_asserts_raise; discriminate].
  destruct work_dir as [[|x w]|]; try apply never_asserts_ret;
    (apply never_asserts_bind; [apply never_asserts_the_container|]; intros c2;
     apply never_asserts_bind; [apply never_asserts_perform|]; intros r2;
     apply never_asserts_ret).
Qed.

Lemma never_asserts_run_process_on_host (cmd : list string) :
  never_asserts (run_process_on_host rt cmd).
Proof.
  unfold run_process_on_host.
  apply never_asserts_bind; [apply never_asserts_get_self|]. intros m.
  apply never_asserts_bind; [apply never_asserts_perform|]. intros code.
  destruct (code =? 0)%Z; [apply never_asserts_ret | apply never_asserts_raise; discriminate].
Qed.

Lemma never_asserts_copy_path_to_docker_container
      (local_path container_path : string) (overwrite : bool) (user : WcEnvUser) :
  never_asserts (copy_path_to_docker_container rt local_path container_path overwrite user).
Proof.
  unfold copy_path_to_docker_container.
  apply never_asserts_bind; [apply never_asserts_run_process_in_docker_container|].
  intros [is_path code].
  destruct (negb (String.eqb is_path "") && negb overwrite);
    [apply never_asserts_raise; discriminate|].
  apply never_asserts_bind; [apply never_asserts_the_container|]. intros c.
  apply never_asserts_run_process_on_host.
Qed.

Lemma never_asserts_install_python_packages_in_docker_container
      (packages : string) (upgrade process_dependency_links : bool) :
  never_asserts (install_python_packages_in_docker_container rt packages upgrade
                                                             process_dependency_links).
Proof.
  unfold install_python_packages_in_docker_container.
  apply never_asserts_bind; [apply never_asserts_perform|]. intros [file name].
  apply never_asserts_bind; [apply never_asserts_perform|]. intros _.
  apply never_asserts_bind; [apply never_asserts_perform|]. intros _.
  apply never_asserts_bind; [apply never_asserts_run_process_in_docker_container|].
  intros [temp code].
  apply never_asserts_bind; [apply never_asserts_copy_path_to_docker_container|]. intros _.
  apply never_asserts_bind; [apply never_asserts_get_self|]. intros m.
  apply never_asserts_bind; [apply never_asserts_run_process_in_docker_container|]. intros _.
  apply never_asserts_bind; [apply never_asserts_perform|]. intros _.
  apply never_asserts_bind; [apply never_asserts_run_process_in_docker_container|]. intros _.
  apply never_asserts_ret.
Qed.

Lemma asserts_before_installs_never {A} (m : M A) :
  never_asserts m -> asserts_before_installs m.
Proof.
  intros H s. specialize (H s). destruct (m s) as [r s']. simpl in H.
  intros E. contradiction.
Qed.

Lemma asserts_before_installs_bind {A B} (m : M A) (k : A -> M B) :
  issues m [] -> (forall a, asserts_before_installs (k a)) ->
  asserts_before_installs (mbind m k).
Proof.
  intros Hm Hk s. unfold mbind. specialize (Hm s).
  destruct (m s) as [[a|e] s1].
  - destruct Hm as (done & E & ->). rewrite app_nil_r in E.
    specialize (Hk a s1). destruct (k a s1) as [r s2].
    intros Hr. rewrite (Hk Hr). exact E.
  - destruct Hm as (done & E & rest & Hrest). intros _.
    destruct done; [|discriminate Hrest]. rewrite app_nil_r in E. exact E.
Qed.

(** X12: a setup that fails its assertion on the access to GitHub has
    issued no package-install step. *)
Theorem setup_docker_container_asserts_before_installs (upgrade : bool) (s : State) :
  let (r, s') := setup_docker_container rt upgrade s in
  r = Raise AssertionError -> installs (trace s') = installs (trace s).
Proof.
  revert s. change (asserts_before_installs (setup_docker_container rt upgrade)).
  unfold setup_docker_container.
  apply asserts_before_installs_bind; [apply issues_get_self|]. intros m.
  apply asserts_before_installs_bind;
    [apply issues_copy_config_files_to_docker_container|]. intros _.
  apply asserts_before_installs_bind.
  { apply issues_for_each. intros path. apply issues_copy_path_to_docker_container. }
  intros _.
  apply asserts_before_installs_bind;
    [apply issues_install_github_ssh_host_in_docker_container|]. intros _.
  apply asserts_before_installs_bind;
    [apply issues_test_github_ssh_access_in_docker_container|]. intros ok.
  apply asserts_before_installs_bind;
    [destruct ok; [apply issues_ret | apply issues_raise]|]. intros _.
  apply asserts_before_installs_never.
  apply never_asserts_bind;
    [apply never_asserts_install_python_packages_in_docker_container|]. intros _.
  apply never_asserts_bind;
    [apply never_asserts_install_python_packages_in_docker_container|]. intros _.
  apply never_asserts_install_python_packages_in_docker_container.
Qed.

End MoreSteps.

Lemma run_process_in_docker_container_reports_failure_witness :
  let run := run_process_in_docker_container Scenario.command_not_found
               (CmdStr "nope") None None true root
               (Fixture.running (Fixture.manager [])) in
  trace (snd run)
  = [exec_run Fixture.c0 (CmdStr "nope") None (Some []) "root";
     exec_run Fixture.c0 (CmdStr "pwd") None None "root"]
  /\ raised_class (fst run) = Some "WcEnvManagerError".
Proof.
  intros run.
  pose proof (run_process_in_docker_container_reports_failure Scenario.command_not_found
                (Fixture.running (Fixture.manager [])) Fixture.c0
                (CmdStr "nope") None None root eq_refl
                ltac:(vm_compute; discriminate)) as H.
  fold run in H. destruct run as [r s']. cbn [fst snd].
  destruct H as (Ht & _ & before & after & ->).
  split; [exact Ht | reflexivity].
Defined.

Lemma build_base_docker_image_keeps_refetched_witness :
  _docker_image
    (self (snd (build_base_docker_image Scenario.buildable
                  (Fixture.start (Fixture.manager [])))))
  = Some {| image_id := "sha256:0";
            image_tags := ["karrlab/wc_env_dependencies:latest"] |}.
Proof.
  pose proof (build_base_docker_image_keeps_refetched Scenario.buildable
                (Fixture.start (Fixture.manager []))
                {| image_id := "sha256:0"; image_tags := [] |} [] "latest" ["0.0.1"]
                eq_refl eq_refl eq_refl eq_refl) as H.
  vm_compute in H. destruct H as (_ & _ & H). exact H.
Defined.

Lemma build_base_docker_image_without_tags_witness :
  let run := build_base_docker_image Scenario.buildable (Fixture.start Scenario.untagged) in
  fst run = Raise (IndexError "list index out of range")
  /\ _docker_image (self (snd run)) = None.
Proof.
  intros run.
  pose proof (build_base_docker_image_without_tags Scenario.buildable
                (Fixture.start Scenario.untagged)
                {| image_id := "sha256:0"; image_tags := [] |} []
                eq_refl eq_refl eq_refl eq_refl) as H.
  fold run in H. destruct run as [r s']. cbn [fst snd].
  destruct H as (-> & _ & ->). split; reflexivity.
Defined.

Lemma build_base_docker_image_needs_directory_witness :
  trace (snd (build_base_docker_image Fixture.quiet (Fixture.start (Fixture.manager []))))
  = [os_path_isdir "/repo"].
Proof.
  pose proof (build_base_docker_image_needs_directory Fixture.quiet
                (Fixture.start (Fixture.manager [])) eq_refl) as H.
  vm_compute in H. destruct H as (_ & H & _). exact H.
Defined.

Lemma copy_config_files_to_docker_container_without_host_directory_witness :
  let run := copy_config_files_to_docker_container Fixture.provisioning false
               (Fixture.running (Fixture.manager [])) in
  fst run = Ok tt /\ copy_actions (trace (snd run)) = 0.
Proof.
  intros run.
  pose proof (copy_config_files_to_docker_container_without_host_directory
                Fixture.provisioning (Fixture.running (Fixture.manager []))
                Fixture.c0 false eq_refl eq_refl eq_refl) as H.
  fold run in H. destruct run as [r s']. cbn [fst snd].
  destruct H as (-> & _ & ->). split; reflexivity.
Defined.

Lemma setup_docker_container_asserts_before_installs_witness :
  let run := setup_docker_container Fixture.quiet false
               (Fixture.running (Fixture.manager [])) in
  fst run = Raise AssertionError /\ installs (trace (snd run)) = [].
Proof.
  intros run.
  pose proof (setup_docker_container_asserts_before_installs Fixture.quiet false
                (Fixture.running (Fixture.manager []))) as H.
  fold run in H.
  assert (fst run = Raise AssertionError) as E by (vm_compute; reflexivity).
  destruct run as [r s']. cbn [fst snd] in *. split; [exact E|].
  rewrite (H E). reflexivity.
Defined.

(* ================================================================== *)
(** ** The life of images and containers *)

Section LifecycleFacts.

Variable rt : Runtime.
Variable cl : Client.

#[local] Open Scope op_scope.

(** A method that only adds [new] to the trace adds it to the history. *)
Lemma core_appends {A} (m : M A) (ss : Session) (r : Res A) (s' : State) (new : list call) :
  m (state ss) = (r, s') ->
  trace s' = (trace (state ss) ++ new)%list ->
  core m ss = (r, {| state := s'; history := (history ss ++ map inl new)%list |}).
Proof.
  intros E Ht. unfold core. rewrite E, Ht, PathFacts.skipn_length_app. reflexivity.
Qed.

Lemma core_quiet {A} (m : M A) (ss : Session) (r : Res A) (s' : State) :
  m (state ss) = (r, s') ->
  trace s' = trace (state ss) ->
  core m ss = (r, {| state := s'; history := history ss |}).
Proof.
  intros E Ht. rewrite (core_appends m ss r s' []) by (rewrite ?app_nil_r; assumption).
  simpl. rewrite app_nil_r. reflexivity.
Qed.

Lemma core_get_self (ss : Session) : core get_self ss = (Ok (self (state ss)), ss).
Proof.
  rewrite (core_quiet get_self ss (Ok (self (state ss))) (state ss)) by reflexivity.
  destruct ss; reflexivity.
Qed.

Lemma core_put_self (m : WcEnvManager) (ss : Session) :
  core (put_self m) ss
  = (Ok tt, {| state := {| self := m; trace := trace (state ss);
                           stdout := stdout (state ss) |};
               history := history ss |}).
Proof. apply core_quiet; reflexivity. Qed.

Lemma core_the_container (attr : string) (ss : Session) :
  core (the_container attr) ss
  = (match _docker_container (self (state ss)) with
     | Some c => Ok c
     | None => Raise (AttributeError ("'NoneType' object has no attribute '" ++ attr ++ "'"))
     end, ss).
Proof.
  assert (the_container attr (state ss)
          = (match _docker_container (self (state ss)) with
             | Some c => Ok c
             | None => Raise (AttributeError
                                ("'NoneType' object has no attribute '" ++ attr ++ "'"))
             end, state ss)) as E.
  { unfold the_container. mrun. destruct (_docker_container (self (state ss))); reflexivity. }
  rewrite (core_quiet _ ss _ _ E) by reflexivity. destruct ss; reflexivity.
Qed.

(** A loop of requests makes them in order and stops at the first one
    that is refused. *)
Lemma op_for_each_requests {A} (l : list A) (c : A -> client_call)
      (answer : list event -> Res unit) (ss : Session) :
  let (r, ss') := op_for_each l (fun x => request (c x) answer) ss in
  exists attempted,
    history ss' = (history ss ++ map (fun x => inr (c x)) attempted)%list
    /\ state ss' = state ss
    /\ match r with
       | Ok _ => attempted = l
       | Raise e => (exists rest, l = (attempted ++ rest)%list)
                    /\ attempted <> [] /\ answer (history ss') = Raise e
       end.
Proof.
  revert ss. induction l as [|x l IH]; intros ss.
  - exists []. simpl. rewrite app_nil_r. repeat split.
  - simpl op_for_each. unfold op_bind at 1. unfold request at 1.
    destruct (answer (history ss ++ [inr (c x)])%list) as [[]|e] eqn:Ea.
    + specialize (IH {| state := state ss; history := (history ss ++ [inr (c x)])%list |}).
      destruct (op_for_each l _ _) as [r ss'].
      destruct IH as (attempted & Hh & Hs & Hr). exists (x :: attempted).
      cbn [state history] in Hh, Hs.
      split; [rewrite Hh, <- app_assoc; reflexivity|].
      split; [exact Hs|]. destruct r as [[]|e].
      * rewrite Hr. reflexivity.
      * destruct Hr as ((rest & ->) & _ & Hr). split; [exists rest; reflexivity|].
        split; [discriminate | exact Hr].
    + exists [x]. cbn [state history map]. split; [reflexivity|]. split; [reflexivity|].
      split; [exists l; reflexivity|]. split; [discriminate | exact Ea].
Qed.

(** X13: [remove_docker_containers] lists the containers once and removes,
    in the order of the listing and each with the [force] it was given,
    the listed containers whose name parses against the name format; it
    stops at the first removal that fails.  It forgets the current
    container when all removals succeeded, and keeps it otherwise. *)
Theorem remove_docker_containers_removes_managed (force : bool) (ss : Session) :
  let s := state ss in
  let t1 := (trace s ++ [containers_list true])%list in
  let managed := filter (is_managed rt (self s)) (list_result rt t1) in
  let (r, ss') := remove_docker_containers rt cl force ss in
  exists attempted,
    history ss'
    = (history ss ++ inl (containers_list true)
         :: map (fun c => inr (container_remove c force)) attempted)%list
    /\ trace (state ss') = t1
    /\ match r with
       | Ok _ => attempted = managed
                 /\ self (state ss') = set__docker_container None (self s)
       | Raise e => (exists rest, managed = (attempted ++ rest)%list)
                    /\ attempted <> []
                    /\ container_remove_result cl (history ss') = Raise e
                    /\ self (state ss') = self s
       end.
Proof.
  intros s t1 managed. unfold remove_docker_containers.
  unfold op_bind at 1.
  rewrite (core_appends _ ss _ _ [containers_list true]
             (get_docker_containers_listed rt (state ss)) eq_refl).
  fold s. fold t1. fold managed. cbn [map].
  unfold op_bind at 1.
  pose proof (op_for_each_requests managed (fun c => container_remove c force)
                (container_remove_result cl)
                {| state := {| self := self s; trace := t1; stdout := stdout s |};
                   history := (history ss ++ [inl (containers_list true)])%list |}) as H.
  destruct (op_for_each managed _ _) as [[[]|e] ss1];
    destruct H as (attempted & Hh & Hs & Hr); cbn [state history] in Hh, Hs.
  - unfold op_bind at 1. rewrite core_get_self, core_put_self.
    exists attempted. cbn [state history].
    split; [rewrite Hh, <- app_assoc; reflexivity|].
    rewrite Hs. cbn [self trace]. repeat split. exact Hr.
  - exists attempted. split; [rewrite Hh, <- app_assoc; reflexivity|].
    rewrite Hs. cbn [self trace]. split; [reflexivity|].
    destruct Hr as (Hrest & Hne & Ha).
    split; [exact Hrest|]. split; [exact Hne|]. split; [exact Ha | reflexivity].
Qed.


Lemma remove_docker_container_run (force : bool) (ss : Session) (c : Container) :
  _docker_container (self (state ss)) = Some c ->
  let h := (history ss ++ [inr (container_remove c force)])%list in
  remove_docker_container cl force ss
  = match container_remove_result cl h with
    | Ok _ => (Ok tt,
               {| state := {| self := set__docker_container None (self (state ss));
                              trace := trace (state ss);
                              stdout := stdout (state ss) |};
                  history := h |})
    | Raise e => (Raise e, {| state := state ss; history := h |})
    end.
Proof.
  intros Hc h. unfold remove_docker_container.
  unfold op_bind at 1. rewrite core_the_container, Hc.
  unfold op_bind at 1. unfold request at 1. fold h.
  destruct (container_remove_result cl h) as [[]|e]; [|reflexivity].
  unfold op_bind at 1. rewrite core_get_self, core_put_self. reflexivity.
Qed.

(** X14: [remove_docker_container] removes the current container with the
    [force] it was given and forgets it when the removal succeeded; a
    removal that fails leaves it the current container; without a current
    container the method raises before any call. *)
Theorem remove_docker_container_forgets_on_success (force : bool) (ss : Session) :
  let (r, ss') := remove_docker_container cl force ss in
  match _docker_container (self (state ss)) with
  | None => raised_class r = Some "AttributeError" /\ ss' = ss
  | Some c =>
      history ss' = (history ss ++ [inr (container_remove c force)])%list
      /\ trace (state ss') = trace (state ss)
      /\ match container_remove_result cl (history ss') with
         | Ok _ => r = Ok tt
                   /\ self (state ss') = set__docker_container None (self (state ss))
         | Raise e => r = Raise e /\ state ss' = state ss
         end
  end.
Proof.
  destruct (_docker_container (self (state ss))) as [c|] eqn:Hc.
  - rewrite (remove_docker_container_run force ss c Hc).
    destruct (container_remove_result cl (history ss ++ [inr (container_remove c force)])%list)
      as [[]|e] eqn:Ea; cbn [state history self trace]; rewrite Ea; repeat split.
  - unfold remove_docker_container. unfold op_bind at 1.
    rewrite core_the_container, Hc. split; reflexivity.
Qed.

(** X15: stopping leaves the container the current one: [stop] followed by
    [remove] stops and removes the same container, and the removal is not
    tried when the stop failed. *)
Theorem stop_docker_container_keeps_current (force : bool) (ss : Session) (c : Container) :
  _docker_container (self (state ss)) = Some c ->
  let h1 := (history ss ++ [inr (container_stop c)])%list in
  let h2 := (h1 ++ [inr (container_remove c force)])%list in
  let (r, ss') := (stop_docker_container cl ;; remove_docker_container cl force) ss in
  match stop_result cl h1 with
  | Ok _ => history ss' = h2
            /\ match container_remove_result cl h2 with
               | Ok _ => r = Ok tt /\ _docker_container (self (state ss')) = None
               | Raise e => r = Raise e /\ state ss' = state ss
               end
  | Raise e => r = Raise e /\ history ss' = h1 /\ state ss' = state ss
  end.
Proof.
  intros Hc h1 h2. unfold op_bind at 1. unfold stop_docker_container.
  unfold op_bind at 1. rewrite core_the_container, Hc.
  unfold request at 1. fold h1.
  destruct (stop_result cl h1) as [[]|e]; [|repeat split].
  rewrite (remove_docker_container_run force {| state := state ss; history := h1 |} c Hc).
  cbn [state history]. fold h2.
  destruct (container_remove_result cl h2) as [[]|e]; repeat split.
Qed.

(** X16: [pull_docker_image] pulls the first tag only, and keeps the image
    it got as the image of the session; with no tag it raises before any
    call, and a pull that fails leaves the image of the session as it
    was. *)
Theorem pull_docker_image_first_tag
        (image_repo : string) (image_tags : list string) (ss : Session) :
  let (r, ss') := pull_docker_image cl image_repo image_tags ss in
  match image_tags with
  | [] => r = Raise (IndexError "list index out of range") /\ ss' = ss
  | tag0 :: _ =>
      history ss' = (history ss ++ [inr (images_pull image_repo tag0)])%list
      /\ match pull_result cl (history ss') with
         | Ok image => r = Ok image /\ _docker_image (self (state ss')) = Some image
         | Raise e => r = Raise e /\ state ss' = state ss
         end
  end.
Proof.
  unfold pull_docker_image. destruct image_tags as [|tag0 more]; [split; reflexivity|].
  unfold op_bind at 1. unfold request at 1.
  destruct (pull_result cl (history ss ++ [inr (images_pull image_repo tag0)])%list)
    as [image|e] eqn:Ea.
  - unfold op_bind at 1. rewrite core_get_self.
    unfold op_bind at 1. rewrite core_put_self. unfold op_ret.
    cbn [state history self]. rewrite Ea. repeat split.
  - cbn [state history]. rewrite Ea. repeat split.
Qed.

(** X17: [push_docker_image] pushes the tags in the order given, each
    under the same repository, and stops at the first push that fails;
    the session is not changed. *)
Theorem push_docker_image_in_order
        (image_repo : string) (image_tags : list string) (ss : Session) :
  let (r, ss') := push_docker_image cl image_repo image_tags ss in
  exists pushed,
    history ss' = (history ss ++ map (fun tag => inr (images_push image_repo tag)) pushed)%list
    /\ state ss' = state ss
    /\ match r with
       | Ok _ => pushed = image_tags
       | Raise e => (exists rest, image_tags = (pushed ++ rest)%list)
                    /\ pushed <> [] /\ push_result cl (history ss') = Raise e
       end.
Proof.
  unfold push_docker_image.
  exact (op_for_each_requests image_tags (fun tag => images_push image_repo tag)
           (push_result cl) ss).
Qed.

(** X18: [copy_path_from_docker_container] asks the host whether the
    local path is a file and, only when it is not, whether it is a
    directory.  When it is either and [overwrite] is false the method
    raises and runs no command on the host; otherwise it runs the one
    command that copies from the current container, and it needs a
    current container only then. *)
Theorem copy_path_from_docker_container_gate
        (container_path local_path : string) (overwrite : bool) (ss : Session) :
  let h1 := (history ss ++ [inr (os_path_isfile local_path)])%list in
  let t1 := (trace (state ss) ++ [os_path_isdir local_path])%list in
  let present := if isfile cl h1 then true else isdir rt t1 in
  let asked := if isfile cl h1 then h1
               else (h1 ++ [inl (os_path_isdir local_path)])%list in
  let (r, ss') := copy_path_from_docker_container rt cl container_path local_path
                                                  overwrite ss in
  if present && negb overwrite then
    r = Raise (WcEnvManagerError ("File " ++ local_path ++ " already exists"))
    /\ history ss' = asked
  else
    match _docker_container (self (state ss)) with
    | None => raised_class r = Some "AttributeError" /\ history ss' = asked
    | Some c =>
        history ss'
        = (asked ++ [inl (subprocess_run
                            ["docker"; "cp";
                             (container_name c ++ ":" ++ container_path)%string;
                             local_path]
                            (negb (verbose (self (state ss)))) true)])%list
        /\ (r = Ok tt <-> returncode rt (trace (state ss')) = 0%Z)
    end.
Proof.
  intros h1 t1 present asked. unfold copy_path_from_docker_container.
  unfold op_bind at 1. unfold op_bind at 1. unfold ask at 1. fold h1.
  unfold present, asked. clear present asked.
  assert (forall ss1 : Session,
             self (state ss1) = self (state ss) ->
             let (r, ss') :=
               (c <- core (the_container "name") ;;
                core (run_process_on_host rt
                        ["docker"; "cp"; container_name c ++ ":" ++ container_path;
                         local_path])) ss1 in
             match _docker_container (self (state ss)) with
             | None => raised_class r = Some "AttributeError" /\ history ss' = history ss1
             | Some c =>
                 history ss'
                 = (history ss1
                      ++ [inl (subprocess_run
                                 ["docker"; "cp";
                                  (container_name c ++ ":" ++ container_path)%string;
                                  local_path]
                                 (negb (verbose (self (state ss)))) true)])%list
                 /\ (r = Ok tt <-> returncode rt (trace (state ss')) = 0%Z)
             end) as Hcopy.
  { intros ss1 Hself. unfold op_bind at 1. rewrite core_the_container, Hself.
    destruct (_docker_container (self (state ss))) as [c|]; [|split; reflexivity].
    unfold core, run_process_on_host. mrun. rewrite Hself.
    destruct (returncode rt _ =? 0)%Z eqn:Ec; cbn [state history trace];
      rewrite PathFacts.skipn_length_app; (split; [reflexivity|]).
    - apply Z.eqb_eq in Ec. split; [intros _; exact Ec | reflexivity].
    - apply Z.eqb_neq in Ec. split; [discriminate | intros E; contradiction]. }
  destruct (isfile cl h1) eqn:Ef.
  - unfold op_ret at 1. cbn [andb]. destruct overwrite; cbn [negb].
    + apply (Hcopy {| state := state ss; history := h1 |}). reflexivity.
    + split; reflexivity.
  - unfold core at 1. unfold perform at 1. cbn [state history trace self stdout].
    rewrite PathFacts.skipn_length_app. fold t1. cbn [map].
    destruct (isdir rt t1) eqn:Ed; cbn [andb]; destruct overwrite; cbn [negb];
      try (split; reflexivity);
      apply (Hcopy {| state := {| self := self (state ss); trace := t1;
                                  stdout := stdout (state ss) |};
                      history := (h1 ++ [inl (os_path_isdir local_path)])%list |});
      reflexivity.
Qed.

Lemma get_latest_docker_image_run (image_repo : string) (s : State) :
  let t1 := (trace s ++ [images_get image_repo])%list in
  get_latest_docker_image rt image_repo s
  = (match get_result rt t1 with
     | Ok image => Ok (Some image)
     | Raise e => if is_image_not_found e then Ok None else Raise e
     end,
     {| self := self s; trace := t1; stdout := stdout s |}).
Proof.
  intros t1. unfold get_latest_docker_image. mrun. fold t1.
  destruct (get_result rt t1) as [image|e]; [reflexivity|].
  destruct (is_image_not_found e); reflexivity.
Qed.


Lemma get_latest_docker_container_run (s : State) :
  let t1 := (trace s ++ [containers_list true])%list in
  let managed := filter (is_managed rt (self s)) (list_result rt t1) in
  get_latest_docker_container rt s
  = (Ok (hd_error (map snd (sort_reverse (combine (read_times rt t1 managed) managed)))),
     {| self := self s;
        trace := (t1 ++ map (fun c => container_stats c false) managed)%list;
        stdout := stdout s |}).
Proof.
  intros t1 managed. unfold get_latest_docker_container. unfold mbind at 1.
  rewrite get_docker_containers_sorted. fold t1. fold managed.
  destruct (map snd _); reflexivity.
Qed.

(** The constructor after the image was looked for. *)
Lemma init_rest (m0 : WcEnvManager) (t1 : list call) (out : list string)
      (image : option Image) (h : list event) :
  let t2 := (t1 ++ [containers_list true])%list in
  let managed := filter (is_managed rt m0) (list_result rt t2) in
  let latest := hd_error (map snd (sort_reverse
                                     (combine (read_times rt t2 managed) managed))) in
  exists h',
    (core (set_docker_image rt (image_given image)) ;;
     container <- core (get_latest_docker_container rt) ;;
     set_docker_container cl (container_given container))
      {| state := {| self := m0; trace := t1; stdout := out |}; history := h |}
    = (Ok tt,
       {| state := {| self := set__docker_container latest (set__docker_image image m0);
                      trace := (t2 ++ map (fun c => container_stats c false) managed)%list;
                      stdout := out |};
          history := h' |}).
Proof.
  intros t2 managed latest. unfold op_bind at 1.
  rewrite (core_quiet (set_docker_image rt (image_given image)) _ (Ok tt)
             {| self := set__docker_image image m0; trace := t1; stdout := out |})
    by reflexivity.
  unfold op_bind at 1.
  rewrite (core_appends _ _ _ _ _ (get_latest_docker_container_run _)
             (eq_sym (app_assoc _ _ _))).
  cbn [state history self trace stdout]. fold t2.
  change (is_managed rt (set__docker_image image m0)) with (is_managed rt m0).
  fold managed. fold latest.
  unfold set_docker_container. unfold op_bind at 1. unfold op_ret at 1.
  unfold op_bind at 1. rewrite core_get_self, core_put_self.
  eexists. reflexivity.
Qed.


End LifecycleFacts.

Lemma remove_docker_containers_removes_managed_witness :
  let run := remove_docker_containers Fixture.two_managed Daemon.granting true
               (session (Fixture.running (Fixture.manager []))) in
  history (snd run)
  = [inl (containers_list true);
     inr (container_remove Fixture.A true);
     inr (container_remove Fixture.B true)]
  /\ _docker_container (self (state (snd run))) = None.
Proof.
  intros run.
  pose proof (remove_docker_containers_removes_managed Fixture.two_managed Daemon.granting
                true (session (Fixture.running (Fixture.manager [])))) as H.
  fold run in H.
  assert (fst run = Ok tt) as Er by (vm_compute; reflexivity).
  destruct run as [r ss']. cbn [fst snd] in *. subst r.
  destruct H as (attempted & Hh & _ & -> & Hs).
  split; [exact Hh | rewrite Hs; reflexivity].
Defined.

Lemma remove_docker_container_forgets_on_success_witness :
  let run := remove_docker_container Daemon.granting false
               (session (Fixture.running (Fixture.manager []))) in
  history (snd run) = [inr (container_remove Fixture.c0 false)]
  /\ _docker_container (self (state (snd run))) = None.
Proof.
  intros run.
  pose proof (remove_docker_container_forgets_on_success Daemon.granting false
                (session (Fixture.running (Fixture.manager [])))) as H.
  fold run in H. destruct run as [r ss']. cbn [snd].
  vm_compute in H. destruct H as (Hh & _ & _ & Hs).
  split; [exact Hh | exact (f_equal _docker_container Hs)].
Defined.

Lemma stop_docker_container_keeps_current_witness :
  let run := op_bind (stop_docker_container Daemon.granting)
                     (fun _ => remove_docker_container Daemon.granting true)
                     (session (Fixture.running (Fixture.manager []))) in
  history (snd run)
  = [inr (container_stop Fixture.c0); inr (container_remove Fixture.c0 true)]
  /\ _docker_container (self (state (snd run))) = None.
Proof.
  intros run.
  pose proof (stop_docker_container_keeps_current Daemon.granting true
                (session (Fixture.running (Fixture.manager []))) Fixture.c0 eq_refl) as H.
  fold run in H. destruct run as [r ss']. cbn [snd].
  destruct H as (Hh & _ & Hs). split; [exact Hh | exact Hs].
Defined.

Lemma pull_docker_image_first_tag_witness :
  let run := pull_docker_image Daemon.granting "karrlab/wc_env_dependencies"
               ["latest"; "0.0.1"] (session (Fixture.start (Fixture.manager []))) in
  history (snd run) = [inr (images_pull "karrlab/wc_env_dependencies" "latest")]
  /\ _docker_image (self (state (snd run)))
     = Some {| image_id := "sha256:1";
               image_tags := ["karrlab/wc_env_dependencies:latest"] |}.
Proof.
  intros run.
  pose proof (pull_docker_image_first_tag Daemon.granting "karrlab/wc_env_dependencies"
                ["latest"; "0.0.1"] (session (Fixture.start (Fixture.manager [])))) as H.
  fold run in H. destruct run as [r ss']. cbn [snd].
  destruct H as (Hh & H). cbn [Daemon.granting pull_result] in H.
  destruct H as (_ & Hs). split; [exact Hh | exact Hs].
Defined.

Lemma push_docker_image_in_order_witness :
  let run := push_docker_image (Daemon.denying "0.0.1") "karrlab/wc_env"
               ["latest"; "0.0.1"; "0.0.2"] (session (Fixture.start (Fixture.manager []))) in
  fst run = Raise (Foreign Daemon.denied)
  /\ history (snd run)
     = [inr (images_push "karrlab/wc_env" "latest");
        inr (images_push "karrlab/wc_env" "0.0.1")].
Proof.
  intros run.
  pose proof (push_docker_image_in_order (Daemon.denying "0.0.1") "karrlab/wc_env"
                ["latest"; "0.0.1"; "0.0.2"]
                (session (Fixture.start (Fixture.manager [])))) as H.
  fold run in H.
  assert (history (snd run)
          = [inr (images_push "karrlab/wc_env" "latest");
             inr (images_push "karrlab/wc_env" "0.0.1")]) as Eh by (vm_compute; reflexivity).
  destruct run as [[[]|e] ss']; cbn [fst snd] in *;
    destruct H as (pushed & Hh & _ & H).
  - subst pushed. rewrite Eh in Hh. discriminate Hh.
  - destruct H as (_ & _ & Ha). split; [|exact Eh]. rewrite Eh in Ha.
    symmetry. exact Ha.
Defined.

Lemma copy_path_from_docker_container_gate_witness :
  let run := copy_path_from_docker_container Fixture.quiet Daemon.with_files
               "/root/out.txt" "/home/u/out.txt" false
               (session (Fixture.running (Fixture.manager []))) in
  fst run = Raise (WcEnvManagerError "File /home/u/out.txt already exists")
  /\ history (snd run) = [inr (os_path_isfile "/home/u/out.txt")].
Proof.
  intros run.
  pose proof (copy_path_from_docker_container_gate Fixture.quiet Daemon.with_files
                "/root/out.txt" "/home/u/out.txt" false
                (session (Fixture.running (Fixture.manager [])))) as H.
  fold run in H. destruct run as [r ss']. cbn [fst snd].
  cbn [Daemon.with_files isfile andb negb] in H. exact H.
Defined.



(* ================================================================== *)
(** ** The calls of a setup *)

Section CallsOfSetup.

Variable rt : Runtime.
Variable allowed : call -> bool.

Lemma only_calls_quiet {A} (m : M A) :
  (forall s, trace (snd (m s)) = trace s) -> only_calls allowed m.
Proof. intros H s. exists []. rewrite H, app_nil_r. split; reflexivity. Qed.

Lemma only_calls_ret {A} (a : A) : only_calls allowed (ret a).
Proof. apply only_calls_quiet. reflexivity. Qed.

Lemma only_calls_raise {A} (e : exn) : only_calls allowed (@raise A e).
Proof. apply only_calls_quiet. reflexivity. Qed.

Lemma only_calls_lift {A} (r : Res A) : only_calls allowed (lift r).
Proof. apply only_calls_quiet. reflexivity. Qed.

Lemma only_calls_get_self : only_calls allowed get_self.
Proof. apply only_calls_quiet. reflexivity. Qed.

Lemma only_calls_print (line : string) : only_calls allowed (print line).
Proof. apply only_calls_quiet. reflexivity. Qed.

Lemma only_calls_perform {R} (c : call) (answer : list call -> R) :
  allowed c = true -> only_calls allowed (perform c answer).
Proof. intros H s. exists [c]. simpl. rewrite H. split; reflexivity. Qed.

Lemma only_calls_bind {A B} (m : M A) (k : A -> M B) :
  only_calls allowed m -> (forall a, only_calls allowed (k a)) ->
  only_calls allowed (mbind m k).
Proof.
  intros Hm Hk s. unfold mbind. destruct (Hm s) as (n1 & E1 & F1).
  destruct (m s) as [[a|e] s1]; cbn [snd] in E1.
  - destruct (Hk a s1) as (n2 & E2 & F2). exists (n1 ++ n2)%list.
    rewrite E2, E1, app_assoc, forallb_app, F1, F2. split; reflexivity.
  - exists n1. split; [exact E1 | exact F1].
Qed.

Lemma only_calls_when (b : bool) (m : M unit) :
  only_calls allowed m -> only_calls allowed (when b m).
Proof. intros H. destruct b; [exact H | apply only_calls_ret]. Qed.

Lemma only_calls_for_each {A} (l : list A) (body : A -> M unit) :
  (forall x, only_calls allowed (body x)) -> only_calls allowed (for_each l body).
Proof.
  intros H. induction l as [|x l IH]; simpl.
  - apply only_calls_ret.
  - apply only_calls_bind; [apply H | intros _; exact IH].
Qed.

Lemma only_calls_the_container (attr : string) : only_calls allowed (the_container attr).
Proof.
  unfold the_container. apply only_calls_bind; [apply only_calls_get_self|].
  intros m. destruct (_docker_container m); [apply only_calls_ret | apply only_calls_raise].
Qed.

Lemma only_calls_run_process_in_docker_container
      (cmd : command) (work_dir : option string)
      (env : option (list (string * string))) (check : bool) (user : WcEnvUser) :
  (forall c cmd' work_dir' env', allowed (exec_run c cmd' work_dir' env'
                                                   (WcEnvUser_.name user)) = true) ->
  only_calls allowed (run_process_in_docker_container rt cmd work_dir env check user).
Proof.
  intros Hu. unfold run_process_in_docker_container.
  apply only_calls_bind; [apply only_calls_the_container|]. intros c.
  apply only_calls_bind; [apply only_calls_perform, Hu|]. intros result.
  apply only_calls_bind; [apply only_calls_get_self|]. intros m.
  apply only_calls_bind; [apply only_calls_when, only_calls_print|]. intros _.
  destruct (check && negb (snd result =? 0)%Z); [|apply only_calls_ret].
  apply only_calls_bind; [|intros w; apply only_calls_raise].
  destruct work_dir as [[|x w]|]; try apply only_calls_ret;
    (apply only_calls_bind; [apply only_calls_the_container|]; intros c2;
     apply only_calls_bind; [apply only_calls_perform, Hu|]; intros r2;
     apply only_calls_ret).
Qed.

Lemma only_calls_run_process_on_host (cmd : list string) :
  (forall piped, allowed (subprocess_run cmd piped true) = true) ->
  only_calls allowed (run_process_on_host rt cmd).
Proof.
  intros Hc. unfold run_process_on_host.
  apply only_calls_bind; [apply only_calls_get_self|]. intros m.
  apply only_calls_bind; [apply only_calls_perform, Hc|]. intros code.
  destruct (code =? 0)%Z; [apply only_calls_ret | apply only_calls_raise].
Qed.

End CallsOfSetup.

Section SetupCalls.

Variable rt : Runtime.

Lemma setup_call_run_process_in_docker_container
      (cmd : command) (work_dir : option string)
      (env : option (list (string * string))) (check : bool) :
  only_calls setup_call (run_process_in_docker_container rt cmd work_dir env check root).
Proof. apply only_calls_run_process_in_docker_container. reflexivity. Qed.

Lemma setup_call_copy_path_to_docker_container
      (local_path container_path : string) (overwrite : bool) :
  only_calls setup_call
             (copy_path_to_docker_container rt local_path container_path overwrite root).
Proof.
  unfold copy_path_to_docker_container.
  apply only_calls_bind; [apply setup_call_run_process_in_docker_container|].
  intros [is_path code].
  destruct (negb (String.eqb is_path "") && negb overwrite); [apply only_calls_raise|].
  apply only_calls_bind; [apply only_calls_the_container|]. intros c.
  apply only_calls_run_process_on_host. reflexivity.
Qed.

Lemma setup_call_copy_config_files_to_docker_container (overwrite : bool) :
  only_calls setup_call (copy_config_files_to_docker_container rt overwrite).
Proof.
  unfold copy_config_files_to_docker_container.
  apply only_calls_bind; [apply setup_call_run_process_in_docker_container|].
  intros [dirname code].
  apply only_calls_bind; [apply only_calls_perform; reflexivity|]. intros is_dir.
  destruct is_dir; [|apply only_calls_ret].
  apply only_calls_bind; [apply setup_call_copy_path_to_docker_container|]. intros _.
  apply only_calls_bind; [apply only_calls_perform; reflexivity|]. intros opened.
  apply only_calls_bind; [apply only_calls_lift|]. intros _.
  apply only_calls_bind; [apply only_calls_perform; reflexivity|]. intros loaded.
  apply only_calls_bind; [apply only_calls_perform; reflexivity|]. intros _.
  apply only_calls_bind; [apply only_calls_lift|]. intros paths.
  apply only_calls_for_each. intros [rel_src abs_dest].
  apply only_calls_bind; [apply setup_call_run_process_in_docker_container|]. intros _.
  apply setup_call_copy_path_to_docker_container.
Qed.

Lemma setup_call_install_python_packages_in_docker_container
      (packages : string) (upgrade process_dependency_links : bool) :
  only_calls setup_call
             (install_python_packages_in_docker_container rt packages upgrade
                                                          process_dependency_links).
Proof.
  unfold install_python_packages_in_docker_container.
  apply only_calls_bind; [apply only_calls_perform; reflexivity|]. intros [file name].
  apply only_calls_bind; [apply only_calls_perform; reflexivity|]. intros _.
  apply only_calls_bind; [apply only_calls_perform; reflexivity|]. intros _.
  apply only_calls_bind; [apply setup_call_run_process_in_docker_container|].
  intros [temp code].
  apply only_calls_bind; [apply setup_call_copy_path_to_docker_container|]. intros _.
  apply only_calls_bind; [apply only_calls_get_self|]. intros m.
  apply only_calls_bind; [apply setup_call_run_process_in_docker_container|]. intros _.
  apply only_calls_bind; [apply only_calls_perform; reflexivity|]. intros _.
  apply only_calls_bind; [apply setup_call_run_process_in_docker_container|]. intros _.
  apply only_calls_ret.
Qed.

(** X21: whatever the world answers, a setup makes no other calls than
    commands in the container, each of them as [root], checked copies
    into the container with [docker cp], and operations on the files of
    the host: it builds, tags, gets and removes no image, and lists and
    starts no container. *)
Theorem setup_docker_container_calls (upgrade : bool) (s : State) :
  exists new,
    trace (snd (setup_docker_container rt upgrade s)) = (trace s ++ new)%list
    /\ forallb setup_call new = true.
Proof.
  revert s. change (only_calls setup_call (setup_docker_container rt upgrade)).
  unfold setup_docker_container.
  apply only_calls_bind; [apply only_calls_get_self|]. intros m.
  apply only_calls_bind; [apply setup_call_copy_config_files_to_docker_container|].
  intros _.
  apply only_calls_bind.
  { apply only_calls_for_each. intros path.
    apply setup_call_copy_path_to_docker_container. }
  intros _.
  apply only_calls_bind.
  { unfold install_github_ssh_host_in_docker_container.
    repeat (apply only_calls_bind;
            [try apply setup_call_run_process_in_docker_container | intros _]);
      try apply only_calls_ret.
    destruct upgrade; [|apply only_calls_ret].
    apply only_calls_bind; [apply setup_call_run_process_in_docker_container|].
    intros _. apply only_calls_ret. }
  intros _.
  apply only_calls_bind.
  { unfold test_github_ssh_access_in_docker_container.
    apply only_calls_bind; [apply setup_call_run_process_in_docker_container|].
    intros [message code]. apply only_calls_ret. }
  intros ok.
  apply only_calls_bind; [destruct ok; [apply only_calls_ret | apply only_calls_raise]|].
  intros _.
  apply only_calls_bind;
    [apply setup_call_install_python_packages_in_docker_container|]. intros _.
  apply only_calls_bind;
    [apply setup_call_install_python_packages_in_docker_container|]. intros _.
  apply setup_call_install_python_packages_in_docker_container.
Qed.

End SetupCalls.

Lemma setup_docker_container_calls_witness :
  forallb setup_call
          (trace (snd (setup_docker_container Fixture.provisioning true
                         (Fixture.running (Fixture.manager [])))))
  = true.
Proof.
  destruct (setup_docker_container_calls Fixture.provisioning true
              (Fixture.running (Fixture.manager []))) as (new & -> & H).
  exact H.
Defined.

(* ================================================================== *)
(** ** The temporary files of an installation *)

Section TemporaryFiles.

Variable rt : Runtime.




End TemporaryFiles.


(* ================================================================== *)
(** ** The configuration files of third parties *)

Section ThirdPartyFiles.

Variable rt : Runtime.



Hypothesis commands_succeed : forall t, snd (exec_result rt t) = 0%Z.
Hypothesis copies_succeed : forall t, returncode rt t = 0%Z.



End ThirdPartyFiles.


(* ================================================================== *)
(** ** From one method to the next *)

Section Composition.

Variable rt : Runtime.
Variable cl : Client.

#[local] Open Scope op_scope.

(** X24: the environment recognises the containers it creates: when the
    name format reads the name it wrote and the daemon names the
    container as it was asked to, a container that [create_docker_container]
    created is among the containers of the environment whenever the daemon
    lists it. *)
Theorem created_container_is_managed (s : State) (tty : bool) (c : Container) :
  let t1 := (trace s ++ [datetime_now])%list in
  let name := strftime rt (now rt t1) (docker_container_name_format (self s)) in
  let t2 := (t1 ++ [containers_run (base_docker_image_repo (self s)) name
                                   (paths_to_mount_to_docker_container (self s))
                                   true tty true (WcEnvUser_.name root)])%list in
  run_result rt t2 = Ok c ->
  container_name c = name ->
  strptime rt name (docker_container_name_format (self s)) <> None ->
  In c (list_result rt (t2 ++ [containers_list true])%list) ->
  exists containers,
    fst (mbind (create_docker_container rt tty)
               (fun _ => get_docker_containers rt false) s)
    = Ok containers
    /\ In c containers.
Proof.
  intros t1 name t2 Hrun Hname Hparse Hlisted.
  unfold mbind at 1.
  assert (create_docker_container rt tty s
          = (Ok c, {| self := set__docker_container (Some c) (self s);
                      trace := t2; stdout := stdout s |})) as ->.
  { unfold create_docker_container, make_docker_container_name. mrun.
    fold t1. fold name. fold t2. rewrite Hrun. reflexivity. }
  rewrite get_docker_containers_listed. cbn [self trace stdout fst].
  eexists. split; [reflexivity|].
  apply filter_In. split; [exact Hlisted|].
  unfold is_managed. cbn [set__docker_container docker_container_name_format].
  rewrite Hname. destruct (strptime rt name _); [reflexivity | contradiction].
Qed.

(** A constructor that returns has set the options, the image and the
    container, and nothing else. *)
Lemma init_returns (default_config : WcEnvManager) (a : Args.t) (ss : Session) :
  let (r, ss') := init rt cl default_config a ss in
  r = Ok tt ->
  exists image container,
    self (state ss')
    = set__docker_container container
        (set__docker_image image (handle_options default_config a)).
Proof.
  unfold init.
  unfold op_bind at 1. rewrite core_put_self.
  unfold op_bind at 1. unfold request at 1. cbn [state history].
  destruct (from_env_result cl (history ss ++ [inr docker_from_env])%list) as [[]|e0];
    [|discriminate].
  unfold op_bind at 1. rewrite core_get_self. cbn [state self].
  unfold op_bind at 1.
  rewrite (core_appends _ _ _ _ _ (get_latest_docker_image_run rt _ _) eq_refl).
  cbn [state history self trace stdout].
  destruct (get_result rt _) as [image|e]; [|destruct (is_image_not_found e)].
  - match goal with
    | |- context [{| state := {| self := ?m; trace := ?t; stdout := ?o |};
                     history := ?h |}] =>
        destruct (init_rest rt cl m t o (Some image) h) as [h' ->]
    end.
    intros _. do 2 eexists. reflexivity.
  - match goal with
    | |- context [{| state := {| self := ?m; trace := ?t; stdout := ?o |};
                     history := ?h |}] =>
        destruct (init_rest rt cl m t o None h) as [h' ->]
    end.
    intros _. do 2 eexists. reflexivity.
  - discriminate.
Qed.

(** X25: a manager logs in with the credentials its constructor was
    given, and with those of the default configuration for the ones it
    was not given: an argument that is an empty string is a credential. *)
Theorem login_dockerhub_uses_configured_credentials
        (default_config : WcEnvManager) (a : Args.t) (ss : Session) :
  fst (init rt cl default_config a ss) = Ok tt ->
  let (r, ss') := (init rt cl default_config a ;; login_dockerhub cl) ss in
  exists before,
    history ss'
    = (before
         ++ [inr (client_login
                    (option_or_default (Args.dockerhub_username a)
                                       (dockerhub_username default_config))
                    (option_or_default (Args.dockerhub_password a)
                                       (dockerhub_password default_config)))])%list
    /\ r = login_result cl (history ss').
Proof.
  intros Hinit. pose proof (init_returns default_config a ss) as H.
  unfold op_bind at 1.
  destruct (init rt cl default_config a ss) as [r1 ss1]. cbn [fst] in Hinit. subst r1.
  destruct (H eq_refl) as (image & container & Hself).
  unfold login_dockerhub.
  unfold op_bind at 1. rewrite core_get_self, Hself. unfold request.
  exists (history ss1). split; reflexivity.
Qed.

End Composition.

Lemma created_container_is_managed_witness :
  let rt := Fixture.world [Fixture.other; Fixture.c0] (fun _ => ("", 0%Z)) (fun _ => "")
                          (fun _ => 0%Z) (fun _ => false) Fixture.built in
  exists containers,
    fst (mbind (create_docker_container rt true)
               (fun _ => get_docker_containers rt false)
               (Fixture.start (Fixture.manager [])))
    = Ok containers
    /\ In Fixture.c0 containers.
Proof.
  intros rt.
  apply (created_container_is_managed rt (Fixture.start (Fixture.manager [])) true
           Fixture.c0 eq_refl eq_refl).
  - vm_compute. discriminate.
  - right. left. reflexivity.
Defined.

Lemma login_dockerhub_uses_configured_credentials_witness :
  let a := {| Args.base_docker_image_repo := None;
              Args.base_docker_image_tags := None;
              Args.docker_image_repo := None;
              Args.docker_image_tags := None;
              Args.dockerfile_path := None;
              Args.docker_image_build_args := None;
              Args.docker_image_context_path := None;
              Args.docker_container_name_format := None;
              Args.paths_to_copy_to_docker_container := None;
              Args.paths_to_mount_to_docker_container := None;
              Args.ssh_key_container_path := None;
              Args.python_version_in_container := None;
              Args.python_packages_from_pypi := None;
              Args.python_packages_from_github := None;
              Args.python_packages_from_host := None;
              Args.dockerhub_username := Some "karrlab";
              Args.dockerhub_password := Some "";
              Args.verbose := None |} in
  last (history (snd (op_bind (init Fixture.quiet Daemon.granting Scenario.secret a)
                              (fun _ => login_dockerhub Daemon.granting)
                              (session (Fixture.start (Fixture.manager []))))))
       (inr docker_from_env)
  = inr (client_login "karrlab" "").
Proof.
  intros a.
  pose proof (login_dockerhub_uses_configured_credentials Fixture.quiet Daemon.granting
                Scenario.secret a (session (Fixture.start (Fixture.manager [])))
                eq_refl) as H.
  destruct (op_bind _ _ _) as [r ss']. cbn [snd].
  destruct H as (before & -> & _). rewrite last_last. reflexivity.
Defined.

(* ================================================================== *)
(** ** The failures the manager reports *)

Section ReportedFailures.

Variable rt : Runtime.
Variable cl : Client.

Lemma copy_path_to_docker_container_refuses
      (s : State) (c : Container) (local_path container_path : string)
      (user : WcEnvUser) (reported : string) :
  _docker_container (self s) = Some c ->
  let check := exec_run c (CmdStr ("bash -c " ++ Str.dq ++ "if [ -f " ++ container_path
                                    ++ " ] || [ -d " ++ container_path
                                    ++ " ]; then echo 1; fi" ++ Str.dq))
                        None (Some []) (WcEnvUser_.name user) in
  let answer := exec_result rt (trace s ++ [check]) in
  fst answer = reported ++ Fmt.nl -> reported <> "" -> snd answer = 0%Z ->
  fst (copy_path_to_docker_container rt local_path container_path false user s)
  = Raise (WcEnvManagerError ("File " ++ container_path ++ " already exists")).
Proof.
  intros Hc check answer Hout Hne Hexit.
  unfold copy_path_to_docker_container, mbind.
  rewrite (run_process_in_docker_container_returns rt s c _ None None true user Hc
             (or_intror Hexit)).
  fold check. fold answer. cbv beta iota. simpl fst.
  rewrite Hout, drop_last_newline, (PathFacts.eqb_not_empty reported Hne).
  reflexivity.
Qed.

Lemma copy_path_from_docker_container_refuses
      (ss : Session) (container_path local_path : string) :
  isfile cl (history ss ++ [inr (os_path_isfile local_path)])%list = true
  \/ isdir rt (trace (state ss) ++ [os_path_isdir local_path])%list = true ->
  fst (copy_path_from_docker_container rt cl container_path local_path false ss)
  = Raise (WcEnvManagerError ("File " ++ local_path ++ " already exists")).
Proof.
  intros Hpresent. unfold copy_path_from_docker_container.
  unfold op_bind at 1. unfold op_bind at 1. unfold ask at 1.
  destruct (isfile cl (history ss ++ [inr (os_path_isfile local_path)])%list) eqn:Ef.
  - reflexivity.
  - destruct Hpresent as [Hf | Hd]; [discriminate Hf|].
    unfold core at 1. unfold perform at 1. cbn [state history trace self stdout].
    rewrite Hd. reflexivity.
Qed.

Lemma build_base_docker_image_not_a_directory (s : State) :
  let m := self s in
  isdir rt (trace s ++ [os_path_isdir (docker_image_context_path m)])%list = false ->
  fst (build_base_docker_image rt s)
  = Raise (WcEnvManagerError ("Docker image context " ++ Str.dq
                              ++ docker_image_context_path m
                              ++ Str.dq ++ " must be a directory")).
Proof.
  intros m Hdir. unfold build_base_docker_image. mrun. fold m.
  destruct (verbose m); mrun; rewrite Hdir; reflexivity.
Qed.

Lemma run_process_in_docker_container_failure_message
      (s : State) (c : Container) (cmd : command) (work_dir : option string)
      (env : option (list (string * string))) (user : WcEnvUser) :
  _docker_container (self s) = Some c ->
  let env' := match env with Some ((_ :: _) as e) => e | _ => [] end in
  let t1 := (trace s ++ [exec_run c cmd work_dir (Some env') (WcEnvUser_.name user)])%list in
  snd (exec_result rt t1) <> 0%Z ->
  exists details,
    fst (run_process_in_docker_container rt cmd work_dir env true user s)
    = Raise (WcEnvManagerError
               ("Command not successfully executed in Docker container:" ++ Fmt.nl
                ++ details)).
Proof.
  intros Hc env' t1 Hexit.
  unfold run_process_in_docker_container, the_container. mrun.
  rewrite Hc. mrun. fold env'. fold t1.
  apply Z.eqb_neq in Hexit.
  destruct (verbose (self s)) eqn:V; mrun; rewrite Hexit; cbn [andb negb];
    destruct work_dir as [[|x w]|]; mrun; rewrite ?Hc; mrun;
    eexists; reflexivity.
Qed.

(** C9 (amended): every [raise] statement of the manager raises the one
    class [WcEnvManagerError], and the failures reported this way are told
    apart by the message alone: a path that is not mounted, on the host or
    in the container; a destination that exists, in the container or on
    the host; a context of the image that is not a directory; a daemon
    that cannot be reached, a build specification with an error, a build
    that fails and any other failure of the build; and a command that
    fails in the container. *)
Theorem reported_failures_are_WcEnvManagerError :
  (forall m host_path,
      let resolved := posixpath.abspath (cwd rt) host_path in
      (forall e, In e (paths_to_mount_to_docker_container m) ->
                 Str.startswith resolved (posixpath.abspath (cwd rt) (fst e)) = false) ->
      convert_host_to_container_path rt m host_path
      = Raise (WcEnvManagerError (resolved ++ " is not mounted into the container")))
  /\ (forall m container_path,
         (forall e, In e (paths_to_mount_to_docker_container m) ->
                    Str.startswith container_path (bind (snd e)) = false) ->
         convert_container_to_host_path rt m container_path
         = Raise (WcEnvManagerError
                    (container_path ++ " is not mounted into the container")))
  /\ (forall s c local_path container_path user reported,
         _docker_container (self s) = Some c ->
         let check :=
           exec_run c (CmdStr ("bash -c " ++ Str.dq ++ "if [ -f " ++ container_path
                               ++ " ] || [ -d " ++ container_path
                               ++ " ]; then echo 1; fi" ++ Str.dq))
                    None (Some []) (WcEnvUser_.name user) in
         let answer := exec_result rt (trace s ++ [check]) in
         fst answer = reported ++ Fmt.nl -> reported <> "" -> snd answer = 0%Z ->
         fst (copy_path_to_docker_container rt local_path container_path false user s)
         = Raise (WcEnvManagerError ("File " ++ container_path ++ " already exists")))
  /\ (forall ss container_path local_path,
         isfile cl (history ss ++ [inr (os_path_isfile local_path)])%list = true
         \/ isdir rt (trace (state ss) ++ [os_path_isdir local_path])%list = true ->
         fst (copy_path_from_docker_container rt cl container_path local_path false ss)
         = Raise (WcEnvManagerError ("File " ++ local_path ++ " already exists")))
  /\ (forall s,
         isdir rt (trace s ++ [os_path_isdir (docker_image_context_path (self s))])%list
         = false ->
         fst (build_base_docker_image rt s)
         = Raise (WcEnvManagerError
                    ("Docker image context " ++ Str.dq
                     ++ docker_image_context_path (self s)
                     ++ Str.dq ++ " must be a directory")))
  /\ (forall s exception,
         let m := self s in
         let t1 := (trace s ++ [os_path_isdir (docker_image_context_path m)])%list in
         let t2 := (t1 ++ [open_ (dockerfile_path m) "rb"])%list in
         let t3 := (t2 ++ [images_build (docker_image_context_path m) (dockerfile_path m)
                                        true (docker_image_build_args m)])%list in
         isdir rt t1 = true -> open_result rt t2 = Ok tt ->
         build_result rt t3 = inl exception ->
         fst (build_base_docker_image rt s)
         = Raise (WcEnvManagerError
                    (match clause exception with
                     | ConnectionError_ => "Docker connection error: service must be running:"
                     | APIError_ => "Docker API error: Dockerfile contains syntax errors:"
                     | BuildError_ => "Docker build error: Error building Dockerfile:"
                     | Exception_ => class_name exception ++ ":"
                     end ++ Fmt.nl ++ "  " ++ Str.indent_newlines (text exception))))
  /\ (forall s c cmd work_dir env user,
         _docker_container (self s) = Some c ->
         let env' := match env with Some ((_ :: _) as e) => e | _ => [] end in
         let t1 := (trace s ++ [exec_run c cmd work_dir (Some env')
                                         (WcEnvUser_.name user)])%list in
         snd (exec_result rt t1) <> 0%Z ->
         exists details,
           fst (run_process_in_docker_container rt cmd work_dir env true user s)
           = Raise (WcEnvManagerError
                      ("Command not successfully executed in Docker container:" ++ Fmt.nl
                       ++ details))).
Proof.
  split.
  { intros m host_path resolved Hnone. unfold convert_host_to_container_path.
    apply convert_host_loop_none, Hnone. }
  split.
  { intros m container_path Hnone. unfold convert_container_to_host_path.
    apply convert_container_loop_none, Hnone. }
  split.
  { intros s c local_path container_path user reported.
    apply copy_path_to_docker_container_refuses. }
  split.
  { intros ss container_path local_path.
    apply copy_path_from_docker_container_refuses. }
  split.
  { intros s. apply build_base_docker_image_not_a_directory. }
  split.
  { intros s exception m t1 t2 t3 Hdir Hopen Hbuild.
    destruct (build_base_docker_image_wraps rt s exception Hdir Hopen Hbuild)
      as (message & E & _ & ->).
    exact E. }
  intros s c cmd work_dir env user.
  apply run_process_in_docker_container_failure_message.
Qed.

End ReportedFailures.

Lemma reported_failures_are_WcEnvManagerError_witness :
  let s := Fixture.start (Fixture.manager []) in
  let running := Fixture.running (Fixture.manager []) in
  convert_host_to_container_path Fixture.quiet (Fixture.manager []) "data"
  = Raise (WcEnvManagerError "/work/data is not mounted into the container")
  /\ convert_container_to_host_path Fixture.quiet (Fixture.manager []) "/c/data"
     = Raise (WcEnvManagerError "/c/data is not mounted into the container")
  /\ fst (copy_path_to_docker_container (Fixture.answering ("1" ++ Fmt.nl) 0)
            "/home/u/.wc" "/root/.wc" false root running)
     = Raise (WcEnvManagerError "File /root/.wc already exists")
  /\ fst (copy_path_from_docker_container Fixture.quiet Daemon.with_files
            "/root/out.txt" "/home/u/out.txt" false (session running))
     = Raise (WcEnvManagerError "File /home/u/out.txt already exists")
  /\ raised_class (fst (build_base_docker_image Fixture.quiet s))
     = Some "WcEnvManagerError"
  /\ raised_class (fst (build_base_docker_image
                          (Fixture.failing_build Fixture.syntax_error) s))
     = Some "WcEnvManagerError"
  /\ raised_class (fst (run_process_in_docker_container Scenario.command_not_found
                          (CmdStr "nope") None None true root running))
     = Some "WcEnvManagerError".
Proof.
  intros s running.
  split.
  { apply (proj1 (reported_failures_are_WcEnvManagerError Fixture.quiet Daemon.granting)).
    intros e []. }
  split.
  { destruct (reported_failures_are_WcEnvManagerError Fixture.quiet Daemon.granting)
      as (_ & H & _).
    apply H. intros e []. }
  split.
  { destruct (reported_failures_are_WcEnvManagerError
                (Fixture.answering ("1" ++ Fmt.nl) 0) Daemon.granting)
      as (_ & _ & H & _).
    apply (H running Fixture.c0 "/home/u/.wc" "/root/.wc" root "1");
      [reflexivity | reflexivity | discriminate | reflexivity]. }
  split.
  { destruct (reported_failures_are_WcEnvManagerError Fixture.quiet Daemon.with_files)
      as (_ & _ & _ & H & _).
    apply H. left. reflexivity. }
  split.
  { destruct (reported_failures_are_WcEnvManagerError Fixture.quiet Daemon.granting)
      as (_ & _ & _ & _ & H & _).
    rewrite (H s eq_refl). reflexivity. }
  split.
  { destruct (reported_failures_are_WcEnvManagerError
                (Fixture.failing_build Fixture.syntax_error) Daemon.granting)
      as (_ & _ & _ & _ & _ & H & _).
    rewrite (H s Fixture.syntax_error eq_refl eq_refl eq_refl). reflexivity. }
  destruct (reported_failures_are_WcEnvManagerError
              Scenario.command_not_found Daemon.granting)
    as (_ & _ & _ & _ & _ & _ & H).
  destruct (H running Fixture.c0 (CmdStr "nope") None None root eq_refl
              ltac:(vm_compute; discriminate)) as [details ->].
  reflexivity.
Defined.
